(** * The experiment orchestrator of brainfeatures

    A shallow embedding of [brainfeatures/experiment/experiment.py]: the
    [Experiment] class with its configuration checks, its cleaning,
    loading and feature-generation stages, the validation and final
    evaluation glue and the [run] driver.

    Python objects become records, dictionaries become finite maps
    ([gmap] with string keys; the [OrderedDict] of data sets becomes an
    association list, since [run] iterates its keys in order), and methods
    become computations in a state-and-exception monad: an exception leaves
    the mutations made so far in place, as it does in Python. *)

From Stdlib Require Import ZArith QArith String List Lia.
From stdpp Require Import gmap strings list pretty.

Open Scope Z_scope.

(** ** Python values *)

Inductive exn :=
| AssertionError (msg : string)
| AttributeError (attr : string)
| KeyError (key : string)
| IndexError (msg : string)
| TypeError (msg : string)
| ValueError (msg : string).

Inductive outcome (A : Type) :=
| Return (a : A)
| Raise (e : exn).
Arguments Return {A} a.
Arguments Raise {A} e.

(** Keyword arguments handed to a cleaning or feature-generation
    procedure.  Their contents are never inspected by the orchestrator. *)
Abbreviation kwargs := (gmap string Z).

(** The scalars a caller can pass as a configuration value.  A float is
    represented by its exact rational value: the orchestrator only tests
    its type, its truth value and equality with small integers. *)
Inductive pyval :=
| PNone
| PBool (b : bool)
| PInt (z : Z)
| PFloat (q : Q)
| PStr (s : string)
| PDict (kw : kwargs).

(** [x is None] / [x is not None] *)
Definition is_None (v : pyval) : bool :=
  match v with PNone => true | _ => false end.

(** [type(x) is int]: a [bool] is not an [int] for this test. *)
Definition type_is_int (v : pyval) : bool :=
  match v with PInt _ => true | _ => false end.

Definition type_is_float (v : pyval) : bool :=
  match v with PFloat _ => true | _ => false end.

Definition type_is_dict (v : pyval) : bool :=
  match v with PDict _ => true | _ => false end.

(** The numeric value Python compares with [==]; [True == 1]. *)
Definition numeric (v : pyval) : option Q :=
  match v with
  | PBool b => Some (if b then 1%Q else 0%Q)
  | PInt z => Some (inject_Z z)
  | PFloat q => Some q
  | _ => None
  end.

(** [bool(x)] *)
Definition truthy (v : pyval) : bool :=
  match v with
  | PNone => false
  | PBool b => b
  | PInt z => negb (z =? 0)
  | PFloat q => negb (Qeq_bool q 0)
  | PStr s => negb (String.eqb s "")
  | PDict kw => negb (bool_decide (kw = ∅))
  end.

(** [x == y] *)
Definition py_eqb (v w : pyval) : bool :=
  match numeric v, numeric w with
  | Some p, Some q => Qeq_bool p q
  | None, None =>
      match v, w with
      | PNone, PNone => true
      | PStr s, PStr t => String.eqb s t
      | PDict k, PDict l => bool_decide (k = l)
      | _, _ => false
      end
  | _, _ => false
  end.

(** [x in [y1, ..., yn]] *)
Definition py_in (v : pyval) (l : list pyval) : bool := existsb (py_eqb v) l.

(** [type(x) is int and x > k] and [... >= k] *)
Definition int_gt (v : pyval) (k : Z) : bool :=
  match v with PInt z => k <? z | _ => false end.

Definition int_ge (v : pyval) (k : Z) : bool :=
  match v with PInt z => k <=? z | _ => false end.

(** [x is None] on an optional object *)
Definition absent {A} (o : option A) : bool :=
  match o with None => true | Some _ => false end.

(** ** Signals, feature vectors and data sets *)

(** A numpy array, as far as the orchestrator looks at it: its shape. *)
Record ndarray := { shape : list nat; entries : list Q }.

(** A pandas table: [.columns] and [.values]. *)
Record DataFrame := { columns : list string; values : ndarray }.

(** What the feature store holds: [feature_vector.values] when the vector
    was generated, the loaded item itself when it was loaded. *)
Inductive feature_item :=
| Values (a : ndarray)
| Frame (d : DataFrame).

Definition item_shape (x : feature_item) : list nat :=
  match x with
  | Values a => shape a
  | Frame d => shape (values d)
  end.

(** A data set yields triples [(example, sfreq, label)] and exposes the
    mutable label list [targets]. *)
Record DataSet := {
  examples : list (DataFrame * Z * Z);
  targets : list Z
}.

Definition set_targets (t : list Z) (d : DataSet) : DataSet :=
  {| examples := examples d; targets := t |}.

(** A value that may be called like a procedure.  [has_call] is
    [hasattr(f, "__call__")]. *)
Record procedure (A : Type) := {
  has_call : bool;
  call : kwargs -> DataFrame -> Z -> A
}.
Arguments has_call {A} p.
Arguments call {A} p kw example sfreq.

(** [functools.partial(f, **kw)]: keywords given at call time win. *)
Definition partial_kw {A} (f : procedure A) (kw : kwargs) : procedure A :=
  {| has_call := true; call := fun kw' => call f (kw' ∪ kw) |}.

Record classifier := {
  has_fit : bool;
  has_predict : bool;
  clf_n_jobs : option pyval   (* the [n_jobs] attribute, when there is one *)
}.

Record scaler := {
  has_fit_transform : bool;
  has_transform : bool
}.

Record modifier := {
  is_callable : bool;
  modify : option DataSet -> list feature_item -> option (list string) ->
           list feature_item * option (list string)
}.

(** Entries of the info registry. *)
Inductive info_value :=
| ISfreq (sfreq : Z)
| ITable (t : DataFrame)
| IOther (tag : string).

(** What is written to the logger, and which user procedure was applied. *)
Inductive event :=
| Logged (level msg : string)
| Applied (name : string).

(** [self._metrics]: one metric function, or anything with a [__len__]. *)
Inductive metrics_of (metric : Type) :=
| OneMetric (m : metric)
| MetricList (ms : list metric).
Arguments OneMetric {metric} m.
Arguments MetricList {metric} ms.

(** ** The collaborators imported from [brainfeatures.decoding] and
    [brainfeatures.analysis]

    Their code is outside of this file; the orchestrator only relies on
    their signatures. *)
Class Decoding := {
  prediction : Type;
  performance : Type;
  metric : Type;
  validate :
    list feature_item -> list Z -> option classifier -> pyval -> pyval ->
    option scaler -> pyval ->
    outcome (gmap string prediction * gmap string (gmap string info_value));
  final_evaluate :
    list feature_item -> list Z -> list feature_item -> list Z ->
    option classifier -> pyval -> option scaler -> pyval ->
    outcome (gmap string prediction * gmap string (gmap string info_value));
  analyze_quality_of_predictions :
    prediction -> option (metrics_of metric) -> performance;
  mean_to_string : performance -> string
}.

Section Experiment.

Context `{Decoding}.

(** ** The attributes of an [Experiment] instance

    The fields follow [__init__] line by line.  The last two are the
    attributes [cleaning_procedure] and [feature_generation_procedure]
    (without underscore) that [_clean] and [_generate_features] read and
    assign: [None] here means that the instance has no such attribute, so
    that reading it raises [AttributeError]. *)
Record Experiment := {
  _data_sets : list (string * option DataSet);
  _feature_generation_procedure : option (procedure (option DataFrame));
  _feature_generation_params : pyval;
  _n_splits_or_repetitions : pyval;
  _cleaning_procedure : option (procedure (DataFrame * Z));
  _cleaning_params : pyval;
  _shuffle_splits : pyval;
  _pca_thresh : pyval;
  _verbosity : pyval;
  _metrics : option (metrics_of metric);
  _n_jobs : pyval;
  _scaler : option scaler;
  _clf : option classifier;
  features : gmap string (list feature_item);
  clean : gmap string (list DataFrame);
  info : gmap string (gmap string info_value);
  _feature_vector_modifier : option modifier;
  feature_labels : option (list string);
  performances : gmap string performance;
  predictions : gmap string prediction;
  cleaning_procedure : option (procedure (DataFrame * Z));
  feature_generation_procedure : option (procedure (option DataFrame))
}.

(** [__init__]: the wall-clock registry [times] is left out, it never
    influences control flow. *)
Definition __init__
    (devel_set : option DataSet) (clf : option classifier)
    (metrics : option (metrics_of metric)) (eval_set : option DataSet)
    (n_jobs : pyval)
    (cleaning_procedure_arg : option (procedure (DataFrame * Z)))
    (cleaning_params : pyval)
    (feature_generation_procedure_arg : option (procedure (option DataFrame)))
    (feature_generation_params : pyval)
    (n_splits_or_repetitions shuffle_splits pca_thresh : pyval)
    (scaler_arg : option scaler)
    (feature_vector_modifier : option modifier) (verbosity : pyval)
  : Experiment :=
  {| _data_sets := [("devel"%string, devel_set); ("eval"%string, eval_set)];
     _feature_generation_procedure := feature_generation_procedure_arg;
     _feature_generation_params := feature_generation_params;
     _n_splits_or_repetitions := n_splits_or_repetitions;
     _cleaning_procedure := cleaning_procedure_arg;
     _cleaning_params := cleaning_params;
     _shuffle_splits := shuffle_splits;
     _pca_thresh := pca_thresh;
     _verbosity := verbosity;
     _metrics := metrics;
     _n_jobs := n_jobs;
     _scaler := scaler_arg;
     _clf := clf;
     features := <["devel"%string := []]> (<["eval"%string := []]> ∅);
     clean := <["devel"%string := []]> (<["eval"%string := []]> ∅);
     info := <["devel"%string := ∅]> (<["eval"%string := ∅]> ∅);
     _feature_vector_modifier := feature_vector_modifier;
     feature_labels := None;
     performances := ∅;
     predictions := ∅;
     cleaning_procedure := None;
     feature_generation_procedure := None |}.

(** Attribute assignment, one function per attribute that is assigned
    after construction. *)
Definition set__data_sets v (e : Experiment) : Experiment :=
  {| _data_sets := v;
     _feature_generation_procedure := _feature_generation_procedure e;
     _feature_generation_params := _feature_generation_params e;
     _n_splits_or_repetitions := _n_splits_or_repetitions e;
     _cleaning_procedure := _cleaning_procedure e;
     _cleaning_params := _cleaning_params e;
     _shuffle_splits := _shuffle_splits e; _pca_thresh := _pca_thresh e;
     _verbosity := _verbosity e; _metrics := _metrics e;
     _n_jobs := _n_jobs e; _scaler := _scaler e; _clf := _clf e;
     features := features e; clean := clean e; info := info e;
     _feature_vector_modifier := _feature_vector_modifier e;
     feature_labels := feature_labels e; performances := performances e;
     predictions := predictions e;
     cleaning_procedure := cleaning_procedure e;
     feature_generation_procedure := feature_generation_procedure e |}.

Definition set__metrics v (e : Experiment) : Experiment :=
  {| _data_sets := _data_sets e;
     _feature_generation_procedure := _feature_generation_procedure e;
     _feature_generation_params := _feature_generation_params e;
     _n_splits_or_repetitions := _n_splits_or_repetitions e;
     _cleaning_procedure := _cleaning_procedure e;
     _cleaning_params := _cleaning_params e;
     _shuffle_splits := _shuffle_splits e; _pca_thresh := _pca_thresh e;
     _verbosity := _verbosity e; _metrics := v; _n_jobs := _n_jobs e;
     _scaler := _scaler e; _clf := _clf e; features := features e;
     clean := clean e; info := info e;
     _feature_vector_modifier := _feature_vector_modifier e;
     feature_labels := feature_labels e; performances := performances e;
     predictions := predictions e;
     cleaning_procedure := cleaning_procedure e;
     feature_generation_procedure := feature_generation_procedure e |}.

Definition set__clf v (e : Experiment) : Experiment :=
  {| _data_sets := _data_sets e;
     _feature_generation_procedure := _feature_generation_procedure e;
     _feature_generation_params := _feature_generation_params e;
     _n_splits_or_repetitions := _n_splits_or_repetitions e;
     _cleaning_procedure := _cleaning_procedure e;
     _cleaning_params := _cleaning_params e;
     _shuffle_splits := _shuffle_splits e; _pca_thresh := _pca_thresh e;
     _verbosity := _verbosity e; _metrics := _metrics e;
     _n_jobs := _n_jobs e; _scaler := _scaler e; _clf := v;
     features := features e; clean := clean e; info := info e;
     _feature_vector_modifier := _feature_vector_modifier e;
     feature_labels := feature_labels e; performances := performances e;
     predictions := predictions e;
     cleaning_procedure := cleaning_procedure e;
     feature_generation_procedure := feature_generation_procedure e |}.

Definition set_features v (e : Experiment) : Experiment :=
  {| _data_sets := _data_sets e;
     _feature_generation_procedure := _feature_generation_procedure e;
     _feature_generation_params := _feature_generation_params e;
     _n_splits_or_repetitions := _n_splits_or_repetitions e;
     _cleaning_procedure := _cleaning_procedure e;
     _cleaning_params := _cleaning_params e;
     _shuffle_splits := _shuffle_splits e; _pca_thresh := _pca_thresh e;
     _verbosity := _verbosity e; _metrics := _metrics e;
     _n_jobs := _n_jobs e; _scaler := _scaler e; _clf := _clf e;
     features := v; clean := clean e; info := info e;
     _feature_vector_modifier := _feature_vector_modifier e;
     feature_labels := feature_labels e; performances := performances e;
     predictions := predictions e;
     cleaning_procedure := cleaning_procedure e;
     feature_generation_procedure := feature_generation_procedure e |}.

Definition set_clean v (e : Experiment) : Experiment :=
  {| _data_sets := _data_sets e;
     _feature_generation_procedure := _feature_generation_procedure e;
     _feature_generation_params := _feature_generation_params e;
     _n_splits_or_repetitions := _n_splits_or_repetitions e;
     _cleaning_procedure := _cleaning_procedure e;
     _cleaning_params := _cleaning_params e;
     _shuffle_splits := _shuffle_splits e; _pca_thresh := _pca_thresh e;
     _verbosity := _verbosity e; _metrics := _metrics e;
     _n_jobs := _n_jobs e; _scaler := _scaler e; _clf := _clf e;
     features := features e; clean := v; info := info e;
     _feature_vector_modifier := _feature_vector_modifier e;
     feature_labels := feature_labels e; performances := performances e;
     predictions := predictions e;
     cleaning_procedure := cleaning_procedure e;
     feature_generation_procedure := feature_generation_procedure e |}.

Definition set_info v (e : Experiment) : Experiment :=
  {| _data_sets := _data_sets e;
     _feature_generation_procedure := _feature_generation_procedure e;
     _feature_generation_params := _feature_generation_params e;
     _n_splits_or_repetitions := _n_splits_or_repetitions e;
     _cleaning_procedure := _cleaning_procedure e;
     _cleaning_params := _cleaning_params e;
     _shuffle_splits := _shuffle_splits e; _pca_thresh := _pca_thresh e;
     _verbosity := _verbosity e; _metrics := _metrics e;
     _n_jobs := _n_jobs e; _scaler := _scaler e; _clf := _clf e;
     features := features e; clean := clean e; info := v;
     _feature_vector_modifier := _feature_vector_modifier e;
     feature_labels := feature_labels e; performances := performances e;
     predictions := predictions e;
     cleaning_procedure := cleaning_procedure e;
     feature_generation_procedure := feature_generation_procedure e |}.

Definition set_feature_labels v (e : Experiment) : Experiment :=
  {| _data_sets := _data_sets e;
     _feature_generation_procedure := _feature_generation_procedure e;
     _feature_generation_params := _feature_generation_params e;
     _n_splits_or_repetitions := _n_splits_or_repetitions e;
     _cleaning_procedure := _cleaning_procedure e;
     _cleaning_params := _cleaning_params e;
     _shuffle_splits := _shuffle_splits e; _pca_thresh := _pca_thresh e;
     _verbosity := _verbosity e; _metrics := _metrics e;
     _n_jobs := _n_jobs e; _scaler := _scaler e; _clf := _clf e;
     features := features e; clean := clean e; info := info e;
     _feature_vector_modifier := _feature_vector_modifier e;
     feature_labels := v; performances := performances e;
     predictions := predictions e;
     cleaning_procedure := cleaning_procedure e;
     feature_generation_procedure := feature_generation_procedure e |}.

Definition set_performances v (e : Experiment) : Experiment :=
  {| _data_sets := _data_sets e;
     _feature_generation_procedure := _feature_generation_procedure e;
     _feature_generation_params := _feature_generation_params e;
     _n_splits_or_repetitions := _n_splits_or_repetitions e;
     _cleaning_procedure := _cleaning_procedure e;
     _cleaning_params := _cleaning_params e;
     _shuffle_splits := _shuffle_splits e; _pca_thresh := _pca_thresh e;
     _verbosity := _verbosity e; _metrics := _metrics e;
     _n_jobs := _n_jobs e; _scaler := _scaler e; _clf := _clf e;
     features := features e; clean := clean e; info := info e;
     _feature_vector_modifier := _feature_vector_modifier e;
     feature_labels := feature_labels e; performances := v;
     predictions := predictions e;
     cleaning_procedure := cleaning_procedure e;
     feature_generation_procedure := feature_generation_procedure e |}.

Definition set_predictions v (e : Experiment) : Experiment :=
  {| _data_sets := _data_sets e;
     _feature_generation_procedure := _feature_generation_procedure e;
     _feature_generation_params := _feature_generation_params e;
     _n_splits_or_repetitions := _n_splits_or_repetitions e;
     _cleaning_procedure := _cleaning_procedure e;
     _cleaning_params := _cleaning_params e;
     _shuffle_splits := _shuffle_splits e; _pca_thresh := _pca_thresh e;
     _verbosity := _verbosity e; _metrics := _metrics e;
     _n_jobs := _n_jobs e; _scaler := _scaler e; _clf := _clf e;
     features := features e; clean := clean e; info := info e;
     _feature_vector_modifier := _feature_vector_modifier e;
     feature_labels := feature_labels e; performances := performances e;
     predictions := v; cleaning_procedure := cleaning_procedure e;
     feature_generation_procedure := feature_generation_procedure e |}.

Definition set_cleaning_procedure v (e : Experiment) : Experiment :=
  {| _data_sets := _data_sets e;
     _feature_generation_procedure := _feature_generation_procedure e;
     _feature_generation_params := _feature_generation_params e;
     _n_splits_or_repetitions := _n_splits_or_repetitions e;
     _cleaning_procedure := _cleaning_procedure e;
     _cleaning_params := _cleaning_params e;
     _shuffle_splits := _shuffle_splits e; _pca_thresh := _pca_thresh e;
     _verbosity := _verbosity e; _metrics := _metrics e;
     _n_jobs := _n_jobs e; _scaler := _scaler e; _clf := _clf e;
     features := features e; clean := clean e; info := info e;
     _feature_vector_modifier := _feature_vector_modifier e;
     feature_labels := feature_labels e; performances := performances e;
     predictions := predictions e; cleaning_procedure := v;
     feature_generation_procedure := feature_generation_procedure e |}.

Definition set_feature_generation_procedure v (e : Experiment) : Experiment :=
  {| _data_sets := _data_sets e;
     _feature_generation_procedure := _feature_generation_procedure e;
     _feature_generation_params := _feature_generation_params e;
     _n_splits_or_repetitions := _n_splits_or_repetitions e;
     _cleaning_procedure := _cleaning_procedure e;
     _cleaning_params := _cleaning_params e;
     _shuffle_splits := _shuffle_splits e; _pca_thresh := _pca_thresh e;
     _verbosity := _verbosity e; _metrics := _metrics e;
     _n_jobs := _n_jobs e; _scaler := _scaler e; _clf := _clf e;
     features := features e; clean := clean e; info := info e;
     _feature_vector_modifier := _feature_vector_modifier e;
     feature_labels := feature_labels e; performances := performances e;
     predictions := predictions e;
     cleaning_procedure := cleaning_procedure e;
     feature_generation_procedure := v |}.

(** ** The monad of methods

    A method runs on the instance and on the journal of what has been
    logged so far.  Raising keeps both. *)
Record World := { self : Experiment; journal : list event }.

Definition M (A : Type) : Type := World -> outcome A * World.

Definition ret {A} (a : A) : M A := fun w => (Return a, w).

Definition raise {A} (e : exn) : M A := fun w => (Raise e, w).

Definition bind {A B} (m : M A) (k : A -> M B) : M B :=
  fun w =>
    match m w with
    | (Return a, w') => k a w'
    | (Raise e, w') => (Raise e, w')
    end.

Notation "'let*' x ':=' m 'in' k" := (bind m (fun x => k))
  (at level 10, x name, m at level 100, k at level 200, only parsing).
Notation "m '>>' k" := (bind m (fun _ => k))
  (at level 100, k at level 200, right associativity, only parsing).

Definition get_self : M Experiment := fun w => (Return (self w), w).

Definition update_self (f : Experiment -> Experiment) : M unit :=
  fun w => (Return tt, {| self := f (self w); journal := journal w |}).

Definition emit (ev : event) : M unit :=
  fun w => (Return tt, {| self := self w; journal := journal w ++ [ev] |}).

Definition lift {A} (o : outcome A) : M A := fun w => (o, w).

Definition logging_info (msg : string) : M unit := emit (Logged "INFO" msg).
Definition logging_warning (msg : string) : M unit := emit (Logged "WARNING" msg).

(** [assert cond, msg] *)
Definition assert (cond : bool) (msg : string) : M unit :=
  if cond then ret tt else raise (AssertionError msg).

(** [for x in xs: body(x)] *)
Fixpoint for_each {A} (xs : list A) (body : A -> M unit) : M unit :=
  match xs with
  | [] => ret tt
  | x :: xs' => body x >> for_each xs' body
  end.

(** [d[key]] on a dictionary *)
Definition getitem {V} (d : gmap string V) (key : string) : M V :=
  match d !! key with
  | Some v => ret v
  | None => raise (KeyError key)
  end.

(** [self._data_sets[key]] on the ordered dictionary *)
Fixpoint assoc_lookup {V} (key : string) (d : list (string * V)) : option V :=
  match d with
  | [] => None
  | (k, v) :: d' => if String.eqb k key then Some v else assoc_lookup key d'
  end.

Fixpoint assoc_update {V} (key : string) (v : V) (d : list (string * V))
  : list (string * V) :=
  match d with
  | [] => []
  | (k, v0) :: d' =>
      if String.eqb k key then (k, v) :: d' else (k, v0) :: assoc_update key v d'
  end.

Fixpoint assoc_pop {V} (key : string) (d : list (string * V))
  : list (string * V) :=
  match d with
  | [] => []
  | (k, v0) :: d' =>
      if String.eqb k key then d' else (k, v0) :: assoc_pop key d'
  end.

Definition data_set (key : string) : M (option DataSet) :=
  let* e := get_self in
  match assoc_lookup key (_data_sets e) with
  | Some d => ret d
  | None => raise (KeyError key)
  end.

(** [len] of a triple yielded by a data set *)
Definition len3 {A B C} (x : A * B * C) : nat := 3.

(** [self._data_sets[key].targets] *)
Definition data_set_targets (key : string) : M (list Z) :=
  let* d := data_set key in
  match d with
  | Some d => ret (targets d)
  | None => raise (AttributeError "targets")
  end.

(** [iter(self._data_sets[key])] *)
Definition iter_data_set (key : string) : M (list (DataFrame * Z * Z)) :=
  let* d := data_set key in
  match d with
  | Some d => ret (examples d)
  | None => raise (TypeError "'NoneType' object is not iterable")
  end.

(** ** [_run_checks] *)
Definition _run_checks : M unit :=
  let* e := get_self in
  assert (negb (absent (_cleaning_procedure e) &&
                absent (_feature_generation_procedure e) &&
                absent (_clf e)))
         "please specify what to do" >>
  assert (py_in (_verbosity e)
            [PStr "DEBUG"; PStr "INFO"; PStr "WARNING"; PStr "ERROR";
             PInt 0; PInt 10; PInt 20; PInt 30; PInt 40])
         "unknown verbosity level" >>
  match _feature_generation_procedure e with
  | Some f => assert (has_call f)
                "feature_generation_procedure has to be a callable"
  | None => ret tt
  end >>
  match _cleaning_procedure e with
  | Some f => assert (has_call f) "cleaning_procedure has to be a callable"
  | None => ret tt
  end >>
  (if negb (is_None (_cleaning_params e))
   then assert (type_is_dict (_cleaning_params e))
          "cleaning_params has to be a dictionary"
   else ret tt) >>
  (if negb (is_None (_feature_generation_params e))
   then assert (type_is_dict (_feature_generation_params e))
          "feature_generation_params has to be a dictionary"
   else ret tt) >>
  let* devel := data_set "devel" in
  let* first :=
    match devel with
    | None => raise (TypeError "'NoneType' object is not subscriptable")
    | Some d =>
        match examples d with
        | [] => raise (IndexError "list index out of range")
        | x :: _ => ret x
        end
    end in
  assert (len3 first =? 3)%nat
         "__getitem__ of data set needs to return x, fs, y" >>
  assert (py_in (_shuffle_splits e) [PBool true; PBool false])
         "shuffle_splits has to be boolean" >>
  assert (int_gt (_n_splits_or_repetitions e) 0)
         "n_repetitions has to be an integer larger than 0" >>
  let* eval := data_set "eval" in
  (if absent eval
   then assert (int_ge (_n_splits_or_repetitions e) 2)
          "need at least two splits for cv"
   else ret tt) >>
  assert (int_ge (_n_jobs e) (-1))
         "n_jobs has to be an integer larger or equal to -1" >>
  match _feature_vector_modifier e with
  | Some m => assert (is_callable m) "modifier has to be a callable"
  | None => ret tt
  end >>
  match _clf e with
  | Some c =>
      match clf_n_jobs c with
      | Some _ =>
          update_self (set__clf (Some {| has_fit := has_fit c;
                                         has_predict := has_predict c;
                                         clf_n_jobs := Some (_n_jobs e) |}))
      | None => ret tt
      end
  | None => ret tt
  end >>
  match _metrics e with
  | Some (OneMetric m) => update_self (set__metrics (Some (MetricList [m])))
  | _ => ret tt
  end >>
  match _scaler e with
  | Some s =>
      assert (has_fit_transform s)
        "scaler is not following scikit-learn api (fit_transform)" >>
      assert (has_transform s)
        "scaler is not following scikit-learn api (transform)"
  | None => ret tt
  end >>
  match _clf e with
  | Some c =>
      assert (has_fit c)
        "classifier is not following scikit-learn api (fit)" >>
      assert (has_predict c)
        "classifier is not following scikit-learn api (predict)"
  | None => ret tt
  end >>
  (if truthy (_pca_thresh e)
   then
     assert (type_is_int (_pca_thresh e) || type_is_float (_pca_thresh e))
       "pca_thresh has to be either int or float" >>
     (if absent (_scaler e)
      then logging_warning "using pca on unscaled features"
      else ret tt)
   else ret tt) >>
  let* e := get_self in
  match assoc_lookup "eval" (_data_sets e) with
  | Some None =>
    update_self (fun e => set__data_sets (assoc_pop "eval" (_data_sets e)) e) >>
    let* e := get_self in
    getitem (features e) "eval" >>
    update_self (fun e => set_features (delete "eval" (features e)) e) >>
    let* e := get_self in
    getitem (clean e) "eval" >>
    update_self (fun e => set_clean (delete "eval" (clean e)) e) >>
    let* e := get_self in
    getitem (info e) "eval" >>
    update_self (fun e => set_info (delete "eval" (info e)) e)
  | _ => ret tt
  end.

(** ** The worker pool

    [Parallel(n_jobs=n)(delayed(f)(args) for x in xs)]: joblib consumes the
    generator of tasks and returns the results in the order of the tasks.
    The generator's body is evaluated once per element, so reading [f]
    happens per task and not at all for an empty batch.  joblib refuses a
    pool of width 0 before it consumes the first task. *)
Fixpoint run_tasks {A} (tasks : list (M A)) : M (list A) :=
  match tasks with
  | [] => ret []
  | t :: ts =>
      let* r := t in
      let* rs := run_tasks ts in
      ret (r :: rs)
  end.

Definition zero_jobs (n_jobs : pyval) : bool :=
  match n_jobs with PInt 0 => true | _ => false end.

Definition Parallel {A} (n_jobs : pyval) (tasks : list (M A)) : M (list A) :=
  if zero_jobs n_jobs
  then raise (ValueError "n_jobs == 0 in Parallel has no meaning")
  else run_tasks tasks.

(** [partial(f, **params)] *)
Definition partial {A} (f : procedure A) (params : pyval) : M (procedure A) :=
  match params with
  | PDict kw =>
      if has_call f then ret (partial_kw f kw)
      else raise (TypeError "the first argument must be callable")
  | _ => raise (TypeError "argument after ** must be a mapping")
  end.

(** [f(example, sfreq)] for a user procedure known under [name] *)
Definition apply {A} (name : string) (f : procedure A)
    (example : DataFrame) (sfreq : Z) : M A :=
  if has_call f
  then emit (Applied name) >> ret (call f ∅ example sfreq)
  else raise (TypeError "object is not callable").

(** Reading [self.cleaning_procedure] and
    [self.feature_generation_procedure] *)
Definition getattr_cleaning_procedure : M (procedure (DataFrame * Z)) :=
  let* e := get_self in
  match cleaning_procedure e with
  | Some f => ret f
  | None => raise (AttributeError "cleaning_procedure")
  end.

Definition getattr_feature_generation_procedure
  : M (procedure (option DataFrame)) :=
  let* e := get_self in
  match feature_generation_procedure e with
  | Some f => ret f
  | None => raise (AttributeError "feature_generation_procedure")
  end.

(** [if "sfreq" not in self.info[d]: self.info[d]["sfreq"] = sfreq] *)
Definition record_sfreq (devel_or_eval : string) (sfreq : Z) : M unit :=
  let* e := get_self in
  let* entry := getitem (info e) devel_or_eval in
  match entry !! "sfreq" with
  | None =>
      update_self
        (set_info (<[devel_or_eval := <["sfreq" := ISfreq sfreq]> entry]> (info e)))
  | Some _ => ret tt
  end.

(** [if self.feature_labels is None: self.feature_labels = list(x.columns)] *)
Definition seed_feature_labels (x : DataFrame) : M unit :=
  let* e := get_self in
  if absent (feature_labels e)
  then update_self (set_feature_labels (Some (columns x)))
  else ret tt.

(** ** [_clean] *)
Definition _clean (devel_or_eval : string) : M unit :=
  logging_info ("Making clean (" +:+ devel_or_eval +:+ ")") >>
  let* e := get_self in
  (if negb (is_None (_cleaning_params e))
   then
     let* f := getattr_cleaning_procedure in
     let* g := partial f (_cleaning_params e) in
     update_self (set_cleaning_procedure (Some g))
   else ret tt) >>
  let* data := iter_data_set devel_or_eval in
  let* cleaned_signals_and_sfreq :=
    Parallel (_n_jobs e)
      (map (fun '(example, sfreq, label) =>
              let* f := getattr_cleaning_procedure in
              apply "cleaning_procedure" f example sfreq)
           data) in
  for_each cleaned_signals_and_sfreq
    (fun '(cleaned_signals, sfreq) =>
       record_sfreq devel_or_eval sfreq >>
       let* e := get_self in
       let* store := getitem (clean e) devel_or_eval in
       update_self
         (set_clean (<[devel_or_eval := store ++ [cleaned_signals]]> (clean e)))).

(** ** [_load_cleaned_or_features]

    [getattr(self, clean_or_features)] is the clean-signal store or the
    feature store; the method is only called with these two names. *)
Definition _load_cleaned_or_features (devel_or_eval clean_or_features : string)
  : M unit :=
  logging_info
    ("Loading " +:+ devel_or_eval +:+ " (" +:+ clean_or_features +:+ ")") >>
  let* items := iter_data_set devel_or_eval in
  for_each items
    (fun '(data, sfreq, label) =>
       record_sfreq devel_or_eval sfreq >>
       seed_feature_labels data >>
       let* e := get_self in
       if String.eqb clean_or_features "clean" then
         let* store := getitem (clean e) devel_or_eval in
         update_self (set_clean (<[devel_or_eval := store ++ [data]]> (clean e)))
       else if String.eqb clean_or_features "features" then
         let* store := getitem (features e) devel_or_eval in
         update_self
           (set_features (<[devel_or_eval := store ++ [Frame data]]> (features e)))
       else raise (AttributeError clean_or_features)).

(** ** [_generate_features] *)

(** [del self._data_sets[d].targets[i]] *)
Definition del_target (devel_or_eval : string) (i : nat) : M unit :=
  let* labels := data_set_targets devel_or_eval in
  if (i <? length labels)%nat
  then
    update_self
      (fun e =>
         match assoc_lookup devel_or_eval (_data_sets e) with
         | Some (Some d) =>
             set__data_sets
               (assoc_update devel_or_eval
                  (Some (set_targets (take i labels ++ drop (S i) labels) d))
                  (_data_sets e)) e
         | _ => e
         end)
  else raise (IndexError "list assignment index out of range").

(** The loop over [enumerate(feature_vectors)]. *)
Definition collect_feature_vector (devel_or_eval : string)
    (x : nat * option DataFrame) : M unit :=
  let '(i, feature_vector) := x in
  match feature_vector with
  | Some feature_vector =>
      seed_feature_labels feature_vector >>
      let* e := get_self in
      let* store := getitem (features e) devel_or_eval in
      update_self
        (set_features
           (<[devel_or_eval := store ++ [Values (values feature_vector)]]>
              (features e)))
  | None =>
      del_target devel_or_eval i >>
      logging_warning ("removed example " +:+ pretty i +:+ " from labels")
  end.

Definition enumerate {A} (l : list A) : list (nat * A) :=
  zip (seq 0 (length l)) l.

(** Lines 250-263: the loop and the assertion that follows it. *)
Definition collect_feature_vectors (devel_or_eval : string)
    (feature_vectors : list (option DataFrame)) : M unit :=
  for_each (enumerate feature_vectors) (collect_feature_vector devel_or_eval) >>
  let* e := get_self in
  let* store := getitem (features e) devel_or_eval in
  let* labels := data_set_targets devel_or_eval in
  assert (length store =? length labels)%nat
         "number of feature vectors does not match number of labels".

Definition _generate_features (devel_or_eval : string) : M unit :=
  logging_info ("Generating features (" +:+ devel_or_eval +:+ ")") >>
  let* e := get_self in
  (if negb (is_None (_feature_generation_params e))
   then
     let* f := getattr_feature_generation_procedure in
     let* g := partial f (_feature_generation_params e) in
     update_self (set_feature_generation_procedure (Some g))
   else ret tt) >>
  let* signals := getitem (clean e) devel_or_eval in
  let* feature_vectors :=
    Parallel (_n_jobs e)
      (map (fun example =>
              let* f := getattr_feature_generation_procedure in
              let* e := get_self in
              let* entry := getitem (info e) devel_or_eval in
              let* sfreq := getitem entry "sfreq" in
              match sfreq with
              | ISfreq sfreq => apply "feature_generation_procedure" f example sfreq
              | _ => raise (TypeError "sfreq is not a number")
              end)
           signals) in
  collect_feature_vectors devel_or_eval feature_vectors.

(** ** [_validate] *)

(** [table.columns = labels]: pandas refuses a list of the wrong length. *)
Definition set_columns (labels : list string) (v : info_value)
  : M info_value :=
  match v with
  | ITable t =>
      if (length labels =? length (columns t))%nat
      then ret (ITable {| columns := labels; values := values t |})
      else raise (ValueError "Length mismatch")
  | _ => raise (AttributeError "columns")
  end.

(** [self.feature_labels] where a list is needed *)
Definition feature_labels_list : M (list string) :=
  let* e := get_self in
  match feature_labels e with
  | Some l => ret l
  | None => raise (TypeError "feature_labels is None")
  end.

Definition _validate : M unit :=
  logging_info "Making predictions (validation)" >>
  let* e := get_self in
  let* store := getitem (features e) "devel" in
  let* labels := data_set_targets "devel" in
  assert (length store =? length labels)%nat
         "number of devel examples and labels differs!" >>
  let* r := lift (validate store labels (_clf e) (_n_splits_or_repetitions e)
                    (_shuffle_splits e) (_scaler e) (_pca_thresh e)) in
  let '(validation_results, info0) := r in
  update_self (fun e => set_predictions (validation_results ∪ predictions e) e) >>
  let* valid := getitem info0 "valid" in
  let* info1 :=
    match valid !! "pca_components", valid !! "feature_importances" with
    | Some t, _ =>
        let* l := feature_labels_list in
        let* t' := set_columns (l ++ ["id"%string]) t in
        ret (<["valid" := <["pca_components" := t']> valid]> info0)
    | None, Some t =>
        let* l := feature_labels_list in
        let* t' := set_columns l t in
        ret (<["valid" := <["feature_importances" := t']> valid]> info0)
    | None, None => ret info0
    end in
  update_self (fun e => set_info (info1 ∪ info e) e).

(** ** [_analyze_performance] *)
Definition newline : string := String (Ascii.ascii_of_nat 10) "".

Definition _analyze_performance (devel_or_eval : string) : M unit :=
  let valid_or_final_evaluation :=
    if String.eqb devel_or_eval "devel" then "validation"%string
    else "final evaluation"%string in
  logging_info ("Computing performances (" +:+ valid_or_final_evaluation +:+ ")") >>
  for_each ["train"%string; "devel"%string]
    (fun train_or_devel =>
       let train_or_devel :=
         if String.eqb train_or_devel "devel" then "valid"%string
         else train_or_devel in
       let* e := get_self in
       let* p := getitem (predictions e) train_or_devel in
       let performances0 := analyze_quality_of_predictions p (_metrics e) in
       update_self
         (fun e => set_performances
                     (<[train_or_devel := performances0]> (performances e)) e) >>
       let* e := get_self in
       let* q := getitem (performances e) train_or_devel in
       logging_info ("Achieved in average" +:+ newline +:+ mean_to_string q +:+
                     newline +:+ " on " +:+ train_or_devel +:+ " set.")).

(** ** [_final_evaluate] *)
Definition _final_evaluate : M unit :=
  logging_info "Making predictions (final evaluation)" >>
  let* e := get_self in
  let* eval_store := getitem (features e) "eval" in
  let* eval_labels := data_set_targets "eval" in
  assert (length eval_store =? length eval_labels)%nat
         "number of eval examples and labels differs!" >>
  let* devel_store := getitem (features e) "devel" in
  let* devel_labels := data_set_targets "devel" in
  let* r := lift (final_evaluate devel_store devel_labels eval_store eval_labels
                    (_clf e) (_n_splits_or_repetitions e) (_scaler e)
                    (_pca_thresh e)) in
  let '(evaluation_results, eval_info) := r in
  update_self (fun e => set_predictions (evaluation_results ∪ predictions e) e) >>
  update_self (fun e => set_info (eval_info ∪ info e) e).

(** ** [_run_valid_or_eval] *)
Definition _run_valid_or_eval (devel_or_eval : string) : M unit :=
  let* e := get_self in
  match _feature_vector_modifier e with
  | Some m =>
      let* d := data_set devel_or_eval in
      let* store := getitem (features e) devel_or_eval in
      (if is_callable m then ret tt
       else raise (TypeError "object is not callable")) >>
      let '(store', labels') := modify m d store (feature_labels e) in
      update_self
        (fun e => set_features (<[devel_or_eval := store']> (features e)) e) >>
      update_self (set_feature_labels labels') >>
      assert (0 <? length store')%nat "removed all feature vectors" >>
      let* width :=
        match store' with
        | x :: _ =>
            match last (item_shape x) with
            | Some n => ret n
            | None => raise (IndexError "tuple index out of range")
            end
        | [] => raise (IndexError "list index out of range")
        end in
      let* n :=
        match labels' with
        | Some l => ret (length l)
        | None => raise (TypeError "object of type 'NoneType' has no len()")
        end in
      assert (width =? n)%nat
             "number of features and feature labels does not match"
  | None => ret tt
  end >>
  (if String.eqb devel_or_eval "devel" then _validate else _final_evaluate) >>
  let* e := get_self in
  if negb (absent (_metrics e)) then _analyze_performance devel_or_eval
  else ret tt.

(** ** [run]

    [stages] is the body of the loop over the data sets.  Dates and clock
    readings in the two log lines are left as placeholders. *)
Definition stages (do_clean do_features do_predictions : bool)
    (devel_or_eval : string) : M unit :=
  (if do_clean then _clean devel_or_eval else ret tt) >>
  (if do_features
   then
     (if negb do_clean
      then _load_cleaned_or_features devel_or_eval "clean"
      else ret tt) >>
     _generate_features devel_or_eval
   else ret tt) >>
  (if negb do_clean && negb do_features
   then _load_cleaned_or_features devel_or_eval "features"
   else ret tt) >>
  (if do_predictions then _run_valid_or_eval devel_or_eval else ret tt).

Definition run : M unit :=
  logging_info "Started on {} at {}" >>
  _run_checks >>
  let* e := get_self in
  let do_clean := negb (absent (_cleaning_procedure e)) in
  let do_features := negb (absent (_feature_generation_procedure e)) in
  let* do_predictions :=
    match _clf e with
    | None => ret false
    | Some _ =>
        let* store := getitem (features e) "devel" in
        ret (match store with [] => false | _ :: _ => true end)
    end in
  for_each (map fst (_data_sets e))
    (stages do_clean do_features do_predictions) >>
  logging_info "Finished on {} at {}.".

(** ** Vocabulary of the statements *)

(** A freshly started interpreter: nothing has been logged yet. *)
Definition fresh (e : Experiment) : World := {| self := e; journal := [] |}.

(** [m] keeps the property [P] of the world, whether it returns or raises. *)
Definition stable {A} (P : World -> Prop) (m : M A) : Prop :=
  forall w, P w -> P (snd (m w)).

(** [m] establishes [Q] whenever it returns. *)
Definition ensures {A} (Q : World -> Prop) (m : M A) : Prop :=
  forall w a, fst (m w) = Return a -> Q (snd (m w)).

(** The checks of [_run_checks] in the order in which they are made, each
    with the exception raised when it fails.  [_run_checks_outcome] below
    proves that the method raises the exception of the first check that
    fails and returns when none does. *)
Definition opt_ok {X} (c : X -> bool) (o : option X) : bool :=
  match o with Some x => c x | None => true end.

Definition is_some {X} (o : option X) : bool := negb (absent o).

Fixpoint first_failed (checks : list (bool * exn)) : outcome unit :=
  match checks with
  | [] => Return tt
  | (c, e) :: rest => if c then first_failed rest else Raise e
  end.

Definition checklist (e : Experiment) : list (bool * exn) :=
  let devel := assoc_lookup "devel" (_data_sets e) in
  let eval := assoc_lookup "eval" (_data_sets e) in
  let pop := match eval with Some None => true | _ => false end in
  [ (negb (absent (_cleaning_procedure e) &&
           absent (_feature_generation_procedure e) && absent (_clf e)),
     AssertionError "please specify what to do");
    (py_in (_verbosity e)
       [PStr "DEBUG"; PStr "INFO"; PStr "WARNING"; PStr "ERROR";
        PInt 0; PInt 10; PInt 20; PInt 30; PInt 40],
     AssertionError "unknown verbosity level");
    (opt_ok has_call (_feature_generation_procedure e),
     AssertionError "feature_generation_procedure has to be a callable");
    (opt_ok has_call (_cleaning_procedure e),
     AssertionError "cleaning_procedure has to be a callable");
    (is_None (_cleaning_params e) || type_is_dict (_cleaning_params e),
     AssertionError "cleaning_params has to be a dictionary");
    (is_None (_feature_generation_params e) ||
     type_is_dict (_feature_generation_params e),
     AssertionError "feature_generation_params has to be a dictionary");
    (is_some devel, KeyError "devel");
    (match devel with Some None => false | _ => true end,
     TypeError "'NoneType' object is not subscriptable");
    (match devel with
     | Some (Some d) => match examples d with [] => false | _ => true end
     | _ => true
     end,
     IndexError "list index out of range");
    (py_in (_shuffle_splits e) [PBool true; PBool false],
     AssertionError "shuffle_splits has to be boolean");
    (int_gt (_n_splits_or_repetitions e) 0,
     AssertionError "n_repetitions has to be an integer larger than 0");
    (is_some eval, KeyError "eval");
    (negb pop || int_ge (_n_splits_or_repetitions e) 2,
     AssertionError "need at least two splits for cv");
    (int_ge (_n_jobs e) (-1),
     AssertionError "n_jobs has to be an integer larger or equal to -1");
    (opt_ok is_callable (_feature_vector_modifier e),
     AssertionError "modifier has to be a callable");
    (opt_ok has_fit_transform (_scaler e),
     AssertionError "scaler is not following scikit-learn api (fit_transform)");
    (opt_ok has_transform (_scaler e),
     AssertionError "scaler is not following scikit-learn api (transform)");
    (opt_ok has_fit (_clf e),
     AssertionError "classifier is not following scikit-learn api (fit)");
    (opt_ok has_predict (_clf e),
     AssertionError "classifier is not following scikit-learn api (predict)");
    (negb (truthy (_pca_thresh e)) ||
     type_is_int (_pca_thresh e) || type_is_float (_pca_thresh e),
     AssertionError "pca_thresh has to be either int or float");
    (negb pop || is_some (features e !! "eval"), KeyError "eval");
    (negb pop || is_some (clean e !! "eval"), KeyError "eval");
    (negb pop || is_some (info e !! "eval"), KeyError "eval") ].

(** The feature-name list is [l]. *)
Definition labels_are (l : list string) (w : World) : Prop :=
  feature_labels (self w) = Some l.

(** No feature vector modifier is configured. *)
Definition no_modifier (w : World) : Prop :=
  _feature_vector_modifier (self w) = None.

(** The feature-name list is [l] and no modifier can replace it. *)
Definition settled (l : list string) (w : World) : Prop :=
  labels_are l w /\ no_modifier w.

(** [ev] has been written to the journal. *)
Definition journaled (ev : event) (w : World) : Prop := ev ∈ journal w.

(** What validation leaves as it found it in an instance built by
    [__init__]: the configured procedures and their parameters, the job
    count, the missing [cleaning_procedure] and
    [feature_generation_procedure] attributes, the empty stores and
    registries of the development split, which comes first among the data
    sets. *)
Definition as_constructed cp cpar fgp fgpar nj devel (w : World) : Prop :=
  _cleaning_procedure (self w) = cp /\
  _cleaning_params (self w) = cpar /\
  _feature_generation_procedure (self w) = fgp /\
  _feature_generation_params (self w) = fgpar /\
  _n_jobs (self w) = nj /\
  cleaning_procedure (self w) = None /\
  feature_generation_procedure (self w) = None /\
  features (self w) !! "devel" = Some [] /\
  clean (self w) !! "devel" = Some [] /\
  predictions (self w) = ∅ /\
  performances (self w) = ∅ /\
  exists rest, _data_sets (self w) = ("devel"%string, devel) :: rest.

(** The instance has neither a [cleaning_procedure] nor a
    [feature_generation_procedure] attribute. *)
Definition attributes_missing (w : World) : Prop :=
  cleaning_procedure (self w) = None /\
  feature_generation_procedure (self w) = None.

(** The feature-name list is unset. *)
Definition labels_unset (w : World) : Prop := feature_labels (self w) = None.

(** The first feature vector of a batch that is not [None]. *)
Fixpoint first_success (feature_vectors : list (option DataFrame))
  : option DataFrame :=
  match feature_vectors with
  | [] => None
  | Some v :: _ => Some v
  | None :: rest => first_success rest
  end.

(** ** The instance that a successful validation leaves

    [_run_checks] writes the job count into a classifier that has an
    [n_jobs] attribute, wraps a single metric into a list and, when no
    evaluation set was given, drops the "eval" entries of the four
    registries.  [_run_checks_returns] below proves that this is all it
    does when it returns. *)
Definition drops_eval (e : Experiment) : bool :=
  match assoc_lookup "eval" (_data_sets e) with
  | Some None => true
  | _ => false
  end.

Definition with_job_count (e : Experiment) : Experiment :=
  match _clf e with
  | Some c =>
      match clf_n_jobs c with
      | Some _ =>
          set__clf (Some {| has_fit := has_fit c;
                            has_predict := has_predict c;
                            clf_n_jobs := Some (_n_jobs e) |}) e
      | None => e
      end
  | None => e
  end.

Definition with_metric_list (e : Experiment) : Experiment :=
  match _metrics e with
  | Some (OneMetric m) => set__metrics (Some (MetricList [m])) e
  | _ => e
  end.

Definition without_eval (e : Experiment) : Experiment :=
  if drops_eval e
  then set_info (delete "eval" (info e))
         (set_clean (delete "eval" (clean e))
            (set_features (delete "eval" (features e))
               (set__data_sets (assoc_pop "eval" (_data_sets e)) e)))
  else e.

Definition validated (e : Experiment) : Experiment :=
  without_eval (with_metric_list (with_job_count e)).

Definition pca_warning (e : Experiment) : list event :=
  if truthy (_pca_thresh e) && absent (_scaler e)
  then [Logged "WARNING" "using pca on unscaled features"]
  else [].


(** ** What loading one item does to the instance

    The three assignments of the loop body of [_load_cleaned_or_features],
    each as a function on the instance. *)
Definition with_sfreq (d : string) (sfreq : Z) (e : Experiment) : Experiment :=
  match info e !! d with
  | Some entry =>
      match entry !! "sfreq" with
      | None => set_info (<[d := <["sfreq" := ISfreq sfreq]> entry]> (info e)) e
      | Some _ => e
      end
  | None => e
  end.

Definition with_labels_of (x : DataFrame) (e : Experiment) : Experiment :=
  if absent (feature_labels e)
  then set_feature_labels (Some (columns x)) e
  else e.

Definition with_signal (d : string) (x : DataFrame) (e : Experiment)
  : Experiment :=
  match clean e !! d with
  | Some store => set_clean (<[d := store ++ [x]]> (clean e)) e
  | None => e
  end.

Definition with_feature (d : string) (x : feature_item) (e : Experiment)
  : Experiment :=
  match features e !! d with
  | Some store => set_features (<[d := store ++ [x]]> (features e)) e
  | None => e
  end.

Definition load_item (d m : string) (x : DataFrame * Z * Z) (e : Experiment)
  : Experiment :=
  let e' := with_labels_of x.1.1 (with_sfreq d x.1.2 e) in
  if String.eqb m "clean" then with_signal d x.1.1 e'
  else with_feature d (Frame x.1.1) e'.

(** The store named [m] has an entry for the split [d], and so has the info
    registry. *)
Definition loadable (d m : string) (e : Experiment) : Prop :=
  is_some (info e !! d) = true /\
  (if String.eqb m "clean" then is_some (clean e !! d)
   else is_some (features e !! d)) = true.

(** [e'] differs from [e] at most in the stores, the info registry and the
    feature-name list. *)
Definition same_settings (e e' : Experiment) : Prop :=
  _data_sets e' = _data_sets e /\
  _cleaning_procedure e' = _cleaning_procedure e /\
  _cleaning_params e' = _cleaning_params e /\
  _feature_generation_procedure e' = _feature_generation_procedure e /\
  _feature_generation_params e' = _feature_generation_params e /\
  _n_splits_or_repetitions e' = _n_splits_or_repetitions e /\
  _shuffle_splits e' = _shuffle_splits e /\
  _pca_thresh e' = _pca_thresh e /\
  _verbosity e' = _verbosity e /\
  _metrics e' = _metrics e /\
  _n_jobs e' = _n_jobs e /\
  _scaler e' = _scaler e /\
  _clf e' = _clf e /\
  _feature_vector_modifier e' = _feature_vector_modifier e /\
  performances e' = performances e /\
  predictions e' = predictions e /\
  cleaning_procedure e' = cleaning_procedure e /\
  feature_generation_procedure e' = feature_generation_procedure e.

(** The items of a data set as they are kept in a store. *)
Definition item_data (x : DataFrame * Z * Z) : DataFrame := x.1.1.
Definition item_sfreq (x : DataFrame * Z * Z) : Z := x.1.2.

(** The instance after the items have been loaded for the split [d] into
    the store named [m], one after the other. *)
Definition loaded (d m : string) (items : list (DataFrame * Z * Z))
    (e : Experiment) : Experiment :=
  fold_left (fun e x => load_item d m x e) items e.

(** ** What collecting one generated feature vector does to the instance *)
Definition store_vector (d : string) (v : DataFrame) (e : Experiment)
  : Experiment :=
  with_feature d (Values (values v)) (with_labels_of v e).

Definition stored (d : string) (vs : list DataFrame) (e : Experiment)
  : Experiment :=
  fold_left (fun e v => store_vector d v e) vs e.

(** The instance after [del self._data_sets[d].targets[i]] *)
Definition without_target (d : string) (i : nat) (e : Experiment)
  : Experiment :=
  match assoc_lookup d (_data_sets e) with
  | Some (Some ds) =>
      set__data_sets
        (assoc_update d
           (Some (set_targets (take i (targets ds) ++ drop (S i) (targets ds))
                    ds))
           (_data_sets e)) e
  | _ => e
  end.

(** ** What keeping one cleaned signal does to the instance *)
Definition keep_cleaned (d : string) (r : DataFrame * Z) (e : Experiment)
  : Experiment :=
  with_signal d r.1 (with_sfreq d r.2 e).

Definition cleaned (d : string) (rs : list (DataFrame * Z)) (e : Experiment)
  : Experiment :=
  fold_left (fun e r => keep_cleaned d r e) rs e.

(** The procedure a stage applies: curried with the stage's parameters
    when there are any. *)
Definition curried {A} (f : procedure A) (params : pyval) : procedure A :=
  match params with
  | PDict kw => partial_kw f kw
  | _ => f
  end.

(** The instance after the stage has curried its procedure. *)
Definition with_cleaning_procedure (f : procedure (DataFrame * Z))
    (e : Experiment) : Experiment :=
  match _cleaning_params e with
  | PDict kw => set_cleaning_procedure (Some (partial_kw f kw)) e
  | _ => e
  end.

Definition with_feature_generation_procedure
    (f : procedure (option DataFrame)) (e : Experiment) : Experiment :=
  match _feature_generation_params e with
  | PDict kw => set_feature_generation_procedure (Some (partial_kw f kw)) e
  | _ => e
  end.

(** ** [plot]

    [self.info["devel"]] is a dictionary, so the two loops of [plot] run
    over its keys, which are strings: ["clf" in info] is a substring test
    and [info["clf"]] indexes a string with a string. *)

(** [sub in s] on strings *)
Fixpoint contains (sub s : string) : bool :=
  String.prefix sub s ||
  match s with
  | EmptyString => false
  | String _ s' => contains sub s'
  end.

(** [s[key]] for a string [s] and a string [key] *)
Definition str_getitem (s key : string) : M string :=
  raise (TypeError "string indices must be integers").

(** [hasattr(s, attr)] and [getattr(s, attr)] for a string [s] and the
    attributes [feature_importances_] and [components_], which a string
    does not have *)
Definition str_hasattr (s attr : string) : bool := false.

Definition str_getattr (s attr : string) : M info_value :=
  raise (AttributeError attr).

(** Iterating over a dictionary yields its keys.  The order in which the
    map lists them is not Python's; [plot_outcome] below shows that the
    order plays no role. *)
Definition keys {V} (d : gmap string V) : list string :=
  map fst (map_to_list d).

(** The first loop of [plot], with the list it appends to. *)
Fixpoint collect_importances (infos : list string)
    (feature_importances : list info_value) : M (list info_value) :=
  match infos with
  | [] => ret feature_importances
  | info :: rest =>
      let* feature_importances :=
        if contains "clf" info then
          let* c := str_getitem info "clf" in
          if str_hasattr c "feature_importances_" then
            let* c := str_getitem info "clf" in
            let* v := str_getattr c "feature_importances_" in
            ret (feature_importances ++ [v])
          else ret feature_importances
        else ret feature_importances in
      collect_importances rest feature_importances
  end.

(** The second loop. *)
Fixpoint collect_components (infos : list string)
    (pca_components : list info_value) : M (list info_value) :=
  match infos with
  | [] => ret pca_components
  | info :: rest =>
      let* pca_components :=
        if contains "pca" info then
          let* c := str_getitem info "pca" in
          let* v := str_getattr c "components_" in
          ret (pca_components ++ [v])
        else ret pca_components in
      collect_components rest pca_components
  end.

Section Plot.

(** The analysis functions imported from [brainfeatures.analysis]; their
    code is outside of this file. *)
Variable analyze_feature_correlations :
  list feature_item -> option (list string) -> pyval -> outcome unit.
Variable analyze_feature_importances :
  list info_value -> option (list string) -> pyval -> outcome unit.
Variable analyze_pca_components :
  list info_value -> option (list string) -> outcome unit.

Definition plot (out_dir : pyval) : M unit :=
  let* e := get_self in
  let* store := getitem (features e) "devel" in
  lift (analyze_feature_correlations store (feature_labels e) out_dir) >>
  let* e := get_self in
  let* entry := getitem (info e) "devel" in
  let* feature_importances := collect_importances (keys entry) [] in
  (match feature_importances with
   | _ :: _ =>
       let* e := get_self in
       lift (analyze_feature_importances feature_importances
               (feature_labels e) out_dir)
   | [] => ret tt
   end) >>
  let* e := get_self in
  let* entry := getitem (info e) "devel" in
  let* pca_components := collect_components (keys entry) [] in
  match pca_components with
  | _ :: _ =>
      let* e := get_self in
      lift (analyze_pca_components pca_components (feature_labels e))
  | [] => ret tt
  end.

End Plot.

(** What [plot] answers once the feature correlations have been
    analyzed. *)
Definition plot_outcome (entry : gmap string info_value) : outcome unit :=
  if existsb (contains "clf") (keys entry) || existsb (contains "pca") (keys entry)
  then Raise (TypeError "string indices must be integers")
  else Return tt.

End Experiment.

(** * Concrete experiments

    A small stand-in for the decoding and analysis collaborators, and the
    inputs on which the statements below are exercised. *)
Module Scenario.

(** The width of the first stored feature vector. *)
Definition width_of (store : list feature_item) : nat :=
  match store with
  | x :: _ => default 0%nat (last (item_shape x))
  | [] => 0%nat
  end.

(** A table with [n] unnamed columns. *)
Definition blank (n : nat) : DataFrame :=
  {| columns := replicate n "?"%string;
     values := {| shape := [1%nat; n]; entries := [] |} |}.

(** Predictions are the labels themselves, a performance is the number of
    predictions.  Validation answers with a PCA-components table when a
    PCA threshold is set and with a feature-importances table otherwise;
    final evaluation keys its predictions by "train" and "eval". *)
Definition toy : Decoding :=
  {| prediction := list Z;
     performance := nat;
     metric := unit;
     validate := fun store labels _ _ _ _ pca =>
       Return (<["train" := labels]> (<["valid" := labels]> ∅),
               <["valid" :=
                   if truthy pca
                   then <["pca_components" := ITable (blank (S (width_of store)))]> ∅
                   else <["feature_importances" := ITable (blank (width_of store))]> ∅]>
                 ∅);
     final_evaluate := fun _ devel_labels _ eval_labels _ _ _ _ =>
       Return (<["train" := devel_labels]> (<["eval" := eval_labels]> ∅), ∅);
     analyze_quality_of_predictions := fun p _ => length p;
     mean_to_string := fun n => pretty n |}.

#[local] Existing Instance toy.

Definition signal : DataFrame :=
  {| columns := ["Cz"%string];
     values := {| shape := [4%nat; 1%nat]; entries := [] |} |}.

Definition two_features : DataFrame :=
  {| columns := ["mean"%string; "variance"%string];
     values := {| shape := [1%nat; 2%nat]; entries := [] |} |}.

Definition one_feature : DataFrame :=
  {| columns := ["power"%string];
     values := {| shape := [1%nat; 1%nat]; entries := [] |} |}.

Definition cleaner : procedure (DataFrame * Z) :=
  {| has_call := true; call := fun _ example sfreq => (example, sfreq) |}.

Definition generator : procedure (option DataFrame) :=
  {| has_call := true; call := fun _ _ _ => Some two_features |}.

Definition forest : classifier :=
  {| has_fit := true; has_predict := true; clf_n_jobs := Some (PInt 1) |}.

Definition standard_scaler : scaler :=
  {| has_fit_transform := true; has_transform := true |}.

(** A data set of recordings at 100 Hz with the given labels. *)
Definition recordings (labels : list Z) : DataSet :=
  {| examples := map (fun y => (signal, 100, y)) labels; targets := labels |}.

Definition ten_labels : list Z := [0; 1; 0; 1; 0; 1; 0; 1; 0; 1].

(** Scenario A of the specification, with the split count, the job count
    and the scaler left open. *)
Definition configuration (eval : option DataSet) (n_jobs n pca : pyval)
    (sc : option scaler) : Experiment :=
  __init__ (Some (recordings ten_labels)) (Some forest) (Some (OneMetric tt))
    eval n_jobs (Some cleaner) PNone (Some generator) (PDict ∅)
    n (PBool false) pca sc None (PStr "INFO").

Definition scenario_A : Experiment :=
  configuration None (PInt 1) (PInt 5) PNone (Some standard_scaler).

(** Nothing to do: no classifier and no procedure. *)
Definition idle : Experiment :=
  __init__ (Some (recordings ten_labels)) None (Some (OneMetric tt)) None
    (PInt 1) None PNone None PNone (PInt 5) (PBool false) PNone
    (Some standard_scaler) None (PStr "INFO").

(** A valid configuration whose evaluation set has no example. *)
Definition empty_evaluation : Experiment :=
  __init__ (Some (recordings ten_labels)) (Some forest) (Some (OneMetric tt))
    (Some (recordings [])) (PInt 1) (Some cleaner) PNone (Some generator) PNone
    (PInt 3) (PBool false) PNone (Some standard_scaler) None (PStr "INFO").

(** An instance on which feature generation is about to collect the
    results for a development set with the given labels. *)
Definition collecting (labels : list Z) : Experiment :=
  __init__ (Some (recordings labels)) (Some forest) (Some (OneMetric tt)) None
    (PInt 1) (Some cleaner) PNone (Some generator) PNone (PInt 5) (PBool false)
    PNone (Some standard_scaler) None (PStr "INFO").

(** A signal for which feature generation fails. *)
Definition flat_signal : DataFrame :=
  {| columns := [];
     values := {| shape := [4%nat; 0%nat]; entries := [] |} |}.

(** A feature-generation procedure that answers [None] on a signal
    without channels. *)
Definition picky_generator : procedure (option DataFrame) :=
  {| has_call := true;
     call := fun _ example _ =>
       match columns example with
       | [] => None
       | _ :: _ => Some two_features
       end |}.

(** An instance whose caller has assigned the attribute
    [feature_generation_procedure] itself, with cleaned signals in place
    for the development split. *)
Definition patched (labels : list Z) (signals : list DataFrame) : Experiment :=
  set_feature_generation_procedure (Some picky_generator)
    (set_info (<["devel" := <["sfreq" := ISfreq 100]> ∅]> ∅)
       (set_clean (<["devel" := signals]> ∅) (collecting labels))).

(** Features are read from the data sets: no procedure, a classifier. *)
Definition features_only : Experiment :=
  __init__ (Some (recordings ten_labels)) (Some forest) (Some (OneMetric tt))
    (Some (recordings [0; 1])) (PInt 1) None PNone None PNone (PInt 3)
    (PBool false) PNone (Some standard_scaler) None (PStr "INFO").

(** Batches of feature-generation results. *)
Definition two_trailing_failures : list (option DataFrame) :=
  [Some two_features; Some two_features; Some two_features; None; None].

Definition two_leading_failures : list (option DataFrame) :=
  [None; None; Some two_features].

Definition failure_at_2 : list (option DataFrame) :=
  [Some two_features; Some two_features; None; Some two_features;
   Some two_features].

Definition widths_differ : list (option DataFrame) :=
  [Some two_features; Some one_feature].

(** An instance with features in place: two development vectors, one
    evaluation vector, feature names set. *)
Definition with_features (pca : pyval) (modi : option modifier) : Experiment :=
  set_feature_labels (Some ["mean"%string; "variance"%string])
    (set_features
       (<["devel" := [Values (values two_features); Values (values two_features)]]>
          (<["eval" := [Values (values two_features)]]> ∅))
       (__init__ (Some (recordings [0; 1])) (Some forest) (Some (MetricList [tt]))
          (Some (recordings [1])) (PInt 1) None PNone None PNone (PInt 3)
          (PBool false) pca (Some standard_scaler) modi (PStr "INFO"))).

(** A modifier that keeps the first feature only and renames it. *)
Definition keep_first : modifier :=
  {| is_callable := true;
     modify := fun _ store _ =>
       (map (fun _ => Values (values one_feature)) store, Some ["first"%string]) |}.


(** Only a feature-generation procedure and a classifier. *)
Definition generation_only : Experiment :=
  __init__ (Some (recordings ten_labels)) (Some forest) (Some (OneMetric tt))
    None (PInt 1) None PNone (Some generator) PNone (PInt 5) (PBool false)
    PNone (Some standard_scaler) None (PStr "INFO").

(** One stored development vector for two labels. *)
Definition short_of_vectors : Experiment :=
  set_features (<["devel" := [Values (values two_features)]]> ∅)
    (collecting [0; 1]).

(** A modifier that drops every feature vector. *)
Definition drop_all : modifier :=
  {| is_callable := true; modify := fun _ _ _ => ([], Some []) |}.

(** An instance whose caller has assigned the attribute
    [cleaning_procedure] itself. *)
Definition patched_cleaning (labels : list Z) : Experiment :=
  set_cleaning_procedure (Some cleaner) (collecting labels).

End Scenario.

(** * Properties *)

Section Properties.

Context `{Decoding}.

(** ** Equations of the monad *)

Lemma bind_assert {A} c msg (k : unit -> M A) w :
  bind (assert c msg) k w =
  if c then k tt w else (Raise (AssertionError msg), w).
Proof. destruct c; reflexivity. Qed.

Lemma bind_opt_assert {A X} (o : option X) (c : X -> bool) msg
    (k : unit -> M A) w :
  bind (match o with Some x => assert (c x) msg | None => ret tt end) k w =
  if opt_ok c o then k tt w else (Raise (AssertionError msg), w).
Proof. destruct o as [x|]; simpl; [apply bind_assert | reflexivity]. Qed.

Lemma bind_unless_assert {A} (g c : bool) msg (k : unit -> M A) w :
  bind (if negb g then assert c msg else ret tt) k w =
  if g || c then k tt w else (Raise (AssertionError msg), w).
Proof. destruct g; simpl; [reflexivity | apply bind_assert]. Qed.

Lemma bind_when_assert {A} (g c : bool) msg (k : unit -> M A) w :
  bind (if g then assert c msg else ret tt) k w =
  if negb g || c then k tt w else (Raise (AssertionError msg), w).
Proof. destruct g; simpl; [apply bind_assert | reflexivity]. Qed.

Lemma bind_opt_assert2 {A X} (o : option X) (c1 c2 : X -> bool) msg1 msg2
    (k : unit -> M A) w :
  fst (bind (match o with
             | Some x => bind (assert (c1 x) msg1) (fun _ => assert (c2 x) msg2)
             | None => ret tt
             end) k w) =
  if opt_ok c1 o then
    if opt_ok c2 o then fst (k tt w) else Raise (AssertionError msg2)
  else Raise (AssertionError msg1).
Proof.
  destruct o as [x|]; cbn [opt_ok]; [| reflexivity].
  unfold bind, assert, ret, raise.
  destruct (c1 x), (c2 x); reflexivity.
Qed.

Lemma bind_ret {A B} (a : A) (k : A -> M B) w : bind (ret a) k w = k a w.
Proof. reflexivity. Qed.

Lemma bind_raise {A B} (e : exn) (k : A -> M B) w :
  bind (raise e) k w = (Raise e, w).
Proof. reflexivity. Qed.

Lemma bind_get_self {A} (k : Experiment -> M A) w :
  bind get_self k w = k (self w) w.
Proof. reflexivity. Qed.

Lemma bind_update_self {A} f (k : unit -> M A) w :
  bind (update_self f) k w = k tt {| self := f (self w); journal := journal w |}.
Proof. reflexivity. Qed.

Lemma bind_emit {A} ev (k : unit -> M A) w :
  bind (emit ev) k w = k tt {| self := self w; journal := journal w ++ [ev] |}.
Proof. reflexivity. Qed.

Lemma bind_getitem {A V} (d : gmap string V) key (k : V -> M A) w :
  bind (getitem d key) k w =
  match d !! key with
  | Some v => k v w
  | None => (Raise (KeyError key), w)
  end.
Proof. unfold bind, getitem. destruct (d !! key); reflexivity. Qed.

Lemma bind_data_set {A} key (k : option DataSet -> M A) w :
  bind (data_set key) k w =
  match assoc_lookup key (_data_sets (self w)) with
  | Some d => k d w
  | None => (Raise (KeyError key), w)
  end.
Proof.
  unfold data_set, bind, get_self.
  destruct (assoc_lookup key (_data_sets (self w))); reflexivity.
Qed.

Lemma bind_bind {A B C} (m : M A) (f : A -> M B) (k : B -> M C) w :
  bind (bind m f) k w = bind m (fun a => bind (f a) k) w.
Proof. unfold bind. destruct (m w) as [[a|e] w']; reflexivity. Qed.

Lemma bind_returns {A B} (m : M A) (k : A -> M B) w b :
  fst (bind m k w) = Return b ->
  exists a, fst (m w) = Return a /\ fst (k a (snd (m w))) = Return b.
Proof.
  unfold bind. destruct (m w) as [[a|e] w']; simpl; [eauto | discriminate].
Qed.

Lemma bind_snd {A B} (m : M A) (k : A -> M B) w :
  snd (bind m k w) =
  match fst (m w) with
  | Return a => snd (k a (snd (m w)))
  | Raise _ => snd (m w)
  end.
Proof. unfold bind. destruct (m w) as [[a|e] w']; reflexivity. Qed.

(** ** What [_run_checks] answers *)

Ltac split_check :=
  match goal with
  | |- fst (if ?c then _ else _) = (if ?c' then _ else _) =>
      change c' with c; destruct c; [| reflexivity]
  | |- (if ?c then _ else _) = (if ?c' then _ else _) =>
      change c' with c; destruct c; [| reflexivity]
  end.

Lemma _run_checks_outcome e j :
  fst (_run_checks {| self := e; journal := j |}) = first_failed (checklist e).
Proof.
  unfold _run_checks, checklist.
  rewrite bind_get_self. cbn [self first_failed].
  rewrite bind_assert. split_check.
  rewrite bind_assert. split_check.
  rewrite bind_opt_assert. split_check.
  rewrite bind_opt_assert. split_check.
  rewrite bind_unless_assert. split_check.
  rewrite bind_unless_assert. split_check.
  rewrite bind_data_set. cbn [self].
  destruct (assoc_lookup "devel" (_data_sets e)) as [[d|]|];
    [| reflexivity | reflexivity].
  cbn [is_some absent negb].
  destruct (examples d) as [|first ?]; [reflexivity|].
  rewrite bind_ret, bind_assert. cbn [len3 Nat.eqb].
  rewrite bind_assert. split_check.
  rewrite bind_assert. split_check.
  rewrite bind_data_set. cbn [self].
  destruct (assoc_lookup "eval" (_data_sets e)) as [eval|] eqn:Heval;
    [| reflexivity].
  cbn [is_some absent negb].
  assert (Hpop : forall (b : bool) (X Y : outcome unit),
            (if negb (match eval with Some _ => false | None => true end) || b
             then X else Y) =
            (if negb (absent eval) || b then X else Y)) by reflexivity.
  rewrite Hpop. clear Hpop.
  rewrite bind_when_assert. split_check.
  rewrite bind_assert. split_check.
  rewrite bind_opt_assert. split_check.
  set (upd1 := match _clf e with Some c => _ | None => _ end).
  set (upd2 := match _metrics e with Some (OneMetric m) => _ | _ => _ end).
  assert (H1 : exists e1, upd1 {| self := e; journal := j |} =
                          (Return tt, {| self := e1; journal := j |}) /\
             _data_sets e1 = _data_sets e /\ features e1 = features e /\
             clean e1 = clean e /\ info e1 = info e).
  { subst upd1. destruct (_clf e) as [c|]; [destruct (clf_n_jobs c)|];
      eexists; (split; [reflexivity | repeat split]). }
  destruct H1 as (e1 & Hu1 & Hd1 & Hf1 & Hc1 & Hi1).
  unfold bind at 1. rewrite Hu1. clear Hu1.
  assert (H2 : exists e2, upd2 {| self := e1; journal := j |} =
                          (Return tt, {| self := e2; journal := j |}) /\
             _data_sets e2 = _data_sets e1 /\ features e2 = features e1 /\
             clean e2 = clean e1 /\ info e2 = info e1).
  { subst upd2. destruct (_metrics e) as [[m|ms]|];
      eexists; (split; [reflexivity | repeat split]). }
  destruct H2 as (e2 & Hu2 & Hd2 & Hf2 & Hc2 & Hi2).
  unfold bind at 1. rewrite Hu2. clear Hu2.
  rewrite Hd1 in Hd2. rewrite Hf1 in Hf2. rewrite Hc1 in Hc2. rewrite Hi1 in Hi2.
  clear upd1 upd2 Hd1 Hf1 Hc1 Hi1 e1.
  rewrite bind_opt_assert2. split_check. split_check.
  rewrite bind_opt_assert2. split_check. split_check.
  set (tail := bind get_self _).
  assert (Htail : forall j',
    fst (tail {| self := e2; journal := j' |}) =
    first_failed
      [(negb (absent eval) || is_some (features e !! "eval"), KeyError "eval");
       (negb (absent eval) || is_some (clean e !! "eval"), KeyError "eval");
       (negb (absent eval) || is_some (info e !! "eval"), KeyError "eval")]).
  { intros j'. subst tail. rewrite bind_get_self. cbn [self].
    rewrite Hd2, Heval. destruct eval as [ds|]; [reflexivity|].
    cbn [absent negb orb first_failed].
    rewrite bind_update_self, bind_get_self, bind_getitem.
    cbn [self journal features set__data_sets]. rewrite Hf2.
    destruct (features e !! "eval"); [| reflexivity].
    cbn [is_some absent negb].
    rewrite bind_update_self, bind_get_self, bind_getitem.
    cbn [self journal clean set_features set__data_sets]. rewrite Hc2.
    destruct (clean e !! "eval"); [| reflexivity].
    cbn [is_some absent negb].
    rewrite bind_update_self, bind_get_self, bind_getitem.
    cbn [self journal info set_clean set_features set__data_sets]. rewrite Hi2.
    destruct (info e !! "eval"); reflexivity. }
  clearbody tail.
  destruct (truthy (_pca_thresh e)); cbn [negb orb].
  - rewrite bind_bind, bind_assert. split_check.
    destruct (absent (_scaler e)); apply Htail.
  - apply Htail.
Qed.


(** ** Invariants of computations *)

Lemma stable_bind {A B} P (m : M A) (k : A -> M B) :
  stable P m -> (forall a, stable P (k a)) -> stable P (bind m k).
Proof.
  intros Hm Hk w Hw. rewrite bind_snd.
  destruct (fst (m w)) as [a|e]; [apply Hk|]; apply Hm, Hw.
Qed.

Lemma stable_silent {A} P (m : M A) :
  (forall w, snd (m w) = w) -> stable P m.
Proof. intros Hm w Hw. rewrite Hm. exact Hw. Qed.

Lemma stable_ret {A} P (a : A) : stable P (ret a).
Proof. apply stable_silent. reflexivity. Qed.

Lemma stable_raise {A} P e : stable P (@raise _ A e).
Proof. apply stable_silent. reflexivity. Qed.

Lemma stable_lift {A} P (o : outcome A) : stable P (lift o).
Proof. apply stable_silent. reflexivity. Qed.

Lemma stable_get_self P : stable P get_self.
Proof. apply stable_silent. reflexivity. Qed.

Lemma stable_assert P c msg : stable P (assert c msg).
Proof. apply stable_silent. intros w. destruct c; reflexivity. Qed.

Lemma stable_getitem {V} P (d : gmap string V) key : stable P (getitem d key).
Proof.
  apply stable_silent. intros w. unfold getitem. destruct (d !! key); reflexivity.
Qed.

Lemma stable_data_set P key : stable P (data_set key).
Proof.
  apply stable_silent. intros w. unfold data_set, bind, get_self. simpl.
  destruct (assoc_lookup key (_data_sets (self w))); reflexivity.
Qed.

Lemma stable_data_set_targets P key : stable P (data_set_targets key).
Proof.
  apply stable_bind; [apply stable_data_set|].
  intros [d|]; [apply stable_ret | apply stable_raise].
Qed.

Lemma stable_iter_data_set P key : stable P (iter_data_set key).
Proof.
  apply stable_bind; [apply stable_data_set|].
  intros [d|]; [apply stable_ret | apply stable_raise].
Qed.

Lemma stable_update_self (P : World -> Prop) f :
  (forall w, P w -> P {| self := f (self w); journal := journal w |}) ->
  stable P (update_self f).
Proof. intros Hf w Hw. apply Hf, Hw. Qed.

Lemma stable_emit (P : World -> Prop) ev :
  (forall w, P w -> P {| self := self w; journal := journal w ++ [ev] |}) ->
  stable P (emit ev).
Proof. intros Hf w Hw. apply Hf, Hw. Qed.

Lemma stable_for_each {A} P (xs : list A) body :
  (forall x, stable P (body x)) -> stable P (for_each xs body).
Proof.
  intros Hb. induction xs as [|x xs IH]; simpl.
  - apply stable_ret.
  - apply stable_bind; [apply Hb | intros _; exact IH].
Qed.

Lemma stable_run_tasks {A B} P (f : B -> M A) (xs : list B) :
  (forall x, stable P (f x)) -> stable P (run_tasks (map f xs)).
Proof.
  intros Hf. induction xs as [|x xs IH]; simpl.
  - apply stable_ret.
  - apply stable_bind; [apply Hf | intros r].
    apply stable_bind; [exact IH | intros rs; apply stable_ret].
Qed.

Lemma stable_Parallel {A B} P n_jobs (f : B -> M A) (xs : list B) :
  (forall x, stable P (f x)) -> stable P (Parallel n_jobs (map f xs)).
Proof.
  intros Hf. unfold Parallel.
  destruct (zero_jobs n_jobs); [apply stable_raise | apply stable_run_tasks, Hf].
Qed.

Create HintDb stable.
#[local] Hint Resolve stable_ret stable_raise stable_lift stable_get_self
  stable_assert stable_getitem stable_data_set stable_data_set_targets
  stable_iter_data_set : stable.

Ltac head_of t :=
  lazymatch t with
  | ?f _ => head_of f
  | _ => t
  end.

(** Walks through a computation; [side] settles what an assignment or a log
    line does to the invariant. *)
Ltac stable_walk side :=
  cbv beta;
  lazymatch goal with
  | |- stable _ (bind _ _) =>
      apply stable_bind; [stable_walk side | intro; stable_walk side]
  | |- stable _ (for_each _ _) =>
      apply stable_for_each; intro; stable_walk side
  | |- stable _ (Parallel _ (map _ _)) =>
      apply stable_Parallel; intro; stable_walk side
  | |- stable _ (update_self _) => apply stable_update_self; side
  | |- stable _ (emit _) => apply stable_emit; side
  | |- stable _ (logging_info _) => apply stable_emit; side
  | |- stable _ (logging_warning _) => apply stable_emit; side
  | |- stable _ (match ?x with _ => _ end) => destruct x; stable_walk side
  | |- stable _ ?m =>
      first [ solve [auto with stable]
            | let h := head_of m in unfold h; stable_walk side ]
  end.

Lemma seed_keeps_labels l x : stable (labels_are l) (seed_feature_labels x).
Proof.
  intros w Hw. unfold seed_feature_labels, labels_are in *.
  rewrite bind_get_self, Hw. exact Hw.
Qed.
#[local] Hint Resolve seed_keeps_labels : stable.


(** ** The feature-name list *)

Ltac labels_side :=
  intros; unfold settled, labels_are, labels_unset, no_modifier in *; cbn in *;
  repeat match goal with
         | |- context [match ?x with _ => _ end] => destruct x
         end;
  cbn in *; intuition.

Lemma _clean_keeps_labels l d : stable (labels_are l) (_clean d).
Proof. stable_walk labels_side. Qed.

Lemma _load_keeps_labels l d m :
  stable (labels_are l) (_load_cleaned_or_features d m).
Proof. stable_walk labels_side. Qed.

Lemma collect_keeps_labels l d x :
  stable (labels_are l) (collect_feature_vector d x).
Proof. stable_walk labels_side. Qed.

Lemma collect_all_keeps_labels l d fvs :
  stable (labels_are l) (collect_feature_vectors d fvs).
Proof. stable_walk labels_side. Qed.

Lemma _generate_features_keeps_labels l d :
  stable (labels_are l) (_generate_features d).
Proof. stable_walk labels_side. Qed.

Lemma _run_checks_keeps_labels l : stable (labels_are l) _run_checks.
Proof. stable_walk labels_side. Qed.

Lemma _validate_keeps_labels l : stable (labels_are l) _validate.
Proof. stable_walk labels_side. Qed.

Lemma _final_evaluate_keeps_labels l : stable (labels_are l) _final_evaluate.
Proof. stable_walk labels_side. Qed.

Lemma _analyze_performance_keeps_labels l d :
  stable (labels_are l) (_analyze_performance d).
Proof. stable_walk labels_side. Qed.

Lemma seed_keeps_settled l x : stable (settled l) (seed_feature_labels x).
Proof.
  intros w [Hw Hm]. unfold seed_feature_labels, settled, labels_are in *.
  rewrite bind_get_self, Hw. split; assumption.
Qed.
#[local] Hint Resolve seed_keeps_settled : stable.

Lemma _run_valid_or_eval_keeps_settled l d :
  stable (settled l) (_run_valid_or_eval d).
Proof.
  intros w Hw. unfold _run_valid_or_eval.
  rewrite bind_get_self.
  replace (_feature_vector_modifier (self w)) with (@None modifier)
    by (symmetry; apply Hw).
  rewrite bind_ret.
  match goal with
  | |- settled l (snd (?m w)) => assert (Hs : stable (settled l) m)
  end.
  { stable_walk labels_side. }
  apply Hs, Hw.
Qed.
#[local] Hint Resolve _run_valid_or_eval_keeps_settled : stable.

Lemma run_keeps_settled l : stable (settled l) run.
Proof. stable_walk labels_side. Qed.

(** Seeding: the list is taken from the first vector that is not [None]. *)
Lemma seed_sets_labels x w :
  labels_unset w ->
  seed_feature_labels x w =
  (Return tt, {| self := set_feature_labels (Some (columns x)) (self w);
                 journal := journal w |}).
Proof.
  intros Hw. unfold seed_feature_labels, labels_unset in *.
  rewrite bind_get_self, Hw. reflexivity.
Qed.

Lemma failure_keeps_unset d i :
  stable labels_unset (collect_feature_vector d (i, None)).
Proof. stable_walk labels_side. Qed.

Lemma collect_loop_seeds d fvs :
  forall k w,
    labels_unset w ->
    fst (for_each (zip (seq k (length fvs)) fvs) (collect_feature_vector d) w)
      = Return tt ->
    feature_labels
      (self (snd (for_each (zip (seq k (length fvs)) fvs)
                    (collect_feature_vector d) w))) =
    columns <$> first_success fvs.
Proof.
  induction fvs as [|fv rest IH]; intros k w Hw Hret.
  - exact Hw.
  - cbn [length seq zip zip_with for_each first_success] in *.
    apply bind_returns in Hret as ([] & Hbody & Hrest).
    rewrite bind_snd, Hbody.
    destruct fv as [v|].
    + cbn [fmap option_fmap option_map].
      apply (stable_for_each (labels_are (columns v))).
      { intros x. apply collect_keeps_labels. }
      unfold collect_feature_vector.
      rewrite bind_snd, (seed_sets_labels v w Hw). cbn [fst snd].
      match goal with
      | |- labels_are _ (snd (?m ?w0)) =>
          assert (Hs : stable (labels_are (columns v)) m)
            by stable_walk labels_side;
          apply Hs
      end.
      reflexivity.
    + apply IH; [| exact Hrest].
      apply failure_keeps_unset, Hw.
Qed.

Lemma collect_feature_vectors_seeds d fvs w :
  labels_unset w ->
  fst (collect_feature_vectors d fvs w) = Return tt ->
  feature_labels (self (snd (collect_feature_vectors d fvs w))) =
  columns <$> first_success fvs.
Proof.
  intros Hw Hret. unfold collect_feature_vectors, enumerate in *.
  apply bind_returns in Hret as ([] & Hloop & Hrest).
  rewrite bind_snd, Hloop.
  rewrite <- (collect_loop_seeds d fvs 0%nat w Hw Hloop).
  set (w1 := snd (for_each _ _ w)).
  destruct (feature_labels (self w1)) as [l|] eqn:Hl.
  - match goal with
    | |- feature_labels (self (snd (?m w1))) = _ =>
        assert (Hs : stable (labels_are l) m) by stable_walk labels_side
    end.
    apply Hs, Hl.
  - match goal with
    | |- feature_labels (self (snd (?m w1))) = _ =>
        assert (Hs : stable labels_unset m) by stable_walk labels_side
    end.
    apply Hs, Hl.
Qed.

Lemma _load_seeds d m ds w :
  labels_unset w ->
  assoc_lookup d (_data_sets (self w)) = Some (Some ds) ->
  fst (_load_cleaned_or_features d m w) = Return tt ->
  feature_labels (self (snd (_load_cleaned_or_features d m w))) =
  (fun x => columns x.1.1) <$> head (examples ds).
Proof.
  intros Hw Hds Hret. unfold _load_cleaned_or_features in *.
  unfold logging_info in *. rewrite bind_emit in *.
  set (w0 := {| self := self w; journal := _ |}) in *.
  assert (Hw0 : labels_unset w0) by exact Hw.
  assert (Hds0 : assoc_lookup d (_data_sets (self w0)) = Some (Some ds)) by exact Hds.
  clearbody w0. clear w Hw Hds.
  unfold iter_data_set in *. rewrite bind_bind, bind_data_set, Hds0, bind_ret in *.
  destruct (examples ds) as [|[[x sf] lab] rest]; [exact Hw0|].
  cbn [head fmap option_fmap option_map fst].
  cbn [for_each] in *.
  apply bind_returns in Hret as ([] & Hbody & Hrest).
  rewrite bind_snd, Hbody.
  apply (stable_for_each (labels_are (columns x))).
  { intros [[x' sf'] lab']. stable_walk labels_side. }
  clear Hrest.
  apply bind_returns in Hbody as ([] & Hsfreq & Hbody).
  rewrite bind_snd, Hsfreq.
  assert (Hw1 : labels_unset (snd (record_sfreq d sf w0))).
  { assert (Hs : stable labels_unset (record_sfreq d sf))
      by stable_walk labels_side.
    apply Hs, Hw0. }
  rewrite bind_snd, (seed_sets_labels x _ Hw1). cbn [fst snd].
  match goal with
  | |- labels_are _ (snd (?k ?w1)) =>
      assert (Hs : stable (labels_are (columns x)) k)
        by stable_walk labels_side;
      apply Hs
  end.
  reflexivity.
Qed.

Ltac norm_in H := cbv beta in H; repeat rewrite bind_bind in H.

Lemma modifier_postcondition d m w :
  _feature_vector_modifier (self w) = Some m ->
  fst (_run_valid_or_eval d w) = Return tt ->
  exists ds store x rest l',
    assoc_lookup d (_data_sets (self w)) = Some ds /\
    features (self w) !! d = Some store /\
    modify m ds store (feature_labels (self w)) = (x :: rest, Some l') /\
    features (self (snd (_run_valid_or_eval d w))) !! d = Some (x :: rest) /\
    feature_labels (self (snd (_run_valid_or_eval d w))) = Some l' /\
    last (item_shape x) = Some (length l').
Proof.
  intros Hm Hret.
  remember (_run_valid_or_eval d w) as R eqn:HR.
  unfold _run_valid_or_eval in HR.
  rewrite bind_get_self, Hm in HR. norm_in HR.
  rewrite bind_data_set in HR.
  destruct (assoc_lookup d (_data_sets (self w))) as [ds|];
    [| subst R; discriminate].
  norm_in HR. rewrite bind_getitem in HR.
  destruct (features (self w) !! d) as [store|]; [| subst R; discriminate].
  norm_in HR.
  destruct (is_callable m); [| subst R; discriminate].
  rewrite bind_ret in HR.
  destruct (modify m ds store (feature_labels (self w)))
    as [store' labels'] eqn:Hmod.
  norm_in HR. rewrite bind_update_self in HR.
  norm_in HR. rewrite bind_update_self in HR.
  norm_in HR. rewrite bind_assert in HR.
  destruct store' as [|x rest]; [subst R; discriminate|].
  cbn [length Nat.ltb Nat.leb] in HR. norm_in HR.
  destruct (last (item_shape x)) as [width|] eqn:Hlast;
    [| subst R; discriminate].
  rewrite bind_ret in HR. norm_in HR.
  destruct labels' as [l'|]; [| subst R; discriminate].
  rewrite bind_ret in HR. norm_in HR. rewrite bind_assert in HR.
  destruct (width =? length l')%nat eqn:Hwidth; [| subst R; discriminate].
  apply Nat.eqb_eq in Hwidth. subst width.
  exists ds, store, x, rest, l'.
  split; [reflexivity|]. split; [reflexivity|]. split; [exact Hmod|].
  rewrite HR.
  match goal with
  | |- context [snd (?k ?w2)] =>
      assert (Hs : stable (fun w' => features (self w') !! d = Some (x :: rest)
                                     /\ feature_labels (self w') = Some l') k)
  end.
  { stable_walk labels_side. }
  match goal with
  | |- context [snd (_ ?w2)] => destruct (Hs w2) as [Hf Hl]
  end.
  { cbn. split; [apply lookup_insert_eq | reflexivity]. }
  auto.
Qed.

(** ** Configuration validation *)

Lemma first_failed_passes checks :
  first_failed checks = Return tt <-> forallb fst checks = true.
Proof.
  induction checks as [|[c e] rest IH]; simpl; [tauto|].
  destruct c; simpl; [exact IH | split; discriminate].
Qed.

(** Every check that was made on the way to a successful validation holds. *)
Ltac checks_passed Hok :=
  repeat match type of Hok with
         | (if ?c then _ else _) = Return tt =>
             destruct c eqn:?; [| discriminate Hok]
         end.

(** C4: when the classifier, the cleaning procedure and the
    feature-generation procedure are all absent, configuration validation
    fails with "please specify what to do"; [run] fails with the same
    error right after its opening log line, before any stage has run: the
    instance is unchanged and no procedure has been applied. *)
Theorem nothing_to_do_is_rejected (e : Experiment) (j : list event) :
  _cleaning_procedure e = None ->
  _feature_generation_procedure e = None ->
  _clf e = None ->
  _run_checks {| self := e; journal := j |} =
    (Raise (AssertionError "please specify what to do"),
     {| self := e; journal := j |}) /\
  run {| self := e; journal := j |} =
    (Raise (AssertionError "please specify what to do"),
     {| self := e; journal := j ++ [Logged "INFO" "Started on {} at {}"] |}).
Proof.
  intros Hc Hf Hclf.
  assert (Hchecks : forall j', _run_checks {| self := e; journal := j' |} =
            (Raise (AssertionError "please specify what to do"),
             {| self := e; journal := j' |})).
  { intros j'. unfold _run_checks.
    rewrite bind_get_self, bind_assert. cbn [self].
    rewrite Hc, Hf, Hclf. reflexivity. }
  split; [apply Hchecks|].
  unfold run, logging_info. rewrite bind_emit. cbn [self journal].
  unfold bind at 1. rewrite Hchecks. reflexivity.
Qed.

(** C5: for a configuration without evaluation data set that passes
    validation with some split count, validation rejects every count below
    2 (a count of at most 0 as not positive, a count of 1 as too few splits
    for cross-validation) and accepts every integer count of at least 2. *)
Theorem cross_validation_needs_two_splits
    devel clf metrics n_jobs cp cpar fgp fgpar shuffle pca sc modi verb
    (n0 : pyval) :
  fst (_run_checks (fresh (__init__ devel clf metrics None n_jobs cp cpar
                             fgp fgpar n0 shuffle pca sc modi verb)))
    = Return tt ->
  forall n : Z,
    (n <= 0 ->
     fst (_run_checks (fresh (__init__ devel clf metrics None n_jobs cp cpar
                                fgp fgpar (PInt n) shuffle pca sc modi verb)))
       = Raise (AssertionError
                  "n_repetitions has to be an integer larger than 0")) /\
    (n = 1 ->
     fst (_run_checks (fresh (__init__ devel clf metrics None n_jobs cp cpar
                                fgp fgpar (PInt n) shuffle pca sc modi verb)))
       = Raise (AssertionError "need at least two splits for cv")) /\
    (2 <= n ->
     fst (_run_checks (fresh (__init__ devel clf metrics None n_jobs cp cpar
                                fgp fgpar (PInt n) shuffle pca sc modi verb)))
       = Return tt).
Proof.
  unfold fresh. intros Hok n. rewrite !_run_checks_outcome in *.
  unfold checklist, __init__ in *.
  cbn -[py_in Z.leb Z.ltb] in *.
  checks_passed Hok.
  cbn -[Z.leb Z.ltb].
  repeat split; intros Hn.
  - destruct (0 <? n) eqn:E; [lia | reflexivity].
  - subst n. reflexivity.
  - destruct (0 <? n) eqn:E; [| lia].
    destruct (2 <=? n) eqn:E'; [| lia]. reflexivity.
Qed.

(** A job count that is not an integer of at least -1 never passes
    validation, whatever the rest of the configuration is. *)
Lemma bad_n_jobs_never_passes (e : Experiment) (j : list event) :
  int_ge (_n_jobs e) (-1) = false ->
  fst (_run_checks {| self := e; journal := j |}) <> Return tt.
Proof.
  intros Hbad Hok. rewrite _run_checks_outcome in Hok.
  apply first_failed_passes in Hok. unfold checklist in Hok.
  cbn [forallb fst] in Hok. rewrite Hbad in Hok.
  repeat match type of Hok with
         | ?c && _ = true => destruct c; [cbn [andb] in Hok | discriminate Hok]
         end.
  discriminate Hok.
Qed.

(** C6: in a configuration that is valid for some job count, validation
    fails with the error "n_jobs has to be an integer larger or equal to
    -1" exactly when the count is not an integer of at least -1 -- a count
    of -2 is rejected -- and it passes for -1 and for every integer of at
    least 1. *)
Theorem parallelism_count_is_checked
    devel clf metrics eval cp cpar fgp fgpar n shuffle pca sc modi verb
    (v0 : pyval) :
  fst (_run_checks (fresh (__init__ devel clf metrics eval v0 cp cpar
                             fgp fgpar n shuffle pca sc modi verb)))
    = Return tt ->
  (forall v : pyval,
     int_ge v (-1) = false ->
     fst (_run_checks (fresh (__init__ devel clf metrics eval v cp cpar
                                fgp fgpar n shuffle pca sc modi verb)))
       = Raise (AssertionError
                  "n_jobs has to be an integer larger or equal to -1")) /\
  fst (_run_checks (fresh (__init__ devel clf metrics eval (PInt (-2)) cp cpar
                             fgp fgpar n shuffle pca sc modi verb)))
    = Raise (AssertionError
               "n_jobs has to be an integer larger or equal to -1") /\
  (forall k : Z,
     k = -1 \/ 1 <= k ->
     fst (_run_checks (fresh (__init__ devel clf metrics eval (PInt k) cp cpar
                                fgp fgpar n shuffle pca sc modi verb)))
       = Return tt).
Proof.
  unfold fresh. intros Hok.
  assert (Hall : forall v,
    fst (_run_checks {| self := __init__ devel clf metrics eval v cp cpar
                               fgp fgpar n shuffle pca sc modi verb;
                        journal := [] |}) =
    if int_ge v (-1) then Return tt
    else Raise (AssertionError
                  "n_jobs has to be an integer larger or equal to -1")).
  { intros v. rewrite !_run_checks_outcome in *.
    unfold checklist, __init__ in *.
    cbn -[py_in int_ge int_gt] in *.
    checks_passed Hok.
    destruct (int_ge v (-1)); reflexivity. }
  repeat split.
  - intros v Hv. rewrite Hall, Hv. reflexivity.
  - rewrite Hall. reflexivity.
  - intros k Hk. rewrite Hall. cbn [int_ge].
    destruct (-1 <=? k) eqn:E; [reflexivity | lia].
Qed.


(** ** What [run] does after a successful validation *)

Lemma ensures_skip {A B} Q (m : M A) (k : A -> M B) :
  (forall a, ensures Q (k a)) -> ensures Q (bind m k).
Proof.
  intros Hk w b Hret.
  apply bind_returns in Hret as (a & Hm & Hret).
  rewrite bind_snd, Hm. apply (Hk a _ b Hret).
Qed.

Ltac journal_side :=
  intros; unfold journaled in *; cbn in *;
  repeat match goal with
         | |- context [match ?x with _ => _ end] => destruct x
         end;
  cbn in *; try assumption; try (apply elem_of_app; left; assumption).

Ltac construction_side :=
  unfold as_constructed;
  intros ? (?&?&?&?&?&?&?&?&?&?&?&[rest Hds]); cbn in *;
  repeat match goal with
         | |- context [match ?x with _ => _ end] => destruct x
         end;
  cbn in *;
  repeat split; try assumption;
  try (rewrite lookup_delete_ne by discriminate; assumption);
  try (rewrite Hds; cbn; eexists; reflexivity);
  eauto.

Lemma _run_checks_keeps_construction cp cpar fgp fgpar nj devel :
  stable (as_constructed cp cpar fgp fgpar nj devel) _run_checks.
Proof. stable_walk construction_side. Qed.

Lemma constructed_as_constructed
    devel clf metrics eval n_jobs cp cpar fgp fgpar n shuffle pca sc modi verb j :
  as_constructed cp cpar fgp fgpar n_jobs devel
    {| self := __init__ devel clf metrics eval n_jobs cp cpar fgp fgpar n
                 shuffle pca sc modi verb;
       journal := j |}.
Proof. unfold as_constructed. cbn. repeat split. eexists. reflexivity. Qed.


Lemma run_after_validation cp cpar fgp fgpar nj devel w :
  let w1 := {| self := self w;
               journal := journal w ++ [Logged "INFO" "Started on {} at {}"] |} in
  as_constructed cp cpar fgp fgpar nj devel w1 ->
  fst (_run_checks w1) = Return tt ->
  as_constructed cp cpar fgp fgpar nj devel (snd (_run_checks w1)) /\
  exists keys,
    run w =
    bind (stages (negb (absent cp)) (negb (absent fgp)) false "devel")
      (fun _ => bind (for_each keys
                        (stages (negb (absent cp)) (negb (absent fgp)) false))
                  (fun _ => logging_info "Finished on {} at {}."))
      (snd (_run_checks w1)).
Proof.
  intros w1 Hw1 Hok.
  pose proof (_run_checks_keeps_construction _ _ _ _ _ _ w1 Hw1) as Hw2.
  split; [exact Hw2|].
  unfold run, logging_info. rewrite bind_emit. fold w1.
  unfold bind at 1.
  destruct (_run_checks w1) as [[[]|err] w2]; [| discriminate Hok].
  cbn [snd] in *.
  destruct Hw2 as (Hcp & _ & Hfgp & _ & _ & _ & _ & Hfeat & _ & _ & _ & rest & Hds).
  rewrite bind_get_self, Hcp, Hfgp, Hds.
  exists (map fst rest).
  destruct (_clf (self w2)).
  - rewrite bind_bind, bind_getitem, Hfeat, bind_ret.
    cbn [map fst for_each]. rewrite bind_bind. reflexivity.
  - rewrite bind_ret. cbn [map fst for_each]. rewrite bind_bind. reflexivity.
Qed.


(** ** The stages read attributes that [__init__] never creates *)

Lemma _clean_with_params d w :
  cleaning_procedure (self w) = None ->
  is_None (_cleaning_params (self w)) = false ->
  _clean d w =
  (Raise (AttributeError "cleaning_procedure"),
   {| self := self w;
      journal := journal w ++ [Logged "INFO" ("Making clean (" +:+ d +:+ ")")] |}).
Proof.
  intros Hattr Hpar. unfold _clean, logging_info.
  rewrite bind_emit, bind_get_self. cbn [self].
  rewrite Hpar. cbn [negb].
  unfold getattr_cleaning_procedure.
  rewrite !bind_bind, bind_get_self. cbn [self]. rewrite Hattr.
  reflexivity.
Qed.

Lemma _clean_with_examples d ds x xs w :
  cleaning_procedure (self w) = None ->
  is_None (_cleaning_params (self w)) = true ->
  assoc_lookup d (_data_sets (self w)) = Some (Some ds) ->
  examples ds = x :: xs ->
  _clean d w =
  (Raise (if zero_jobs (_n_jobs (self w))
          then ValueError "n_jobs == 0 in Parallel has no meaning"
          else AttributeError "cleaning_procedure"),
   {| self := self w;
      journal := journal w ++ [Logged "INFO" ("Making clean (" +:+ d +:+ ")")] |}).
Proof.
  intros Hattr Hpar Hds Hex. unfold _clean, logging_info.
  rewrite bind_emit, bind_get_self. cbn [self].
  rewrite Hpar. cbn [negb]. rewrite bind_ret.
  unfold iter_data_set. rewrite bind_bind, bind_data_set. cbn [self].
  rewrite Hds, bind_ret, Hex. cbn [map].
  destruct x as [[example sfreq] label].
  unfold getattr_cleaning_procedure, Parallel.
  destruct (zero_jobs (_n_jobs (self w))); [reflexivity|].
  cbn [run_tasks]. rewrite !bind_bind, bind_get_self. cbn [self].
  rewrite Hattr. reflexivity.
Qed.

Lemma _clean_empty_batch d ds w :
  is_None (_cleaning_params (self w)) = true ->
  assoc_lookup d (_data_sets (self w)) = Some (Some ds) ->
  examples ds = [] ->
  zero_jobs (_n_jobs (self w)) = false ->
  _clean d w =
  (Return tt,
   {| self := self w;
      journal := journal w ++ [Logged "INFO" ("Making clean (" +:+ d +:+ ")")] |}).
Proof.
  intros Hpar Hds Hex Hjobs. unfold _clean, logging_info.
  rewrite bind_emit, bind_get_self. cbn [self].
  rewrite Hpar. cbn [negb]. rewrite bind_ret.
  unfold iter_data_set. rewrite bind_bind, bind_data_set. cbn [self].
  rewrite Hds, bind_ret, Hex. cbn [map].
  unfold Parallel. rewrite Hjobs. reflexivity.
Qed.

Lemma _generate_features_with_params d w :
  feature_generation_procedure (self w) = None ->
  is_None (_feature_generation_params (self w)) = false ->
  _generate_features d w =
  (Raise (AttributeError "feature_generation_procedure"),
   {| self := self w;
      journal := journal w ++
                 [Logged "INFO" ("Generating features (" +:+ d +:+ ")")] |}).
Proof.
  intros Hattr Hpar. unfold _generate_features, logging_info.
  rewrite bind_emit, bind_get_self. cbn [self].
  rewrite Hpar. cbn [negb].
  unfold getattr_feature_generation_procedure.
  rewrite !bind_bind, bind_get_self. cbn [self]. rewrite Hattr.
  reflexivity.
Qed.

Lemma _generate_features_with_signals d x xs w :
  feature_generation_procedure (self w) = None ->
  is_None (_feature_generation_params (self w)) = true ->
  clean (self w) !! d = Some (x :: xs) ->
  _generate_features d w =
  (Raise (if zero_jobs (_n_jobs (self w))
          then ValueError "n_jobs == 0 in Parallel has no meaning"
          else AttributeError "feature_generation_procedure"),
   {| self := self w;
      journal := journal w ++
                 [Logged "INFO" ("Generating features (" +:+ d +:+ ")")] |}).
Proof.
  intros Hattr Hpar Hsig. unfold _generate_features, logging_info.
  rewrite bind_emit, bind_get_self. cbn [self].
  rewrite Hpar. cbn [negb]. rewrite bind_ret, bind_getitem, Hsig.
  cbn [map].
  unfold getattr_feature_generation_procedure, Parallel.
  destruct (zero_jobs (_n_jobs (self w))); [reflexivity|].
  cbn [run_tasks]. rewrite !bind_bind, bind_get_self. cbn [self].
  rewrite Hattr. reflexivity.
Qed.


Lemma _generate_features_empty_batch d w :
  is_None (_feature_generation_params (self w)) = true ->
  clean (self w) !! d = Some [] ->
  zero_jobs (_n_jobs (self w)) = false ->
  _generate_features d w =
  collect_feature_vectors d []
    {| self := self w;
       journal := journal w ++
                  [Logged "INFO" ("Generating features (" +:+ d +:+ ")")] |}.
Proof.
  intros Hpar Hsig Hjobs. unfold _generate_features, logging_info.
  rewrite bind_emit, bind_get_self. cbn [self].
  rewrite Hpar. cbn [negb]. rewrite bind_ret, bind_getitem, Hsig.
  cbn [map]. unfold Parallel. rewrite Hjobs. reflexivity.
Qed.

(** ** The warning about PCA on unscaled features *)

Lemma _run_checks_warns e j a :
  truthy (_pca_thresh e) = true ->
  _scaler e = None ->
  fst (_run_checks {| self := e; journal := j |}) = Return a ->
  journaled (Logged "WARNING" "using pca on unscaled features")
    (snd (_run_checks {| self := e; journal := j |})).
Proof.
  intros Hpca Hsc. unfold _run_checks. rewrite bind_get_self. cbn [self].
  rewrite Hpca, Hsc. cbn [absent].
  generalize {| self := e; journal := j |}. intros w. revert w a.
  match goal with
  | |- forall w a, fst (?m w) = Return a -> ?Q (snd (?m w)) =>
      change (ensures Q m)
  end.
  repeat lazymatch goal with
         | |- ensures _ (bind (bind (assert _ _) _) _) => fail
         | |- ensures _ (bind _ _) => apply ensures_skip; intro
         end.
  intros w' b Hret. rewrite bind_bind, bind_assert in *.
  destruct (type_is_int (_pca_thresh e) || type_is_float (_pca_thresh e));
    [| discriminate Hret].
  unfold logging_warning in *. rewrite bind_emit in *.
  match goal with
  | |- journaled ?ev (snd (?k ?w1)) =>
      assert (Hs : stable (journaled ev) k) by stable_walk journal_side;
      apply Hs
  end.
  unfold journaled. cbn. apply elem_of_app. right. apply list_elem_of_singleton. reflexivity.
Qed.


Lemma journal_is_kept ev dc df dp keys :
  stable (journaled ev)
    (bind (stages dc df dp "devel")
       (fun _ => bind (for_each keys (stages dc df dp))
                   (fun _ => logging_info "Finished on {} at {}."))).
Proof. stable_walk journal_side. Qed.

Lemma first_stage_starts dc df dp keys w :
  let w' := snd (bind (stages dc df dp "devel")
                   (fun _ => bind (for_each keys (stages dc df dp))
                               (fun _ => logging_info "Finished on {} at {}.")) w) in
  journaled (Logged "INFO" "Making clean (devel)") w' \/
  journaled (Logged "INFO" "Loading devel (clean)") w' \/
  journaled (Logged "INFO" "Loading devel (features)") w'.
Proof.
  intros w'. subst w'.
  destruct dc; [left | right; destruct df; [left | right]];
    unfold stages; cbn [negb andb];
    repeat first [rewrite bind_bind | rewrite bind_ret];
    unfold _clean, _load_cleaned_or_features, logging_info;
    repeat rewrite bind_bind; rewrite bind_emit;
    match goal with
    | |- journaled ?ev (snd (?k ?w1)) =>
        assert (Hs : stable (journaled ev) k) by stable_walk journal_side;
        apply Hs
    end;
    unfold journaled; cbn; apply elem_of_app; right;
    apply list_elem_of_singleton; reflexivity.
Qed.

(** C7: in a configuration with a PCA threshold (one that Python's
    [if self._pca_thresh] takes as set) that is valid with some scaler,
    passing no scaler makes validation log the warning "using pca on
    unscaled features" and still succeed; [run] goes on to the first stage
    of the development split, whose opening line is in the log after the
    warning's. *)
Theorem pca_without_scaler_only_warns
    devel clf metrics eval n_jobs cp cpar fgp fgpar n shuffle pca modi verb
    (sc0 : option scaler) :
  truthy pca = true ->
  fst (_run_checks (fresh (__init__ devel clf metrics eval n_jobs cp cpar
                             fgp fgpar n shuffle pca sc0 modi verb)))
    = Return tt ->
  let w := fresh (__init__ devel clf metrics eval n_jobs cp cpar
                    fgp fgpar n shuffle pca None modi verb) in
  fst (_run_checks w) = Return tt /\
  journaled (Logged "WARNING" "using pca on unscaled features")
    (snd (_run_checks w)) /\
  journaled (Logged "WARNING" "using pca on unscaled features") (snd (run w)) /\
  (journaled (Logged "INFO" "Making clean (devel)") (snd (run w)) \/
   journaled (Logged "INFO" "Loading devel (clean)") (snd (run w)) \/
   journaled (Logged "INFO" "Loading devel (features)") (snd (run w))).
Proof.
  intros Hpca Hok w.
  assert (Hpass : forall j,
    fst (_run_checks {| self := self w; journal := j |}) = Return tt).
  { intros j. subst w. unfold fresh in *. rewrite !_run_checks_outcome in *.
    unfold checklist, __init__ in *.
    cbn -[py_in int_ge int_gt truthy] in *.
    checks_passed Hok. reflexivity. }
  split; [apply Hpass|].
  split; [apply (_run_checks_warns (self w) [] tt Hpca eq_refl), Hpass|].
  destruct (run_after_validation cp cpar fgp fgpar n_jobs devel w)
    as (_ & keys & Hrun).
  { apply constructed_as_constructed. }
  { apply Hpass. }
  rewrite Hrun. split.
  - apply journal_is_kept.
    apply (_run_checks_warns (self w) _ tt Hpca eq_refl), Hpass.
  - apply first_stage_starts.
Qed.


Ltac missing_side :=
  intros; unfold attributes_missing in *; cbn in *;
  repeat match goal with
         | |- context [match ?x with _ => _ end] => destruct x
         end;
  cbn in *; intuition.

Lemma _clean_keeps_missing d : stable attributes_missing (_clean d).
Proof.
  intros w Hw. unfold _clean, logging_info.
  rewrite bind_emit, bind_get_self. cbn [self].
  destruct (is_None (_cleaning_params (self w))); cbn [negb].
  - rewrite bind_ret.
    match goal with
    | |- attributes_missing (snd (?k ?w1)) =>
        assert (Hs : stable attributes_missing k) by stable_walk missing_side;
        apply Hs
    end.
    exact Hw.
  - unfold getattr_cleaning_procedure.
    rewrite !bind_bind, bind_get_self. cbn [self].
    destruct Hw as [Hc Hf]. rewrite Hc, bind_raise. split; assumption.
Qed.

Lemma _generate_features_keeps_missing d :
  stable attributes_missing (_generate_features d).
Proof.
  intros w Hw. unfold _generate_features, logging_info.
  rewrite bind_emit, bind_get_self. cbn [self].
  destruct (is_None (_feature_generation_params (self w))); cbn [negb].
  - rewrite bind_ret.
    match goal with
    | |- attributes_missing (snd (?k ?w1)) =>
        assert (Hs : stable attributes_missing k) by stable_walk missing_side;
        apply Hs
    end.
    exact Hw.
  - unfold getattr_feature_generation_procedure.
    rewrite !bind_bind, bind_get_self. cbn [self].
    destruct Hw as [Hc Hf]. rewrite Hf, bind_raise. split; assumption.
Qed.

#[local] Hint Resolve _clean_keeps_missing _generate_features_keeps_missing
  : stable.

Lemma run_keeps_missing : stable attributes_missing run.
Proof. stable_walk missing_side. Qed.


(** C10, as it holds of the code: [__init__] creates neither attribute
    and [run] never does; on an instance without them the cleaning stage
    raises [AttributeError] for [cleaning_procedure] whenever
    [cleaning_params] is not [None], or the split's data set has an example
    and the job count is not 0; the feature-generation stage raises it for
    [feature_generation_procedure] whenever [feature_generation_params] is
    not [None], or the split's clean-signal store has an entry and the job
    count is not 0.  Either way only the stage's opening line is logged:
    the procedure has not been applied and the instance is unchanged.
    Without parameters and on an empty batch neither stage reads the
    attribute: cleaning returns, feature generation goes on to collect an
    empty list of results. *)
Theorem stages_read_attributes_never_assigned :
  (forall devel clf metrics eval n_jobs cp cpar fgp fgpar n shuffle pca sc
          modi verb j,
     attributes_missing
       {| self := __init__ devel clf metrics eval n_jobs cp cpar fgp fgpar n
                    shuffle pca sc modi verb;
          journal := j |}) /\
  stable attributes_missing run /\
  (forall d w,
     cleaning_procedure (self w) = None ->
     is_None (_cleaning_params (self w)) = false \/
     (zero_jobs (_n_jobs (self w)) = false /\
      exists ds x xs,
        assoc_lookup d (_data_sets (self w)) = Some (Some ds) /\
        examples ds = x :: xs) ->
     _clean d w =
     (Raise (AttributeError "cleaning_procedure"),
      {| self := self w;
         journal := journal w ++
                    [Logged "INFO" ("Making clean (" +:+ d +:+ ")")] |})) /\
  (forall d w,
     feature_generation_procedure (self w) = None ->
     is_None (_feature_generation_params (self w)) = false \/
     (zero_jobs (_n_jobs (self w)) = false /\
      exists x xs, clean (self w) !! d = Some (x :: xs)) ->
     _generate_features d w =
     (Raise (AttributeError "feature_generation_procedure"),
      {| self := self w;
         journal := journal w ++
                    [Logged "INFO" ("Generating features (" +:+ d +:+ ")")] |})) /\
  (forall d ds w,
     is_None (_cleaning_params (self w)) = true ->
     assoc_lookup d (_data_sets (self w)) = Some (Some ds) ->
     examples ds = [] ->
     zero_jobs (_n_jobs (self w)) = false ->
     _clean d w =
     (Return tt,
      {| self := self w;
         journal := journal w ++
                    [Logged "INFO" ("Making clean (" +:+ d +:+ ")")] |})) /\
  (forall d w,
     is_None (_feature_generation_params (self w)) = true ->
     clean (self w) !! d = Some [] ->
     zero_jobs (_n_jobs (self w)) = false ->
     _generate_features d w =
     collect_feature_vectors d []
       {| self := self w;
          journal := journal w ++
                     [Logged "INFO" ("Generating features (" +:+ d +:+ ")")] |}).
Proof.
  split; [intros; split; reflexivity|].
  split; [exact run_keeps_missing|].
  split; [| split; [| split;
    [exact _clean_empty_batch | exact _generate_features_empty_batch]]].
  - intros d w Hattr [Hpar | (Hjobs & ds & x & xs & Hds & Hex)].
    + apply _clean_with_params; assumption.
    + destruct (is_None (_cleaning_params (self w))) eqn:Hpar.
      * rewrite (_clean_with_examples d ds x xs w Hattr Hpar Hds Hex), Hjobs.
        reflexivity.
      * apply _clean_with_params; assumption.
  - intros d w Hattr [Hpar | (Hjobs & x & xs & Hsig)].
    + apply _generate_features_with_params; assumption.
    + destruct (is_None (_feature_generation_params (self w))) eqn:Hpar.
      * rewrite (_generate_features_with_signals d x xs w Hattr Hpar Hsig), Hjobs.
        reflexivity.
      * apply _generate_features_with_params; assumption.
Qed.

(** C1: Scenario A on the code.  With a development set of 10 examples,
    a cleaning procedure, a feature-generation procedure and a classifier,
    no evaluation set and 5 splits, in a configuration that passes
    validation, [run] raises in the cleaning stage of the development split
    ([AttributeError] for [cleaning_procedure]; joblib's [ValueError] when
    there are no cleaning parameters and the job count is 0): the
    development feature store is left empty and the prediction and
    performance registries are left empty. *)
Theorem scenario_A_stops_in_cleaning
    ds clf metrics n_jobs cp cpar fgp fgpar shuffle pca sc modi verb :
  length (examples ds) = 10%nat ->
  fst (_run_checks
         (fresh (__init__ (Some ds) (Some clf) metrics None n_jobs (Some cp)
                   cpar (Some fgp) fgpar (PInt 5) shuffle pca sc modi verb)))
    = Return tt ->
  exists w',
    run (fresh (__init__ (Some ds) (Some clf) metrics None n_jobs (Some cp)
                  cpar (Some fgp) fgpar (PInt 5) shuffle pca sc modi verb)) =
    (Raise (if is_None cpar && zero_jobs n_jobs
            then ValueError "n_jobs == 0 in Parallel has no meaning"
            else AttributeError "cleaning_procedure"), w') /\
    features (self w') !! "devel" = Some [] /\
    predictions (self w') = ∅ /\
    performances (self w') = ∅.
Proof.
  intros Hlen Hok.
  set (e := __init__ _ _ _ _ _ _ _ _ _ _ _ _ _ _ _) in *.
  destruct (run_after_validation (Some cp) cpar (Some fgp) fgpar n_jobs
              (Some ds) (fresh e)) as (Hw2 & keys & Hrun).
  { apply constructed_as_constructed. }
  { unfold fresh in *. rewrite _run_checks_outcome in *. exact Hok. }
  rewrite Hrun. clear Hrun.
  set (w2 := snd (_run_checks _)) in *. clearbody w2.
  destruct Hw2 as (_ & Hpar & _ & _ & Hjobs & Hattr & _ & Hfeat & _ & Hpred
                   & Hperf & rest & Hds).
  assert (Hlook : assoc_lookup "devel" (_data_sets (self w2)) = Some (Some ds))
    by (rewrite Hds; reflexivity).
  destruct (examples ds) as [|x xs] eqn:Hex; [discriminate Hlen|].
  unfold stages. cbn [absent negb]. rewrite !bind_bind.
  unfold bind at 1.
  destruct (is_None cpar) eqn:Hnone.
  - rewrite (_clean_with_examples "devel" ds x xs w2 Hattr); try assumption;
      [| rewrite Hpar; exact Hnone].
    rewrite Hjobs. cbn [andb].
    eexists. split; [reflexivity|]. cbn [self]. auto.
  - rewrite (_clean_with_params "devel" w2 Hattr);
      [| rewrite Hpar; exact Hnone].
    cbn [andb].
    eexists. split; [reflexivity|]. cbn [self]. auto.
Qed.


(** ** Validation attaches the feature names to the auxiliary tables *)

(** The part of [_validate] up to the answer of the validation
    capability. *)
Ltac enter_validate Hstore Hds Hlen Hval Hvalid :=
  unfold _validate, logging_info;
  rewrite bind_emit, bind_get_self, bind_getitem; cbn [self];
  rewrite Hstore; unfold data_set_targets;
  rewrite bind_bind, bind_data_set; cbn [self]; rewrite Hds, bind_ret;
  rewrite bind_assert, Hlen, Nat.eqb_refl;
  unfold lift at 1; unfold bind at 1; rewrite Hval;
  rewrite bind_update_self, bind_getitem, Hvalid.

(** C8: when the validation capability answers with auxiliary info whose
    entry for role "valid" holds a PCA-components table, [_validate] sets
    that table's column labels to the feature-name list followed by "id";
    when it holds no PCA-components table but a feature-importances table,
    it sets that table's column labels to the feature-name list itself.
    (The preconditions are those under which [_validate] returns: as many
    devel feature vectors as labels, a feature-name list, and a table with
    as many columns as it is given labels.) *)
Theorem validation_labels_auxiliary_tables w ds store results info0 valid l :
  features (self w) !! "devel" = Some store ->
  assoc_lookup "devel" (_data_sets (self w)) = Some (Some ds) ->
  length store = length (targets ds) ->
  validate store (targets ds) (_clf (self w))
    (_n_splits_or_repetitions (self w)) (_shuffle_splits (self w))
    (_scaler (self w)) (_pca_thresh (self w)) = Return (results, info0) ->
  info0 !! "valid" = Some valid ->
  feature_labels (self w) = Some l ->
  (forall t,
     valid !! "pca_components" = Some (ITable t) ->
     length (columns t) = (length l + 1)%nat ->
     fst (_validate w) = Return tt /\
     info (self (snd (_validate w))) !! "valid" =
       Some (<["pca_components" :=
                 ITable {| columns := l ++ ["id"%string]; values := values t |}]>
               valid)) /\
  (forall t,
     valid !! "pca_components" = None ->
     valid !! "feature_importances" = Some (ITable t) ->
     length (columns t) = length l ->
     fst (_validate w) = Return tt /\
     info (self (snd (_validate w))) !! "valid" =
       Some (<["feature_importances" :=
                 ITable {| columns := l; values := values t |}]>
               valid)).
Proof.
  intros Hstore Hds Hlen Hval Hvalid Hl. split.
  - intros t Hpca Hwidth.
    cut (exists w', _validate w = (Return tt, w') /\
                    info (self w') !! "valid" =
                    Some (<["pca_components" :=
                              ITable {| columns := l ++ ["id"%string];
                                        values := values t |}]> valid)).
    { intros (w' & -> & Hinfo). split; [reflexivity | exact Hinfo]. }
    enter_validate Hstore Hds Hlen Hval Hvalid.
    rewrite Hpca. unfold feature_labels_list.
    rewrite !bind_bind, bind_get_self. cbn [self set_predictions feature_labels].
    rewrite Hl, bind_ret. unfold set_columns.
    rewrite length_app, Hwidth. cbn [length]. rewrite Nat.eqb_refl.
    rewrite bind_bind, bind_ret, bind_ret.
    eexists. split; [reflexivity|]. cbn.
    rewrite lookup_union_l'; [apply lookup_insert_eq|].
    rewrite lookup_insert_eq. eauto.
  - intros t Hpca Himp Hwidth.
    cut (exists w', _validate w = (Return tt, w') /\
                    info (self w') !! "valid" =
                    Some (<["feature_importances" :=
                              ITable {| columns := l; values := values t |}]>
                            valid)).
    { intros (w' & -> & Hinfo). split; [reflexivity | exact Hinfo]. }
    enter_validate Hstore Hds Hlen Hval Hvalid.
    rewrite Hpca, Himp. unfold feature_labels_list.
    rewrite !bind_bind, bind_get_self. cbn [self set_predictions feature_labels].
    rewrite Hl, bind_ret. unfold set_columns.
    rewrite Hwidth, Nat.eqb_refl.
    rewrite bind_bind, bind_ret, bind_ret.
    eexists. split; [reflexivity|]. cbn.
    rewrite lookup_union_l'; [apply lookup_insert_eq|].
    rewrite lookup_insert_eq. eauto.
Qed.


(** ** The performance analyzer always works on "train" and "valid" *)

(** Whatever split it is called for, a call that finds predictions for
    "train" and "valid" stores a table for exactly these two roles. *)
Ltac norm := cbv beta; repeat rewrite bind_bind.

(** One step of a computation whose next instruction cannot raise. *)
Ltac step :=
  norm;
  first [ rewrite bind_get_self | rewrite bind_update_self | rewrite bind_emit
        | rewrite bind_ret ];
  cbv beta; repeat rewrite bind_bind; cbn [self journal].

Lemma _analyze_performance_roles d w p q :
  predictions (self w) !! "train" = Some p ->
  predictions (self w) !! "valid" = Some q ->
  exists j',
    _analyze_performance d w =
    (Return tt,
     {| self :=
          set_performances
            (<["valid" := analyze_quality_of_predictions q (_metrics (self w))]>
               (<["train" := analyze_quality_of_predictions p (_metrics (self w))]>
                  (performances (self w))))
            (self w);
        journal := j' |}).
Proof.
  intros Hp Hq. unfold _analyze_performance, logging_info.
  cbn [for_each String.eqb Ascii.eqb Bool.eqb].
  repeat step. rewrite bind_getitem, Hp.
  repeat step. rewrite bind_getitem. cbn [performances set_performances].
  rewrite lookup_insert_eq.
  repeat step. rewrite bind_getitem. cbn [predictions set_performances].
  rewrite Hq.
  repeat step. rewrite bind_getitem. cbn [performances set_performances].
  rewrite lookup_insert_eq.
  repeat step.
  eexists. reflexivity.
Qed.

(** Without predictions for "valid" the analyzer raises, also when it is
    called for the evaluation split. *)
Lemma _analyze_performance_needs_valid d w p :
  predictions (self w) !! "train" = Some p ->
  predictions (self w) !! "valid" = None ->
  fst (_analyze_performance d w) = Raise (KeyError "valid").
Proof.
  intros Hp Hq. unfold _analyze_performance, logging_info.
  cbn [for_each String.eqb Ascii.eqb Bool.eqb].
  repeat step. rewrite bind_getitem, Hp.
  repeat step. rewrite bind_getitem. cbn [performances set_performances].
  rewrite lookup_insert_eq.
  repeat step. rewrite bind_getitem. cbn [predictions set_performances].
  rewrite Hq. reflexivity.
Qed.

(** ** Feature generation keeps as many vectors as labels, when it returns *)

Lemma collect_feature_vectors_lengths d fvs w :
  fst (collect_feature_vectors d fvs w) = Return tt ->
  exists store ds,
    features (self (snd (collect_feature_vectors d fvs w))) !! d = Some store /\
    assoc_lookup d (_data_sets (self (snd (collect_feature_vectors d fvs w))))
      = Some (Some ds) /\
    length store = length (targets ds).
Proof.
  intros Hret. unfold collect_feature_vectors in *.
  apply bind_returns in Hret as ([] & Hloop & Hret).
  rewrite bind_snd, Hloop.
  set (w1 := snd (for_each _ _ w)) in *. clearbody w1.
  rewrite bind_get_self, bind_getitem in *.
  destruct (features (self w1) !! d) as [store|] eqn:Hstore; [| discriminate].
  unfold data_set_targets in *. rewrite bind_bind, bind_data_set in *.
  destruct (assoc_lookup d (_data_sets (self w1))) as [[ds|]|] eqn:Hds;
    try discriminate.
  rewrite bind_ret in *. unfold assert in *.
  destruct (length store =? length (targets ds))%nat eqn:Hlen;
    [| discriminate].
  cbn [snd ret]. exists store, ds.
  rewrite Hstore, Hds. apply Nat.eqb_eq in Hlen. auto.
Qed.


(** ** The feature-name list is seeded once; only the modifier replaces it *)

(** C3, as it holds of the code: once the feature-name list is set,
    configuration validation, cleaning, loading, feature generation,
    (cross-)validation, final evaluation and performance analysis leave it
    as it is, and so does a whole [run] when no feature vector modifier is
    configured; while it is unset, a feature-generation batch that is
    collected without error sets it to the column labels of the first
    vector that is not [None], and a load sets it to the column labels of
    the first loaded item; a configured modifier replaces it by the list
    the modifier returns, and only then is the width of the first stored
    vector asserted to equal the list's length.  The width of a generated
    vector is never checked. *)
Theorem feature_names_are_seeded_once :
  (forall l d m fvs,
     stable (labels_are l) _run_checks /\
     stable (labels_are l) (_clean d) /\
     stable (labels_are l) (_load_cleaned_or_features d m) /\
     stable (labels_are l) (collect_feature_vectors d fvs) /\
     stable (labels_are l) (_generate_features d) /\
     stable (labels_are l) _validate /\
     stable (labels_are l) _final_evaluate /\
     stable (labels_are l) (_analyze_performance d) /\
     stable (settled l) (_run_valid_or_eval d) /\
     stable (settled l) run) /\
  (forall d fvs w,
     labels_unset w ->
     fst (collect_feature_vectors d fvs w) = Return tt ->
     feature_labels (self (snd (collect_feature_vectors d fvs w))) =
     columns <$> first_success fvs) /\
  (forall d m ds w,
     labels_unset w ->
     assoc_lookup d (_data_sets (self w)) = Some (Some ds) ->
     fst (_load_cleaned_or_features d m w) = Return tt ->
     feature_labels (self (snd (_load_cleaned_or_features d m w))) =
     (fun x => columns x.1.1) <$> head (examples ds)) /\
  (forall d m w,
     _feature_vector_modifier (self w) = Some m ->
     fst (_run_valid_or_eval d w) = Return tt ->
     exists ds store x rest l',
       assoc_lookup d (_data_sets (self w)) = Some ds /\
       features (self w) !! d = Some store /\
       modify m ds store (feature_labels (self w)) = (x :: rest, Some l') /\
       features (self (snd (_run_valid_or_eval d w))) !! d = Some (x :: rest) /\
       feature_labels (self (snd (_run_valid_or_eval d w))) = Some l' /\
       last (item_shape x) = Some (length l')).
Proof.
  split; [| split; [| split]].
  - intros l d m fvs.
    repeat apply conj.
    + apply _run_checks_keeps_labels.
    + apply _clean_keeps_labels.
    + apply _load_keeps_labels.
    + apply collect_all_keeps_labels.
    + apply _generate_features_keeps_labels.
    + apply _validate_keeps_labels.
    + apply _final_evaluate_keeps_labels.
    + apply _analyze_performance_keeps_labels.
    + apply _run_valid_or_eval_keeps_settled.
    + apply run_keeps_settled.
  - exact collect_feature_vectors_seeds.
  - exact _load_seeds.
  - exact modifier_postcondition.
Qed.

(** ** What a successful validation leaves *)

Ltac pass_check :=
  match goal with
  | Hc : ?c = true |- context [if ?c then _ else _] => rewrite Hc
  end.

Lemma bind_opt_assert2_pair {A X} (o : option X) (c1 c2 : X -> bool) msg1 msg2
    (k : unit -> M A) w :
  opt_ok c1 o = true -> opt_ok c2 o = true ->
  bind (match o with
        | Some x => bind (assert (c1 x) msg1) (fun _ => assert (c2 x) msg2)
        | None => ret tt
        end) k w = k tt w.
Proof.
  destruct o as [x|]; cbn [opt_ok]; [| reflexivity].
  intros H1 H2. unfold bind, assert, ret. rewrite H1, H2. reflexivity.
Qed.

Lemma _run_checks_returns e j :
  first_failed (checklist e) = Return tt ->
  _run_checks {| self := e; journal := j |} =
  (Return tt, {| self := validated e; journal := j ++ pca_warning e |}).
Proof.
  intros Hok. apply first_failed_passes in Hok.
  unfold checklist in Hok. cbn [forallb fst] in Hok.
  repeat match type of Hok with
         | _ && _ = true =>
             apply andb_prop in Hok; let Hc := fresh "Hc" in
                                     destruct Hok as [Hc Hok]
         end.
  unfold _run_checks. rewrite bind_get_self. cbn [self].
  rewrite bind_assert. pass_check.
  rewrite bind_assert. pass_check.
  rewrite bind_opt_assert. pass_check.
  rewrite bind_opt_assert. pass_check.
  rewrite bind_unless_assert. pass_check.
  rewrite bind_unless_assert. pass_check.
  rewrite bind_data_set. cbn [self].
  destruct (assoc_lookup "devel" (_data_sets e)) as [[d|]|]; try discriminate.
  destruct (examples d) as [|first ?]; try discriminate.
  rewrite bind_ret, bind_assert. cbn [len3 Nat.eqb].
  rewrite bind_assert. pass_check.
  rewrite bind_assert. pass_check.
  rewrite bind_data_set. cbn [self].
  assert (Hframe : _data_sets (with_metric_list (with_job_count e)) = _data_sets e /\
                   features (with_metric_list (with_job_count e)) = features e /\
                   clean (with_metric_list (with_job_count e)) = clean e /\
                   info (with_metric_list (with_job_count e)) = info e).
  { unfold with_metric_list, with_job_count.
    destruct (_clf e) as [c|]; [destruct (clf_n_jobs c)|];
      cbn [_metrics set__clf]; destruct (_metrics e) as [[m|ms]|];
      repeat split. }
  destruct Hframe as (Hd2 & Hf2 & Hc2' & Hi2).
  unfold validated, without_eval, drops_eval, pca_warning.
  rewrite <- Hf2 in Hc19. rewrite <- Hc2' in Hc20. rewrite <- Hi2 in Hc21.
  destruct (assoc_lookup "eval" (_data_sets e)) as [eval|] eqn:Heval;
    try discriminate.
  assert (Heval2 : assoc_lookup "eval"
                     (_data_sets (with_metric_list (with_job_count e)))
                   = Some eval) by (rewrite Hd2; exact Heval).
  rewrite Heval2.
  rewrite bind_when_assert.
  replace (negb (absent eval) || int_ge (_n_splits_or_repetitions e) 2)
    with true by (destruct eval; [reflexivity | symmetry; assumption]).
  rewrite bind_assert. pass_check.
  rewrite bind_opt_assert. pass_check.
  match goal with
  | |- bind ?upd1 _ _ = _ =>
      assert (Hu1 : forall j', upd1 {| self := e; journal := j' |} =
                (Return tt, {| self := with_job_count e; journal := j' |}))
  end.
  { intros j'. unfold with_job_count.
    destruct (_clf e) as [c|]; [destruct (clf_n_jobs c)|]; reflexivity. }
  unfold bind at 1. rewrite Hu1. clear Hu1.
  match goal with
  | |- bind ?upd2 _ _ = _ =>
      assert (Hu2 : forall j', upd2 {| self := with_job_count e; journal := j' |} =
                (Return tt, {| self := with_metric_list (with_job_count e);
                               journal := j' |}))
  end.
  { intros j'. unfold with_metric_list, with_job_count.
    destruct (_clf e) as [c|]; [destruct (clf_n_jobs c)|];
      cbn [_metrics set__clf]; destruct (_metrics e) as [[m|ms]|]; reflexivity. }
  unfold bind at 1. rewrite Hu2. clear Hu2.
  set (e2 := with_metric_list (with_job_count e)) in *.
  rewrite bind_opt_assert2_pair by assumption.
  rewrite bind_opt_assert2_pair by assumption.
  set (tail := bind get_self _).
  assert (Htail : forall j',
    tail {| self := e2; journal := j' |} =
    (Return tt,
     {| self :=
          match eval with
          | Some _ => e2
          | None =>
              set_info (delete "eval" (info e2))
                (set_clean (delete "eval" (clean e2))
                   (set_features (delete "eval" (features e2))
                      (set__data_sets (assoc_pop "eval" (_data_sets e2)) e2)))
          end;
        journal := j' |})).
  { intros j'. subst tail. rewrite bind_get_self. cbn [self].
    rewrite Heval2. destruct eval as [ds|]; [reflexivity|].
    cbn [negb orb] in *.
    rewrite bind_update_self, bind_get_self, bind_getitem.
    cbn [self journal features set__data_sets].
    destruct (features e2 !! "eval"); [| discriminate].
    rewrite bind_update_self, bind_get_self, bind_getitem.
    cbn [self journal clean set_features set__data_sets].
    destruct (clean e2 !! "eval"); [| discriminate].
    rewrite bind_update_self, bind_get_self, bind_getitem.
    cbn [self journal info set_clean set_features set__data_sets].
    destruct (info e2 !! "eval"); [| discriminate].
    reflexivity. }
  clearbody tail.
  destruct (truthy (_pca_thresh e)); cbn [negb orb andb] in *.
  - rewrite bind_bind, bind_assert. pass_check.
    destruct (absent (_scaler e)).
    + unfold logging_warning. rewrite bind_emit. cbn [self journal].
      rewrite Htail. destruct eval; reflexivity.
    + rewrite bind_ret, Htail, app_nil_r. destruct eval; reflexivity.
  - rewrite bind_ret, Htail, app_nil_r. destruct eval; reflexivity.
Qed.


(** X2: with an evaluation data set, validation accepts a split count
    exactly when it is an [int] greater than 0: a count of 1 passes (two
    splits are only asked for without evaluation set), and a count that is
    not of type [int] -- [True], [2.0] -- is rejected like a count of 0. *)
Theorem repetitions_with_evaluation_set
    devel clf metrics dse n_jobs cp cpar fgp fgpar shuffle pca sc modi verb
    (v0 : pyval) :
  fst (_run_checks (fresh (__init__ devel clf metrics (Some dse) n_jobs cp cpar
                             fgp fgpar v0 shuffle pca sc modi verb)))
    = Return tt ->
  forall v : pyval,
    fst (_run_checks (fresh (__init__ devel clf metrics (Some dse) n_jobs cp
                               cpar fgp fgpar v shuffle pca sc modi verb)))
    = if int_gt v 0 then Return tt
      else Raise (AssertionError
                    "n_repetitions has to be an integer larger than 0").
Proof.
  unfold fresh. intros Hok v. rewrite !_run_checks_outcome in *.
  unfold checklist, __init__ in *.
  cbn -[py_in int_ge int_gt] in *.
  checks_passed Hok.
  destruct (int_gt v 0); reflexivity.
Qed.

(** X3: a development set without examples does not fail an assertion:
    validation raises the [IndexError] of [devel_set[0]], and the
    [TypeError] of subscripting [None] when no development set is given,
    in a configuration that is valid with some development set. *)
Theorem validation_needs_a_first_example
    clf metrics eval n_jobs cp cpar fgp fgpar n shuffle pca sc modi verb
    (devel0 : option DataSet) :
  fst (_run_checks (fresh (__init__ devel0 clf metrics eval n_jobs cp cpar
                             fgp fgpar n shuffle pca sc modi verb)))
    = Return tt ->
  (forall ds,
     examples ds = [] ->
     fst (_run_checks (fresh (__init__ (Some ds) clf metrics eval n_jobs cp
                                cpar fgp fgpar n shuffle pca sc modi verb)))
     = Raise (IndexError "list index out of range")) /\
  fst (_run_checks (fresh (__init__ None clf metrics eval n_jobs cp cpar
                             fgp fgpar n shuffle pca sc modi verb)))
    = Raise (TypeError "'NoneType' object is not subscriptable").
Proof.
  unfold fresh. intros Hok.
  split; [intros ds Hds|]; rewrite !_run_checks_outcome in *;
    unfold checklist, __init__ in *;
    cbn -[py_in int_ge int_gt] in *;
    try rewrite Hds;
    checks_passed Hok; reflexivity.
Qed.

(** X4: the PCA threshold is only checked when Python takes it as true:
    in a configuration that is valid with some threshold, a threshold
    passes unless it is truthy and neither an [int] nor a [float].  So
    [None], [0], [0.0], [False] and the empty string pass, [True] and a
    non-empty string are rejected. *)
Theorem pca_threshold_is_checked_when_truthy
    devel clf metrics eval n_jobs cp cpar fgp fgpar n shuffle sc modi verb
    (pca0 : pyval) :
  fst (_run_checks (fresh (__init__ devel clf metrics eval n_jobs cp cpar
                             fgp fgpar n shuffle pca0 sc modi verb)))
    = Return tt ->
  forall v : pyval,
    fst (_run_checks (fresh (__init__ devel clf metrics eval n_jobs cp cpar
                               fgp fgpar n shuffle v sc modi verb)))
    = if truthy v && negb (type_is_int v || type_is_float v)
      then Raise (AssertionError "pca_thresh has to be either int or float")
      else Return tt.
Proof.
  unfold fresh. intros Hok v. rewrite !_run_checks_outcome in *.
  unfold checklist, __init__ in *.
  cbn -[py_in int_ge int_gt truthy type_is_int type_is_float] in *.
  checks_passed Hok.
  destruct (truthy v), (type_is_int v), (type_is_float v); reflexivity.
Qed.

Lemma _run_checks_leaves e j :
  fst (_run_checks {| self := e; journal := j |}) = Return tt ->
  snd (_run_checks {| self := e; journal := j |}) =
  {| self := validated e; journal := j ++ pca_warning e |}.
Proof.
  intros Hok. rewrite _run_checks_outcome in Hok.
  rewrite (_run_checks_returns e j Hok). reflexivity.
Qed.

Lemma normalised_registries e :
  _data_sets (with_metric_list (with_job_count e)) = _data_sets e /\
  features (with_metric_list (with_job_count e)) = features e /\
  clean (with_metric_list (with_job_count e)) = clean e /\
  info (with_metric_list (with_job_count e)) = info e.
Proof.
  unfold with_metric_list, with_job_count.
  destruct (_clf e) as [c|]; [destruct (clf_n_jobs c)|];
    cbn [_metrics set__clf]; destruct (_metrics e) as [[m|ms]|];
    repeat split.
Qed.

Lemma validated_registries e :
  _data_sets (validated e) =
    (if drops_eval e then assoc_pop "eval" (_data_sets e) else _data_sets e) /\
  features (validated e) =
    (if drops_eval e then delete "eval" (features e) else features e) /\
  clean (validated e) =
    (if drops_eval e then delete "eval" (clean e) else clean e) /\
  info (validated e) =
    (if drops_eval e then delete "eval" (info e) else info e).
Proof.
  destruct (normalised_registries e) as (Hd & Hf & Hc & Hi).
  unfold validated, without_eval, drops_eval. rewrite Hd, Hf, Hc, Hi.
  destruct (assoc_lookup "eval" (_data_sets e)) as [[ds|]|];
    cbn; rewrite ?Hd, ?Hf, ?Hc, ?Hi; repeat split.
Qed.

(** X5: when no evaluation set is given, a successful validation removes
    the "eval" entry from the data sets, the feature store, the
    clean-signal store and the info registry and leaves their "devel"
    entries alone; when one is given, all four keep both entries. *)
Theorem validation_drops_a_missing_evaluation_split
    devel clf metrics n_jobs cp cpar fgp fgpar n shuffle pca sc modi verb :
  (fst (_run_checks (fresh (__init__ devel clf metrics None n_jobs cp cpar
                              fgp fgpar n shuffle pca sc modi verb)))
     = Return tt ->
   _data_sets (self (snd (_run_checks
       (fresh (__init__ devel clf metrics None n_jobs cp cpar
                 fgp fgpar n shuffle pca sc modi verb)))))
     = [("devel"%string, devel)] /\
   features (self (snd (_run_checks
       (fresh (__init__ devel clf metrics None n_jobs cp cpar
                 fgp fgpar n shuffle pca sc modi verb)))))
     = <["devel"%string := []]> ∅ /\
   clean (self (snd (_run_checks
       (fresh (__init__ devel clf metrics None n_jobs cp cpar
                 fgp fgpar n shuffle pca sc modi verb)))))
     = <["devel"%string := []]> ∅ /\
   info (self (snd (_run_checks
       (fresh (__init__ devel clf metrics None n_jobs cp cpar
                 fgp fgpar n shuffle pca sc modi verb)))))
     = <["devel"%string := ∅]> ∅) /\
  (forall dse,
     fst (_run_checks (fresh (__init__ devel clf metrics (Some dse) n_jobs cp
                                cpar fgp fgpar n shuffle pca sc modi verb)))
       = Return tt ->
     _data_sets (self (snd (_run_checks
         (fresh (__init__ devel clf metrics (Some dse) n_jobs cp cpar
                   fgp fgpar n shuffle pca sc modi verb)))))
       = [("devel"%string, devel); ("eval"%string, Some dse)] /\
     features (self (snd (_run_checks
         (fresh (__init__ devel clf metrics (Some dse) n_jobs cp cpar
                   fgp fgpar n shuffle pca sc modi verb)))))
       = <["devel"%string := []]> (<["eval"%string := []]> ∅) /\
     clean (self (snd (_run_checks
         (fresh (__init__ devel clf metrics (Some dse) n_jobs cp cpar
                   fgp fgpar n shuffle pca sc modi verb)))))
       = <["devel"%string := []]> (<["eval"%string := []]> ∅) /\
     info (self (snd (_run_checks
         (fresh (__init__ devel clf metrics (Some dse) n_jobs cp cpar
                   fgp fgpar n shuffle pca sc modi verb)))))
       = <["devel"%string := ∅]> (<["eval"%string := ∅]> ∅)).
Proof.
  unfold fresh. split; [intros Hok | intros dse Hok];
    rewrite (_run_checks_leaves _ _ Hok); cbn [self];
    match goal with
    | |- context [validated ?e] =>
        destruct (validated_registries e) as (-> & -> & -> & ->)
    end;
    repeat apply conj; reflexivity.
Qed.

(** X6: a successful validation leaves the metrics as a list -- a single
    metric is wrapped into a one-element list, a list and [None] are left
    as they are -- and writes the configured job count into a classifier
    that has an [n_jobs] attribute, without giving one to a classifier that
    has none. *)
Theorem validation_normalises_metrics_and_job_count (e : Experiment)
    (j : list event) :
  fst (_run_checks {| self := e; journal := j |}) = Return tt ->
  _metrics (self (snd (_run_checks {| self := e; journal := j |}))) =
    match _metrics e with
    | Some (OneMetric m) => Some (MetricList [m])
    | other => other
    end /\
  _clf (self (snd (_run_checks {| self := e; journal := j |}))) =
    match _clf e with
    | Some c =>
        Some {| has_fit := has_fit c;
                has_predict := has_predict c;
                clf_n_jobs := match clf_n_jobs c with
                              | Some _ => Some (_n_jobs e)
                              | None => None
                              end |}
    | None => None
    end.
Proof.
  intros Hok. rewrite (_run_checks_leaves _ _ Hok). cbn [self].
  unfold validated.
  assert (Hkeep : forall e2, _metrics (without_eval e2) = _metrics e2 /\
                             _clf (without_eval e2) = _clf e2).
  { intros e2. unfold without_eval. destruct (drops_eval e2); split; reflexivity. }
  destruct (Hkeep (with_metric_list (with_job_count e))) as [-> ->].
  unfold with_metric_list, with_job_count.
  destruct (_clf e) as [[fit predict [nj|]]|] eqn:Hclf;
    destruct (_metrics e) as [[m|ms]|] eqn:Hm;
    repeat (simpl; rewrite ?Hclf, ?Hm);
    split; reflexivity.
Qed.

(** X7: whether it returns or raises, validation touches neither the
    feature-name list, the predictions, the performances, the two
    procedure attributes read by the stages, nor any setting other than
    the classifier and the metrics. *)
Theorem validation_leaves_the_settings (w : World) :
  feature_labels (self (snd (_run_checks w))) = feature_labels (self w) /\
  predictions (self (snd (_run_checks w))) = predictions (self w) /\
  performances (self (snd (_run_checks w))) = performances (self w) /\
  cleaning_procedure (self (snd (_run_checks w))) = cleaning_procedure (self w) /\
  feature_generation_procedure (self (snd (_run_checks w)))
    = feature_generation_procedure (self w) /\
  _cleaning_procedure (self (snd (_run_checks w)))
    = _cleaning_procedure (self w) /\
  _cleaning_params (self (snd (_run_checks w))) = _cleaning_params (self w) /\
  _feature_generation_procedure (self (snd (_run_checks w)))
    = _feature_generation_procedure (self w) /\
  _feature_generation_params (self (snd (_run_checks w)))
    = _feature_generation_params (self w) /\
  _n_splits_or_repetitions (self (snd (_run_checks w)))
    = _n_splits_or_repetitions (self w) /\
  _shuffle_splits (self (snd (_run_checks w))) = _shuffle_splits (self w) /\
  _pca_thresh (self (snd (_run_checks w))) = _pca_thresh (self w) /\
  _verbosity (self (snd (_run_checks w))) = _verbosity (self w) /\
  _n_jobs (self (snd (_run_checks w))) = _n_jobs (self w) /\
  _scaler (self (snd (_run_checks w))) = _scaler (self w) /\
  _feature_vector_modifier (self (snd (_run_checks w)))
    = _feature_vector_modifier (self w).
Proof.
  set (P := fun w' : World =>
    feature_labels (self w') = feature_labels (self w) /\
    predictions (self w') = predictions (self w) /\
    performances (self w') = performances (self w) /\
    cleaning_procedure (self w') = cleaning_procedure (self w) /\
    feature_generation_procedure (self w') = feature_generation_procedure (self w) /\
    _cleaning_procedure (self w') = _cleaning_procedure (self w) /\
    _cleaning_params (self w') = _cleaning_params (self w) /\
    _feature_generation_procedure (self w') = _feature_generation_procedure (self w) /\
    _feature_generation_params (self w') = _feature_generation_params (self w) /\
    _n_splits_or_repetitions (self w') = _n_splits_or_repetitions (self w) /\
    _shuffle_splits (self w') = _shuffle_splits (self w) /\
    _pca_thresh (self w') = _pca_thresh (self w) /\
    _verbosity (self w') = _verbosity (self w) /\
    _n_jobs (self w') = _n_jobs (self w) /\
    _scaler (self w') = _scaler (self w) /\
    _feature_vector_modifier (self w') = _feature_vector_modifier (self w)).
  assert (Hs : stable P _run_checks).
  { stable_walk ltac:(subst P; intros; cbn in *; assumption). }
  apply (Hs w). subst P. cbn. repeat split.
Qed.

Lemma validated_settings e :
  _cleaning_procedure (validated e) = _cleaning_procedure e /\
  _feature_generation_procedure (validated e) = _feature_generation_procedure e /\
  absent (_clf (validated e)) = absent (_clf e) /\
  _verbosity (validated e) = _verbosity e /\
  _cleaning_params (validated e) = _cleaning_params e /\
  _feature_generation_params (validated e) = _feature_generation_params e /\
  _shuffle_splits (validated e) = _shuffle_splits e /\
  _n_splits_or_repetitions (validated e) = _n_splits_or_repetitions e.
Proof.
  unfold validated, without_eval, with_metric_list, with_job_count.
  destruct (_clf e) as [[fit predict [nj|]]|] eqn:Hclf;
    destruct (_metrics e) as [[m|ms]|] eqn:Hm;
    repeat (simpl; rewrite ?Hclf, ?Hm);
    match goal with
    | |- context [drops_eval ?x] => destruct (drops_eval x)
    end;
    simpl; rewrite ?Hclf; repeat split.
Qed.

(** X8: validation cannot be repeated on an instance without evaluation
    set: the first successful validation has removed the "eval" entry of
    the data sets, and the second one raises [KeyError] for it where it
    asks whether the evaluation set is [None]. *)
Theorem revalidation_without_evaluation_set_fails
    devel clf metrics n_jobs cp cpar fgp fgpar n shuffle pca sc modi verb :
  fst (_run_checks (fresh (__init__ devel clf metrics None n_jobs cp cpar
                             fgp fgpar n shuffle pca sc modi verb)))
    = Return tt ->
  fst (_run_checks
         (snd (_run_checks
                 (fresh (__init__ devel clf metrics None n_jobs cp cpar
                           fgp fgpar n shuffle pca sc modi verb)))))
    = Raise (KeyError "eval").
Proof.
  unfold fresh. intros Hok.
  rewrite (_run_checks_leaves _ _ Hok).
  rewrite !_run_checks_outcome in *.
  unfold checklist in *.
  match goal with
  | |- context [validated ?e] =>
      destruct (validated_registries e) as (-> & _ & _ & _);
      destruct (validated_settings e) as (-> & -> & -> & -> & -> & -> & -> & ->)
  end.
  unfold drops_eval, __init__ in *.
  cbn -[py_in int_ge int_gt delete validated] in *.
  checks_passed Hok. reflexivity.
Qed.

(** ** A first run never predicts *)




(** ** Loops whose body is an assignment *)

Lemma for_each_steps {A} (body : A -> M unit)
    (step : A -> Experiment -> Experiment) (I : Experiment -> Prop) :
  (forall x e j,
     I e ->
     body x {| self := e; journal := j |}
       = (Return tt, {| self := step x e; journal := j |}) /\
     I (step x e)) ->
  forall xs e j,
    I e ->
    for_each xs body {| self := e; journal := j |} =
    (Return tt,
     {| self := fold_left (fun e x => step x e) xs e; journal := j |}).
Proof.
  intros Hb. induction xs as [|x xs IH]; intros e j He;
    cbn [for_each fold_left]; [reflexivity|].
  destruct (Hb x e j He) as [Hx He']. unfold bind. rewrite Hx.
  apply IH, He'.
Qed.

(** Reduces the attributes of an instance that was assigned to. *)
Ltac fields :=
  cbn [_data_sets _feature_generation_procedure _feature_generation_params
       _n_splits_or_repetitions _cleaning_procedure _cleaning_params
       _shuffle_splits _pca_thresh _verbosity _metrics _n_jobs _scaler _clf
       features clean info _feature_vector_modifier feature_labels
       performances predictions cleaning_procedure
       feature_generation_procedure
       set__data_sets set__metrics set__clf set_features set_clean set_info
       set_feature_labels set_performances set_predictions
       set_cleaning_procedure set_feature_generation_procedure] in *.

Lemma same_settings_refl e : same_settings e e.
Proof. unfold same_settings. repeat apply conj; reflexivity. Qed.

Lemma same_settings_trans e1 e2 e3 :
  same_settings e1 e2 -> same_settings e2 e3 -> same_settings e1 e3.
Proof.
  unfold same_settings. intros H12 H23.
  repeat match goal with
         | Hc : _ /\ _ |- _ => destruct Hc
         end.
  repeat apply conj; congruence.
Qed.

(** ** Loading *)

Lemma record_sfreq_step d sfreq e j :
  is_some (info e !! d) = true ->
  record_sfreq d sfreq {| self := e; journal := j |} =
  (Return tt, {| self := with_sfreq d sfreq e; journal := j |}).
Proof.
  intros Hi. unfold record_sfreq, with_sfreq.
  rewrite bind_get_self, bind_getitem. cbn [self].
  destruct (info e !! d) as [entry|]; [| discriminate Hi].
  destruct (entry !! "sfreq"); [| reflexivity].
  destruct e; reflexivity.
Qed.

Lemma seed_feature_labels_step x e j :
  seed_feature_labels x {| self := e; journal := j |} =
  (Return tt, {| self := with_labels_of x e; journal := j |}).
Proof.
  unfold seed_feature_labels, with_labels_of. rewrite bind_get_self. cbn [self].
  destruct (absent (feature_labels e)); [reflexivity|].
  destruct e; reflexivity.
Qed.

Ltac open_item :=
  unfold load_item, with_signal, with_feature, with_labels_of, with_sfreq,
    item_data, item_sfreq;
  repeat match goal with
         | |- context [match ?o with _ => _ end] =>
             lazymatch o with
             | context [match _ with _ => _ end] => fail
             | _ => idtac
             end;
             let Ho := fresh "Ho" in destruct o eqn:Ho; fields
         end.

Lemma load_item_settings d m x e : same_settings e (load_item d m x e).
Proof.
  open_item; unfold same_settings; fields; repeat apply conj; reflexivity.
Qed.

Lemma load_item_info d m x e entry :
  info e !! d = Some entry ->
  info (load_item d m x e) !! d =
  Some (match entry !! "sfreq" with
        | None => <["sfreq" := ISfreq (item_sfreq x)]> entry
        | Some _ => entry
        end).
Proof.
  intros Hi. unfold load_item, with_sfreq. rewrite Hi.
  destruct (entry !! "sfreq"); open_item;
    rewrite ?lookup_insert_eq; auto.
Qed.



Lemma load_item_clean d x e store :
  clean e !! d = Some store ->
  clean (load_item d "clean" x e) !! d = Some (store ++ [item_data x]) /\
  features (load_item d "clean" x e) = features e.
Proof.
  intros Hs. unfold load_item. cbn [String.eqb Ascii.eqb Bool.eqb]. cbv iota.
  open_item; rewrite ?lookup_insert_eq; try split; congruence.
Qed.

Lemma load_item_features d x e store :
  features e !! d = Some store ->
  features (load_item d "features" x e) !! d
    = Some (store ++ [Frame (item_data x)]) /\
  clean (load_item d "features" x e) = clean e.
Proof.
  intros Hs. unfold load_item. cbn [String.eqb Ascii.eqb Bool.eqb]. cbv iota.
  open_item; rewrite ?lookup_insert_eq; try split; congruence.
Qed.


Lemma load_item_keeps_loadable d m x e :
  m = "clean"%string \/ m = "features"%string ->
  loadable d m e -> loadable d m (load_item d m x e).
Proof.
  intros Hm [Hi Hs]. unfold loadable, is_some in *.
  destruct (info e !! d) as [entry|] eqn:Hinfo; [| discriminate Hi].
  rewrite (load_item_info d m x e entry Hinfo). split; [reflexivity|].
  destruct Hm as [-> | ->]; cbn [String.eqb Ascii.eqb Bool.eqb] in *;
    cbv iota in *.
  - destruct (clean e !! d) as [store|] eqn:Hc; [| discriminate Hs].
    destruct (load_item_clean d x e store Hc) as [-> _]. reflexivity.
  - destruct (features e !! d) as [store|] eqn:Hc; [| discriminate Hs].
    destruct (load_item_features d x e store Hc) as [-> _]. reflexivity.
Qed.

Lemma seeded_stores d sfreq x e :
  clean (with_labels_of x (with_sfreq d sfreq e)) = clean e /\
  features (with_labels_of x (with_sfreq d sfreq e)) = features e.
Proof. open_item; split; reflexivity. Qed.

Lemma _load_returns d m ds e j :
  m = "clean"%string \/ m = "features"%string ->
  assoc_lookup d (_data_sets e) = Some (Some ds) ->
  loadable d m e ->
  _load_cleaned_or_features d m {| self := e; journal := j |} =
  (Return tt,
   {| self := loaded d m (examples ds) e;
      journal := j ++ [Logged "INFO"
                         ("Loading " +:+ d +:+ " (" +:+ m +:+ ")")] |}).
Proof.
  intros Hm Hds Hload. unfold _load_cleaned_or_features, logging_info.
  rewrite bind_emit. cbn [self journal].
  unfold iter_data_set. rewrite bind_bind, bind_data_set. cbn [self].
  rewrite Hds, bind_ret.
  apply (for_each_steps _ (load_item d m) (loadable d m)); [| exact Hload].
  clear e j Hds Hload. intros [[data sfreq] label] e j Hload.
  split; [| apply load_item_keeps_loadable; assumption].
  destruct Hload as [Hi Hs].
  unfold bind at 1. rewrite (record_sfreq_step d sfreq e j Hi).
  unfold bind at 1. rewrite seed_feature_labels_step.
  rewrite bind_get_self. cbn [self].
  destruct (seeded_stores d sfreq data e) as [Hc Hf].
  unfold load_item, with_signal, with_feature. cbn [fst snd].
  destruct Hm as [-> | ->]; cbn [String.eqb Ascii.eqb Bool.eqb] in *;
    cbv iota in *; rewrite bind_getitem.
  - rewrite Hc. unfold is_some in Hs.
    destruct (clean e !! d); [reflexivity | discriminate Hs].
  - rewrite Hf. unfold is_some in Hs.
    destruct (features e !! d); [reflexivity | discriminate Hs].
Qed.

Lemma loaded_cons d m x items e :
  loaded d m (x :: items) e = loaded d m items (load_item d m x e).
Proof. reflexivity. Qed.

Lemma loaded_settings d m items :
  forall e, same_settings e (loaded d m items e).
Proof.
  induction items as [|x items IH]; intros e.
  - apply same_settings_refl.
  - rewrite loaded_cons.
    eapply same_settings_trans; [apply load_item_settings | apply IH].
Qed.

Lemma loaded_info d m items :
  forall e entry,
    info e !! d = Some entry ->
    info (loaded d m items e) !! d =
    Some (match entry !! "sfreq", items with
          | None, x :: _ => <["sfreq" := ISfreq (item_sfreq x)]> entry
          | _, _ => entry
          end).
Proof.
  induction items as [|x items IH]; intros e entry Hi.
  - cbn [loaded fold_left]. rewrite Hi. destruct (entry !! "sfreq"); reflexivity.
  - rewrite loaded_cons.
    rewrite (IH _ _ (load_item_info d m x e entry Hi)).
    destruct (entry !! "sfreq") eqn:Hs.
    + rewrite Hs. reflexivity.
    + rewrite lookup_insert_eq. reflexivity.
Qed.



Lemma loaded_clean d items :
  forall e store,
    clean e !! d = Some store ->
    clean (loaded d "clean" items e) !! d = Some (store ++ map item_data items) /\
    features (loaded d "clean" items e) = features e.
Proof.
  induction items as [|x items IH]; intros e store Hs.
  - cbn [loaded fold_left map]. rewrite app_nil_r. auto.
  - rewrite loaded_cons.
    destruct (load_item_clean d x e store Hs) as [Hc Hf].
    destruct (IH _ _ Hc) as [-> ->].
    cbn [map]. rewrite <- app_assoc. auto.
Qed.

Lemma loaded_features d items :
  forall e store,
    features e !! d = Some store ->
    features (loaded d "features" items e) !! d
      = Some (store ++ map (fun x => Frame (item_data x)) items) /\
    clean (loaded d "features" items e) = clean e.
Proof.
  induction items as [|x items IH]; intros e store Hs.
  - cbn [loaded fold_left map]. rewrite app_nil_r. auto.
  - rewrite loaded_cons.
    destruct (load_item_features d x e store Hs) as [Hc Hf].
    destruct (IH _ _ Hc) as [-> ->].
    cbn [map]. rewrite <- app_assoc. auto.
Qed.


(** X10: loading appends.  On an instance that has the split's data set,
    an info entry and a store entry for it, loading returns; the chosen
    store holds what it held before followed by every item of the data set
    in order, the other store is untouched; the split's info entry gets the
    sampling frequency of the first item unless one is recorded already;
    the data sets (and with them the labels) and every setting are left
    alone; one line is logged. *)
Theorem loading_appends_the_items d ds entry (w : World) :
  assoc_lookup d (_data_sets (self w)) = Some (Some ds) ->
  info (self w) !! d = Some entry ->
  (forall store,
     features (self w) !! d = Some store ->
     fst (_load_cleaned_or_features d "features" w) = Return tt /\
     features (self (snd (_load_cleaned_or_features d "features" w))) !! d
       = Some (store ++ map (fun x => Frame (item_data x)) (examples ds)) /\
     clean (self (snd (_load_cleaned_or_features d "features" w)))
       = clean (self w) /\
     info (self (snd (_load_cleaned_or_features d "features" w))) !! d
       = Some (match entry !! "sfreq", examples ds with
               | None, x :: _ => <["sfreq" := ISfreq (item_sfreq x)]> entry
               | _, _ => entry
               end) /\
     same_settings (self w)
       (self (snd (_load_cleaned_or_features d "features" w))) /\
     journal (snd (_load_cleaned_or_features d "features" w))
       = journal w ++ [Logged "INFO" ("Loading " +:+ d +:+ " (features)")]) /\
  (forall store,
     clean (self w) !! d = Some store ->
     fst (_load_cleaned_or_features d "clean" w) = Return tt /\
     clean (self (snd (_load_cleaned_or_features d "clean" w))) !! d
       = Some (store ++ map item_data (examples ds)) /\
     features (self (snd (_load_cleaned_or_features d "clean" w)))
       = features (self w) /\
     info (self (snd (_load_cleaned_or_features d "clean" w))) !! d
       = Some (match entry !! "sfreq", examples ds with
               | None, x :: _ => <["sfreq" := ISfreq (item_sfreq x)]> entry
               | _, _ => entry
               end) /\
     same_settings (self w)
       (self (snd (_load_cleaned_or_features d "clean" w))) /\
     journal (snd (_load_cleaned_or_features d "clean" w))
       = journal w ++ [Logged "INFO" ("Loading " +:+ d +:+ " (clean)")]).
Proof.
  destruct w as [e j]. cbn [self journal]. intros Hds Hi.
  split; intros store Hs.
  - rewrite (_load_returns d "features" ds e j); [| auto | exact Hds |].
    + cbn [fst snd self journal].
      destruct (loaded_features d (examples ds) e store Hs) as [-> ->].
      rewrite (loaded_info d "features" (examples ds) e entry Hi).
      do 4 (split; [reflexivity|]).
      split; [apply loaded_settings | reflexivity].
    + unfold loadable, is_some. cbn [String.eqb Ascii.eqb Bool.eqb].
      rewrite Hi, Hs. split; reflexivity.
  - rewrite (_load_returns d "clean" ds e j); [| auto | exact Hds |].
    + cbn [fst snd self journal].
      destruct (loaded_clean d (examples ds) e store Hs) as [-> ->].
      rewrite (loaded_info d "clean" (examples ds) e entry Hi).
      do 4 (split; [reflexivity|]).
      split; [apply loaded_settings | reflexivity].
    + unfold loadable, is_some. cbn [String.eqb Ascii.eqb Bool.eqb].
      rewrite Hi, Hs. split; reflexivity.
Qed.

(** ** [run] after a successful validation *)

Lemma validated_attributes e :
  _n_jobs (validated e) = _n_jobs e /\
  _pca_thresh (validated e) = _pca_thresh e /\
  _scaler (validated e) = _scaler e /\
  _feature_vector_modifier (validated e) = _feature_vector_modifier e /\
  feature_labels (validated e) = feature_labels e /\
  predictions (validated e) = predictions e /\
  performances (validated e) = performances e /\
  cleaning_procedure (validated e) = cleaning_procedure e /\
  feature_generation_procedure (validated e) = feature_generation_procedure e.
Proof.
  unfold validated, without_eval, with_metric_list, with_job_count.
  destruct (_clf e) as [[fit predict [nj|]]|] eqn:Hclf;
    destruct (_metrics e) as [[m|ms]|] eqn:Hm;
    repeat (simpl; rewrite ?Hclf, ?Hm);
    match goal with
    | |- context [drops_eval ?x] => destruct (drops_eval x)
    end;
    simpl; rewrite ?Hclf; repeat split.
Qed.

Lemma validated_constructed
    devel clf metrics eval n_jobs cp cpar fgp fgpar n shuffle pca sc modi verb :
  let e := validated (__init__ devel clf metrics eval n_jobs cp cpar fgp fgpar
                        n shuffle pca sc modi verb) in
  _data_sets e = ("devel"%string, devel) ::
                 match eval with
                 | Some dse => [("eval"%string, Some dse)]
                 | None => []
                 end /\
  features e !! "devel" = Some [] /\
  clean e !! "devel" = Some [] /\
  info e !! "devel" = Some ∅ /\
  features e !! "eval" = (if absent eval then None else Some []) /\
  clean e !! "eval" = (if absent eval then None else Some []) /\
  info e !! "eval" = (if absent eval then None else Some ∅).
Proof.
  intros e. subst e.
  match goal with
  | |- context [validated ?e] =>
      destruct (validated_registries e) as (-> & -> & -> & ->)
  end.
  unfold drops_eval, __init__. fields.
  destruct eval as [dse|]; cbn [assoc_lookup assoc_pop String.eqb Ascii.eqb
                                Bool.eqb absent];
    repeat apply conj; reflexivity.
Qed.

Lemma run_of_validated e j :
  first_failed (checklist e) = Return tt ->
  features e !! "devel" = Some [] ->
  run {| self := e; journal := j |} =
  bind (for_each (map fst (_data_sets (validated e)))
          (stages (negb (absent (_cleaning_procedure e)))
                  (negb (absent (_feature_generation_procedure e))) false))
    (fun _ => logging_info "Finished on {} at {}.")
    {| self := validated e;
       journal := (j ++ [Logged "INFO" "Started on {} at {}"])
                  ++ pca_warning e |}.
Proof.
  intros Hok Hempty. unfold run, logging_info at 1. rewrite bind_emit.
  cbn [self journal]. unfold bind at 1.
  rewrite (_run_checks_returns e _ Hok).
  rewrite bind_get_self. cbn [self].
  destruct (validated_settings e) as (-> & -> & Hclf & _).
  assert (Hstore : features (validated e) !! "devel" = Some []).
  { destruct (validated_registries e) as (_ & -> & _).
    destruct (drops_eval e); [| exact Hempty].
    rewrite lookup_delete_ne by discriminate. exact Hempty. }
  destruct (_clf (validated e)).
  - rewrite bind_bind, bind_getitem, Hstore, bind_ret. reflexivity.
  - rewrite bind_ret. reflexivity.
Qed.

Lemma constructed_passes
    devel clf metrics eval n_jobs cp cpar fgp fgpar n shuffle pca sc modi verb :
  fst (_run_checks (fresh (__init__ devel clf metrics eval n_jobs cp cpar fgp
                             fgpar n shuffle pca sc modi verb))) = Return tt ->
  first_failed (checklist (__init__ devel clf metrics eval n_jobs cp cpar fgp
                             fgpar n shuffle pca sc modi verb)) = Return tt /\
  exists ds x xs, devel = Some ds /\ examples ds = x :: xs.
Proof.
  unfold fresh. rewrite _run_checks_outcome. intros Hok.
  split; [exact Hok|].
  unfold checklist, __init__ in Hok.
  cbn -[py_in int_ge int_gt] in Hok.
  checks_passed Hok.
  destruct devel as [ds|]; [| discriminate].
  destruct (examples ds) as [|x xs] eqn:Hex; [discriminate|].
  eauto.
Qed.

Lemma raised_first {A} (m : M unit) (k : unit -> M A) w err :
  fst (m w) = Raise err -> fst (bind m k w) = Raise err.
Proof. unfold bind. destruct (m w) as [[a|e'] w']; simpl; congruence. Qed.

(** X11: a first [run] with a cleaning or a feature-generation procedure
    never completes.  In every configuration that passes validation, [run]
    raises in the first stage of the development split that uses the
    procedure: [AttributeError] for the attribute [cleaning_procedure] (or
    [feature_generation_procedure], when only that procedure is given and
    the signals have been loaded), and joblib's [ValueError] instead when
    the procedure has no parameters and the job count is 0. *)
Theorem run_with_a_procedure_raises
    devel clf metrics eval n_jobs cp cpar fgp fgpar n shuffle pca sc modi verb :
  fst (_run_checks (fresh (__init__ devel clf metrics eval n_jobs cp cpar fgp
                             fgpar n shuffle pca sc modi verb))) = Return tt ->
  absent cp && absent fgp = false ->
  fst (run (fresh (__init__ devel clf metrics eval n_jobs cp cpar fgp fgpar n
                     shuffle pca sc modi verb))) =
  Raise (if absent cp
         then if is_None fgpar && zero_jobs n_jobs
              then ValueError "n_jobs == 0 in Parallel has no meaning"
              else AttributeError "feature_generation_procedure"
         else if is_None cpar && zero_jobs n_jobs
              then ValueError "n_jobs == 0 in Parallel has no meaning"
              else AttributeError "cleaning_procedure").
Proof.
  intros Hok Hsome.
  destruct (constructed_passes _ _ _ _ _ _ _ _ _ _ _ _ _ _ _ Hok)
    as (Hpass & ds & x & xs & -> & Hex).
  unfold fresh. rewrite (run_of_validated _ _ Hpass) by reflexivity.
  set (e := __init__ _ _ _ _ _ _ _ _ _ _ _ _ _ _ _) in *.
  destruct (validated_constructed (Some ds) clf metrics eval n_jobs cp cpar
              fgp fgpar n shuffle pca sc modi verb)
    as (Hds & Hf & Hc & Hi & _).
  fold e in Hds, Hf, Hc, Hi.
  destruct (validated_attributes e)
    as (Hjobs & _ & _ & _ & _ & _ & _ & Hcattr & Hgattr).
  destruct (validated_settings e) as (_ & _ & _ & _ & Hcpar & Hgpar & _).
  rewrite Hds. cbn [map fst for_each].
  apply raised_first. apply raised_first.
  set (w2 := {| self := validated e; journal := _ |}).
  assert (Hlook : assoc_lookup "devel" (_data_sets (self w2)) = Some (Some ds))
    by (cbn [self w2]; rewrite Hds; reflexivity).
  unfold stages.
  destruct cp as [c|]; cbn [absent negb andb __init__ e
                            _cleaning_procedure _feature_generation_procedure];
    cbv iota.
  - (* cleaning *)
    apply raised_first.
    destruct (is_None cpar) eqn:Hnone; cbn [andb].
    + rewrite (_clean_with_examples "devel" ds x xs w2); try assumption.
      * cbn [fst self w2]. rewrite Hjobs. reflexivity.
      * cbn [self w2]. rewrite Hcpar. exact Hnone.
    + rewrite (_clean_with_params "devel" w2); [reflexivity | assumption |].
      cbn [self w2]. rewrite Hcpar. exact Hnone.
  - (* loading the signals, then feature generation *)
    destruct fgp as [g|]; [| discriminate Hsome].
    cbn [absent negb andb]. cbv iota.
    rewrite bind_ret. apply raised_first.
    unfold bind at 1. subst w2.
    rewrite (_load_returns "devel" "clean" ds); [| auto | exact Hlook |].
    2:{ unfold loadable, is_some. cbn [String.eqb Ascii.eqb Bool.eqb].
        rewrite Hi, Hc. split; reflexivity. }
    set (e3 := loaded _ _ _ _). set (w3 := {| self := e3; journal := _ |}).
    destruct (loaded_settings "devel" "clean" (examples ds) (validated e))
      as (_ & _ & _ & _ & Hgpar3 & _ & _ & _ & _ & _ & Hjobs3 & _ & _ & _ & _
          & _ & _ & Hgattr3).
    fold e3 in Hgpar3, Hjobs3, Hgattr3.
    destruct (loaded_clean "devel" (examples ds) (validated e) [] Hc)
      as [Hsig _].
    fold e3 in Hsig. rewrite Hex in Hsig. cbn [map app] in Hsig.
    assert (Hattr3 : feature_generation_procedure (self w3) = None)
      by (cbn [self w3]; rewrite Hgattr3; exact Hgattr).
    assert (Hpar3 : is_None (_feature_generation_params (self w3))
                    = is_None fgpar)
      by (cbn [self w3]; rewrite Hgpar3, Hgpar; reflexivity).
    destruct (is_None fgpar) eqn:Hnone; cbn [andb].
    + rewrite (_generate_features_with_signals "devel" _ _ w3 Hattr3 Hpar3 Hsig).
      cbn [fst self w3]. rewrite Hjobs3, Hjobs. reflexivity.
    + rewrite (_generate_features_with_params "devel" w3 Hattr3 Hpar3).
      reflexivity.
Qed.

Lemma bind_returned {A B} (m : M A) (k : A -> M B) w a w' :
  m w = (Return a, w') -> bind m k w = k a w'.
Proof. intros Hm. unfold bind. rewrite Hm. reflexivity. Qed.




(** ** A second [run] *)




Lemma _validate_length_mismatch store ds w :
  features (self w) !! "devel" = Some store ->
  assoc_lookup "devel" (_data_sets (self w)) = Some (Some ds) ->
  length store <> length (targets ds) ->
  _validate w =
  (Raise (AssertionError "number of devel examples and labels differs!"),
   {| self := self w;
      journal := journal w ++
                 [Logged "INFO" "Making predictions (validation)"] |}).
Proof.
  intros Hstore Hds Hlen. unfold _validate, logging_info.
  rewrite bind_emit, bind_get_self, bind_getitem. cbn [self].
  rewrite Hstore. unfold data_set_targets.
  rewrite bind_bind, bind_data_set. cbn [self]. rewrite Hds, bind_ret.
  rewrite bind_assert.
  apply Nat.eqb_neq in Hlen. rewrite Hlen. reflexivity.
Qed.



Lemma bind_lift {A B} (o : outcome A) (k : A -> M B) w :
  bind (lift o) k w =
  match o with
  | Return a => k a w
  | Raise err => (Raise err, w)
  end.
Proof. destruct o; reflexivity. Qed.

(** ** How the prediction stages fail *)

(** X14: the ways in which [_validate] fails, on an instance that has a
    development feature store and a development set.  When the store and
    the labels differ in length it raises [AssertionError] and leaves the
    instance as it was; when the validation capability raises, its
    exception passes through and the instance is as it was; when the
    returned info has no entry for "valid" it raises [KeyError] -- after
    the returned predictions have been merged into the registry. *)
Theorem validation_stage_failures store ds (w : World) :
  features (self w) !! "devel" = Some store ->
  assoc_lookup "devel" (_data_sets (self w)) = Some (Some ds) ->
  (length store <> length (targets ds) ->
   fst (_validate w) =
     Raise (AssertionError "number of devel examples and labels differs!") /\
   self (snd (_validate w)) = self w) /\
  (forall err,
     length store = length (targets ds) ->
     validate store (targets ds) (_clf (self w))
       (_n_splits_or_repetitions (self w)) (_shuffle_splits (self w))
       (_scaler (self w)) (_pca_thresh (self w)) = Raise err ->
     fst (_validate w) = Raise err /\
     self (snd (_validate w)) = self w) /\
  (forall results info0,
     length store = length (targets ds) ->
     validate store (targets ds) (_clf (self w))
       (_n_splits_or_repetitions (self w)) (_shuffle_splits (self w))
       (_scaler (self w)) (_pca_thresh (self w)) = Return (results, info0) ->
     info0 !! "valid" = None ->
     fst (_validate w) = Raise (KeyError "valid") /\
     predictions (self (snd (_validate w))) = results ∪ predictions (self w) /\
     info (self (snd (_validate w))) = info (self w)).
Proof.
  intros Hstore Hds. split; [| split].
  - intros Hlen.
    rewrite (_validate_length_mismatch store ds w Hstore Hds Hlen).
    split; reflexivity.
  - intros err Hlen Hval.
    unfold _validate, logging_info.
    rewrite bind_emit, bind_get_self, bind_getitem. cbn [self].
    rewrite Hstore. unfold data_set_targets.
    rewrite bind_bind, bind_data_set. cbn [self]. rewrite Hds, bind_ret.
    rewrite bind_assert, Hlen, Nat.eqb_refl.
    rewrite bind_lift, Hval.
    split; reflexivity.
  - intros results info0 Hlen Hval Hvalid.
    unfold _validate, logging_info.
    rewrite bind_emit, bind_get_self, bind_getitem. cbn [self].
    rewrite Hstore. unfold data_set_targets.
    rewrite bind_bind, bind_data_set. cbn [self]. rewrite Hds, bind_ret.
    rewrite bind_assert, Hlen, Nat.eqb_refl.
    rewrite bind_lift, Hval.
    rewrite bind_update_self, bind_getitem, Hvalid.
    repeat apply conj; reflexivity.
Qed.

(** X15: [_final_evaluate] on an instance that has both data sets and a
    development feature store.  Without an "eval" entry in the feature
    store -- as after the validation of an instance without evaluation
    set -- it raises [KeyError]; when the evaluation store and the
    evaluation labels differ in length it raises [AssertionError] and
    leaves the instance as it was; otherwise, when the evaluation
    capability returns, it returns: a returned prediction or info entry
    replaces the one kept under the same key, every other entry stays. *)
Theorem final_evaluation_merges_its_results devel_store dsd dse (w : World) :
  features (self w) !! "devel" = Some devel_store ->
  assoc_lookup "devel" (_data_sets (self w)) = Some (Some dsd) ->
  assoc_lookup "eval" (_data_sets (self w)) = Some (Some dse) ->
  (features (self w) !! "eval" = None ->
   fst (_final_evaluate w) = Raise (KeyError "eval") /\
   self (snd (_final_evaluate w)) = self w) /\
  (forall eval_store,
     features (self w) !! "eval" = Some eval_store ->
     length eval_store <> length (targets dse) ->
     fst (_final_evaluate w) =
       Raise (AssertionError "number of eval examples and labels differs!") /\
     self (snd (_final_evaluate w)) = self w) /\
  (forall eval_store results eval_info,
     features (self w) !! "eval" = Some eval_store ->
     length eval_store = length (targets dse) ->
     final_evaluate devel_store (targets dsd) eval_store (targets dse)
       (_clf (self w)) (_n_splits_or_repetitions (self w)) (_scaler (self w))
       (_pca_thresh (self w)) = Return (results, eval_info) ->
     fst (_final_evaluate w) = Return tt /\
     (forall k,
        predictions (self (snd (_final_evaluate w))) !! k =
        match results !! k with
        | Some p => Some p
        | None => predictions (self w) !! k
        end) /\
     (forall k,
        info (self (snd (_final_evaluate w))) !! k =
        match eval_info !! k with
        | Some i => Some i
        | None => info (self w) !! k
        end) /\
     features (self (snd (_final_evaluate w))) = features (self w)).
Proof.
  intros Hdevel Hdsd Hdse. split; [| split].
  - intros Hnone. unfold _final_evaluate, logging_info.
    rewrite bind_emit, bind_get_self, bind_getitem. cbn [self].
    rewrite Hnone. split; reflexivity.
  - intros eval_store Heval Hlen. unfold _final_evaluate, logging_info.
    rewrite bind_emit, bind_get_self, bind_getitem. cbn [self].
    rewrite Heval. unfold data_set_targets.
    rewrite bind_bind, bind_data_set. cbn [self]. rewrite Hdse, bind_ret.
    rewrite bind_assert.
    apply Nat.eqb_neq in Hlen. rewrite Hlen. split; reflexivity.
  - intros eval_store results eval_info Heval Hlen Hfinal.
    unfold _final_evaluate, logging_info.
    rewrite bind_emit, bind_get_self, bind_getitem. cbn [self].
    rewrite Heval. unfold data_set_targets.
    rewrite bind_bind, bind_data_set. cbn [self]. rewrite Hdse, bind_ret.
    rewrite bind_assert, Hlen, Nat.eqb_refl.
    rewrite bind_getitem, Hdevel.
    rewrite bind_bind, bind_data_set. cbn [self]. rewrite Hdsd, bind_ret.
    rewrite bind_lift, Hfinal.
    rewrite bind_update_self. unfold update_self.
    cbn [fst snd self]. fields.
    split; [reflexivity|]. split; [| split; [| reflexivity]].
    + intros k. rewrite lookup_union.
      destruct (results !! k), (predictions (self w) !! k); reflexivity.
    + intros k. rewrite lookup_union.
      destruct (eval_info !! k), (info (self w) !! k); reflexivity.
Qed.

(** X16: a feature vector modifier's answer is stored before it is
    checked.  On an instance with a callable modifier, the split's data-set
    entry and feature store, [_run_valid_or_eval] first replaces the store
    and the feature names by the modifier's answer; when the new store is
    empty it then raises "removed all feature vectors", and when the width
    of its first vector differs from the number of new names it raises
    "number of features and feature labels does not match" -- in both
    cases the replaced store and names stay on the instance, and no
    prediction has been made. *)
Theorem modifier_answer_is_stored_unchecked d m dso store (w : World) :
  _feature_vector_modifier (self w) = Some m ->
  is_callable m = true ->
  assoc_lookup d (_data_sets (self w)) = Some dso ->
  features (self w) !! d = Some store ->
  (forall labels',
     modify m dso store (feature_labels (self w)) = ([], labels') ->
     fst (_run_valid_or_eval d w)
       = Raise (AssertionError "removed all feature vectors") /\
     features (self (snd (_run_valid_or_eval d w))) !! d = Some [] /\
     feature_labels (self (snd (_run_valid_or_eval d w))) = labels' /\
     predictions (self (snd (_run_valid_or_eval d w))) = predictions (self w) /\
     journal (snd (_run_valid_or_eval d w)) = journal w) /\
  (forall x rest l' width,
     modify m dso store (feature_labels (self w)) = (x :: rest, Some l') ->
     last (item_shape x) = Some width ->
     width <> length l' ->
     fst (_run_valid_or_eval d w)
       = Raise (AssertionError
                  "number of features and feature labels does not match") /\
     features (self (snd (_run_valid_or_eval d w))) !! d = Some (x :: rest) /\
     feature_labels (self (snd (_run_valid_or_eval d w))) = Some l' /\
     predictions (self (snd (_run_valid_or_eval d w))) = predictions (self w) /\
     journal (snd (_run_valid_or_eval d w)) = journal w).
Proof.
  intros Hm Hcall Hds Hstore. split.
  - intros labels' Hmod. unfold _run_valid_or_eval.
    rewrite bind_get_self, Hm. norm.
    rewrite bind_data_set, Hds. norm.
    rewrite bind_getitem, Hstore. norm.
    rewrite Hcall, bind_ret, Hmod. norm.
    rewrite bind_update_self. norm. rewrite bind_update_self. norm.
    rewrite bind_assert. cbn [length Nat.ltb Nat.leb fst snd self journal].
    fields. rewrite lookup_insert_eq. repeat apply conj; reflexivity.
  - intros x rest l' width Hmod Hlast Hwidth. unfold _run_valid_or_eval.
    rewrite bind_get_self, Hm. norm.
    rewrite bind_data_set, Hds. norm.
    rewrite bind_getitem, Hstore. norm.
    rewrite Hcall, bind_ret, Hmod. norm.
    rewrite bind_update_self. norm. rewrite bind_update_self. norm.
    rewrite bind_assert. cbn [length Nat.ltb Nat.leb]. norm.
    rewrite Hlast, bind_ret. norm. rewrite bind_ret. norm.
    rewrite bind_assert.
    apply Nat.eqb_neq in Hwidth. rewrite Hwidth.
    cbn [fst snd self journal]. fields. rewrite lookup_insert_eq.
    repeat apply conj; reflexivity.
Qed.

(** ** The performance analyzer *)

Lemma _analyze_performance_cases d w :
  exists j',
    _analyze_performance d w =
    match predictions (self w) !! "train" with
    | None => (Raise (KeyError "train"), {| self := self w; journal := j' |})
    | Some p =>
        let e1 :=
          set_performances
            (<["train" := analyze_quality_of_predictions p (_metrics (self w))]>
               (performances (self w))) (self w) in
        match predictions (self w) !! "valid" with
        | None => (Raise (KeyError "valid"), {| self := e1; journal := j' |})
        | Some q =>
            (Return tt,
             {| self :=
                  set_performances
                    (<["valid" :=
                         analyze_quality_of_predictions q (_metrics (self w))]>
                       (performances e1)) e1;
                journal := j' |})
        end
    end.
Proof.
  unfold _analyze_performance, logging_info.
  cbn [for_each String.eqb Ascii.eqb Bool.eqb].
  repeat step. rewrite bind_getitem.
  destruct (predictions (self w) !! "train") as [p|] eqn:Hp;
    [| eexists; reflexivity].
  repeat step. rewrite bind_getitem. cbn [performances set_performances].
  rewrite lookup_insert_eq.
  repeat step. rewrite bind_getitem. cbn [predictions set_performances].
  destruct (predictions (self w) !! "valid") as [q|] eqn:Hq;
    [| eexists; reflexivity].
  repeat step. rewrite bind_getitem. cbn [performances set_performances].
  rewrite lookup_insert_eq.
  repeat step.
  eexists. reflexivity.
Qed.

(** X17: the performance analyzer does not look at its argument.  For any
    two split names it answers alike and leaves the same instance (only
    its first log line names the split); it reads the predictions of
    "train" and "valid" and raises the [KeyError] of the first one that is
    missing; whatever happens, it writes no performance under another key
    than "train" and "valid" and changes no prediction. *)
Theorem performance_analysis_ignores_its_argument d d' (w : World) :
  fst (_analyze_performance d w) = fst (_analyze_performance d' w) /\
  self (snd (_analyze_performance d w))
    = self (snd (_analyze_performance d' w)) /\
  fst (_analyze_performance d w) =
    match predictions (self w) !! "train", predictions (self w) !! "valid" with
    | None, _ => Raise (KeyError "train")
    | Some _, None => Raise (KeyError "valid")
    | Some _, Some _ => Return tt
    end /\
  (forall k,
     k <> "train"%string -> k <> "valid"%string ->
     performances (self (snd (_analyze_performance d w))) !! k
       = performances (self w) !! k) /\
  predictions (self (snd (_analyze_performance d w))) = predictions (self w).
Proof.
  destruct (_analyze_performance_cases d w) as [j1 H1].
  destruct (_analyze_performance_cases d' w) as [j2 H2].
  rewrite H1, H2. clear H1 H2.
  destruct (predictions (self w) !! "train") as [p|];
    [destruct (predictions (self w) !! "valid") as [q|] |];
    cbn [fst snd self]; fields;
    (split; [reflexivity|]); (split; [reflexivity|]); (split; [reflexivity|]);
    (split; [| reflexivity]); intros k Ht Hv;
    rewrite ?lookup_insert_ne by congruence; reflexivity.
Qed.

(** ** Collecting the generated feature vectors *)

Lemma for_each_app {A} (xs ys : list A) (body : A -> M unit) w :
  for_each (xs ++ ys) body w =
  bind (for_each xs body) (fun _ => for_each ys body) w.
Proof.
  revert w. induction xs as [|x xs IH]; intros w; cbn [app for_each].
  - reflexivity.
  - unfold bind. destruct (body x w) as [[[]|err] w']; [| reflexivity].
    rewrite IH. reflexivity.
Qed.

Lemma bind_for_each_app {A B} (xs ys : list A) (body : A -> M unit)
    (k : unit -> M B) w :
  bind (for_each (xs ++ ys) body) k w =
  bind (for_each xs body) (fun _ => bind (for_each ys body) k) w.
Proof.
  unfold bind at 1. rewrite for_each_app. unfold bind.
  destruct (for_each xs body w) as [[[]|err] w']; reflexivity.
Qed.

Lemma zip_seq_app {A} (l1 l2 : list A) : forall k n,
  zip (seq k (length l1 + n)) (l1 ++ l2) =
  zip (seq k (length l1)) l1 ++ zip (seq (k + length l1) n) l2.
Proof.
  induction l1 as [|x l1 IH]; intros k n; cbn [length app seq zip_with plus].
  - rewrite Nat.add_0_r. reflexivity.
  - rewrite IH. cbn [app]. rewrite Nat.add_succ_r. reflexivity.
Qed.

Ltac open_vector :=
  unfold store_vector, with_feature, with_labels_of;
  repeat match goal with
         | |- context [match ?o with _ => _ end] =>
             lazymatch o with
             | context [match _ with _ => _ end] => fail
             | _ => idtac
             end;
             let Ho := fresh "Ho" in destruct o eqn:Ho; fields
         end.

Lemma store_vector_settings d v e : same_settings e (store_vector d v e).
Proof.
  open_vector; unfold same_settings; fields; repeat apply conj; reflexivity.
Qed.

Lemma store_vector_features d v e store :
  features e !! d = Some store ->
  features (store_vector d v e) !! d = Some (store ++ [Values (values v)]).
Proof.
  intros Hs. open_vector; rewrite ?lookup_insert_eq; congruence.
Qed.

Lemma store_vector_labels d v e :
  feature_labels (store_vector d v e) =
  match feature_labels e with
  | None => Some (columns v)
  | Some l => Some l
  end.
Proof.
  unfold store_vector, with_labels_of.
  destruct (feature_labels e) as [l|] eqn:Hl; open_vector;
    rewrite ?Hl in *; fields; try discriminate; auto.
Qed.

Lemma collect_success_step d i v e j :
  is_some (features e !! d) = true ->
  collect_feature_vector d (i, Some v) {| self := e; journal := j |} =
  (Return tt, {| self := store_vector d v e; journal := j |}).
Proof.
  intros Hs. unfold collect_feature_vector.
  unfold bind at 1. rewrite seed_feature_labels_step.
  rewrite bind_get_self, bind_getitem. cbn [self].
  unfold store_vector, with_feature.
  assert (Hf : features (with_labels_of v e) = features e)
    by (unfold with_labels_of; destruct (absent (feature_labels e)); reflexivity).
  rewrite Hf. unfold is_some in Hs.
  destruct (features e !! d); [reflexivity | discriminate Hs].
Qed.

Lemma stored_cons d v vs e :
  stored d (v :: vs) e = stored d vs (store_vector d v e).
Proof. reflexivity. Qed.

Lemma stored_settings d vs : forall e, same_settings e (stored d vs e).
Proof.
  induction vs as [|v vs IH]; intros e.
  - apply same_settings_refl.
  - rewrite stored_cons.
    eapply same_settings_trans; [apply store_vector_settings | apply IH].
Qed.

Lemma stored_features d vs :
  forall e store,
    features e !! d = Some store ->
    features (stored d vs e) !! d
      = Some (store ++ map (fun v => Values (values v)) vs).
Proof.
  induction vs as [|v vs IH]; intros e store Hs.
  - cbn [stored fold_left map]. rewrite app_nil_r. exact Hs.
  - rewrite stored_cons.
    rewrite (IH _ _ (store_vector_features d v e store Hs)).
    cbn [map]. rewrite <- app_assoc. reflexivity.
Qed.

Lemma stored_labels d vs :
  forall e,
    feature_labels (stored d vs e) =
    match feature_labels e, vs with
    | None, v :: _ => Some (columns v)
    | l, _ => l
    end.
Proof.
  induction vs as [|v vs IH]; intros e.
  - cbn [stored fold_left]. destruct (feature_labels e); reflexivity.
  - rewrite stored_cons, IH, store_vector_labels.
    destruct (feature_labels e); reflexivity.
Qed.

Lemma collect_successes d vs :
  forall k e j,
    is_some (features e !! d) = true ->
    for_each (zip (seq k (length vs)) (map Some vs)) (collect_feature_vector d)
      {| self := e; journal := j |} =
    (Return tt, {| self := stored d vs e; journal := j |}).
Proof.
  induction vs as [|v vs IH]; intros k e j Hs; [reflexivity|].
  cbn [length seq map zip_with for_each].
  rewrite (bind_returned _ _ _ _ _ (collect_success_step d k v e j Hs)).
  rewrite stored_cons. apply IH.
  unfold is_some in *.
  destruct (features e !! d) as [store|] eqn:Hf; [| discriminate Hs].
  rewrite (store_vector_features d v e store Hf). reflexivity.
Qed.

Lemma collect_failure_step d i ds e j :
  assoc_lookup d (_data_sets e) = Some (Some ds) ->
  (i < length (targets ds))%nat ->
  collect_feature_vector d (i, None) {| self := e; journal := j |} =
  (Return tt,
   {| self := without_target d i e;
      journal := j ++ [Logged "WARNING"
                         ("removed example " +:+ pretty i +:+ " from labels")] |}).
Proof.
  intros Hds Hi. unfold collect_feature_vector, del_target, data_set_targets.
  rewrite !bind_bind, bind_data_set. cbn [self]. rewrite Hds.
  rewrite bind_ret.
  apply Nat.ltb_lt in Hi. rewrite Hi.
  rewrite bind_update_self. cbn [self journal].
  unfold without_target. rewrite Hds. reflexivity.
Qed.

Lemma assoc_lookup_update {V} d (v v0 : V) l :
  assoc_lookup d l = Some v0 ->
  assoc_lookup d (assoc_update d v l) = Some v.
Proof.
  induction l as [|[k u] l IH]; cbn [assoc_lookup assoc_update];
    [discriminate|].
  destruct (String.eqb k d) eqn:Hk; cbn [assoc_lookup]; rewrite Hk;
    [reflexivity | exact IH].
Qed.

(** X18: a feature-generation batch without failure.  When every result
    of the batch is a feature vector, the collecting loop stores the
    vectors' values behind what the split's store held, in order, logs
    nothing and deletes no label; it then returns exactly when the store
    has as many entries as the data set has labels, and raises the
    assertion about mismatching counts otherwise. *)
Theorem collection_without_failure d vs store ds (w : World) :
  features (self w) !! d = Some store ->
  assoc_lookup d (_data_sets (self w)) = Some (Some ds) ->
  fst (collect_feature_vectors d (map Some vs) w) =
    (if (length store + length vs =? length (targets ds))%nat
     then Return tt
     else Raise (AssertionError
                   "number of feature vectors does not match number of labels")) /\
  features (self (snd (collect_feature_vectors d (map Some vs) w))) !! d
    = Some (store ++ map (fun v => Values (values v)) vs) /\
  _data_sets (self (snd (collect_feature_vectors d (map Some vs) w)))
    = _data_sets (self w) /\
  journal (snd (collect_feature_vectors d (map Some vs) w)) = journal w.
Proof.
  destruct w as [e j]. cbn [self journal]. intros Hstore Hds.
  unfold collect_feature_vectors, enumerate. rewrite length_map.
  rewrite (bind_returned _ _ _ _ _
             (collect_successes d vs 0%nat e j
                ltac:(unfold is_some; rewrite Hstore; reflexivity))).
  rewrite bind_get_self, bind_getitem. cbn [self].
  rewrite (stored_features d vs e store Hstore).
  destruct (stored_settings d vs e) as (Hsame & _).
  unfold data_set_targets. rewrite bind_bind, bind_data_set. cbn [self].
  rewrite Hsame, Hds, bind_ret.
  rewrite length_app, length_map.
  unfold assert.
  destruct (length store + length vs =? length (targets ds))%nat;
    unfold ret, raise; cbn [fst snd self journal];
    (split; [reflexivity|]);
    (split; [exact (stored_features d vs e store Hstore)|]);
    (split; [exact Hsame | reflexivity]).
Qed.

(** X19: a batch with exactly one failure keeps labels and vectors
    aligned.  When the only [None] of the batch is at index [i], the loop
    stores the other vectors in order, deletes the label at index [i] --
    the one of the failed example -- and logs one warning that names [i];
    the count assertion then holds and the stage returns. *)
Theorem single_failure_removes_its_label d a b ta y tb ds (w : World) :
  features (self w) !! d = Some [] ->
  assoc_lookup d (_data_sets (self w)) = Some (Some ds) ->
  targets ds = ta ++ y :: tb ->
  length ta = length a ->
  length tb = length b ->
  fst (collect_feature_vectors d (map Some a ++ None :: map Some b) w)
    = Return tt /\
  features
    (self (snd (collect_feature_vectors d (map Some a ++ None :: map Some b) w)))
    !! d
    = Some (map (fun v => Values (values v)) (a ++ b)) /\
  assoc_lookup d
    (_data_sets
       (self (snd (collect_feature_vectors d
                     (map Some a ++ None :: map Some b) w))))
    = Some (Some (set_targets (ta ++ tb) ds)) /\
  journal (snd (collect_feature_vectors d (map Some a ++ None :: map Some b) w))
    = journal w ++
      [Logged "WARNING"
         ("removed example " +:+ pretty (length a) +:+ " from labels")].
Proof.
  destruct w as [e j]. cbn [self journal]. intros Hstore Hds Ht Hta Htb.
  pose proof (stored_features d a e [] Hstore) as Hfa. cbn [app] in Hfa.
  destruct (stored_settings d a e) as (Hdsa & _).
  set (ea := stored d a e) in *.
  assert (Hlook : assoc_lookup d (_data_sets ea) = Some (Some ds))
    by (rewrite Hdsa; exact Hds).
  set (ed := without_target d (length a) ea).
  assert (Hfd : features ed !! d
                = Some (map (fun v => Values (values v)) a)).
  { unfold ed, without_target. rewrite Hlook. exact Hfa. }
  assert (Hdsd : assoc_lookup d (_data_sets ed)
                 = Some (Some (set_targets (ta ++ tb) ds))).
  { unfold ed, without_target. rewrite Hlook. fields.
    rewrite (assoc_lookup_update d _ _ _ Hlook). rewrite Ht.
    rewrite (take_app_length' ta (y :: tb)) by congruence.
    change (ta ++ y :: tb) with (ta ++ [y] ++ tb). rewrite app_assoc.
    rewrite (drop_app_length' (ta ++ [y]) tb)
      by (rewrite length_app; cbn [length]; lia).
    reflexivity. }
  destruct (stored_settings d b ed) as (Hdsb & _).
  pose proof (stored_features d b ed _ Hfd) as Hfb.
  rewrite <- map_app in Hfb.
  assert (Hrun :
    collect_feature_vectors d (map Some a ++ None :: map Some b)
      {| self := e; journal := j |} =
    (Return tt,
     {| self := stored d b ed;
        journal := j ++ [Logged "WARNING"
                           ("removed example " +:+ pretty (length a) +:+
                            " from labels")] |})).
  { unfold collect_feature_vectors, enumerate.
    rewrite length_app. cbn [length]. rewrite !length_map.
    replace (length a) with (length (map Some a)) at 1 by apply length_map.
    rewrite zip_seq_app. rewrite length_map. cbn [plus seq zip_with].
    rewrite bind_for_each_app.
    rewrite (bind_returned _ _ _ _ _
               (collect_successes d a 0%nat e j
                  ltac:(unfold is_some; rewrite Hstore; reflexivity))).
    cbn [for_each]. rewrite bind_bind. fold ea.
    rewrite (bind_returned _ _ _ _ _
               (collect_failure_step d (length a) ds ea j Hlook
                  ltac:(rewrite Ht, length_app; cbn [length]; lia))).
    fold ed.
    rewrite (bind_returned _ _ _ _ _
               (collect_successes d b (S (length a)) ed _
                  ltac:(unfold is_some; rewrite Hfd; reflexivity))).
    rewrite bind_get_self, bind_getitem. cbn [self].
    rewrite Hfb.
    unfold data_set_targets. rewrite bind_bind, bind_data_set. cbn [self].
    rewrite Hdsb, Hdsd, bind_ret.
    cbn [targets set_targets]. rewrite length_map, !length_app.
    rewrite Hta, Htb, Nat.eqb_refl. reflexivity. }
  rewrite Hrun. cbn [fst snd self journal].
  split; [reflexivity|]. split; [exact Hfb|].
  split; [rewrite Hdsb; exact Hdsd | reflexivity].
Qed.

(** ** The stages on an instance whose procedure attribute is assigned *)

Lemma run_tasks_map {A B} (task : B -> M A) (f : B -> A) (ev : event) e :
  (forall x j,
     task x {| self := e; journal := j |}
       = (Return (f x), {| self := e; journal := j ++ [ev] |})) ->
  forall xs j,
    run_tasks (map task xs) {| self := e; journal := j |} =
    (Return (map f xs),
     {| self := e; journal := j ++ replicate (length xs) ev |}).
Proof.
  intros Htask. induction xs as [|x xs IH]; intros j.
  - cbn [map run_tasks length replicate]. rewrite app_nil_r. reflexivity.
  - cbn [map run_tasks length replicate].
    rewrite (bind_returned _ _ _ _ _ (Htask x j)).
    rewrite (bind_returned _ _ _ _ _ (IH _)).
    rewrite <- app_assoc. reflexivity.
Qed.

Ltac open_cleaned :=
  unfold keep_cleaned, with_signal, with_sfreq;
  repeat match goal with
         | |- context [match ?o with _ => _ end] =>
             lazymatch o with
             | context [match _ with _ => _ end] => fail
             | _ => idtac
             end;
             let Ho := fresh "Ho" in destruct o eqn:Ho; fields
         end.

Lemma keep_cleaned_settings d r e : same_settings e (keep_cleaned d r e).
Proof.
  open_cleaned; unfold same_settings; fields; repeat apply conj; reflexivity.
Qed.

Lemma keep_cleaned_frame d r e :
  features (keep_cleaned d r e) = features e /\
  feature_labels (keep_cleaned d r e) = feature_labels e.
Proof. open_cleaned; split; reflexivity. Qed.

Lemma keep_cleaned_clean d r e store :
  clean e !! d = Some store ->
  clean (keep_cleaned d r e) !! d = Some (store ++ [r.1]).
Proof. intros Hs. open_cleaned; rewrite ?lookup_insert_eq; congruence. Qed.

Lemma keep_cleaned_info d r e entry :
  info e !! d = Some entry ->
  info (keep_cleaned d r e) !! d =
  Some (match entry !! "sfreq" with
        | None => <["sfreq" := ISfreq r.2]> entry
        | Some _ => entry
        end).
Proof.
  intros Hi. unfold keep_cleaned, with_sfreq. rewrite Hi.
  destruct (entry !! "sfreq"); open_cleaned; rewrite ?lookup_insert_eq; auto.
Qed.

Lemma cleaned_cons d r rs e :
  cleaned d (r :: rs) e = cleaned d rs (keep_cleaned d r e).
Proof. reflexivity. Qed.

Lemma cleaned_settings d rs : forall e, same_settings e (cleaned d rs e).
Proof.
  induction rs as [|r rs IH]; intros e.
  - apply same_settings_refl.
  - rewrite cleaned_cons.
    eapply same_settings_trans; [apply keep_cleaned_settings | apply IH].
Qed.

Lemma cleaned_frame d rs :
  forall e,
    features (cleaned d rs e) = features e /\
    feature_labels (cleaned d rs e) = feature_labels e.
Proof.
  induction rs as [|r rs IH]; intros e; [auto|].
  rewrite cleaned_cons.
  destruct (IH (keep_cleaned d r e)) as [-> ->]. apply keep_cleaned_frame.
Qed.

Lemma cleaned_clean d rs :
  forall e store,
    clean e !! d = Some store ->
    clean (cleaned d rs e) !! d = Some (store ++ map fst rs).
Proof.
  induction rs as [|r rs IH]; intros e store Hs.
  - cbn [cleaned fold_left map]. rewrite app_nil_r. exact Hs.
  - rewrite cleaned_cons.
    rewrite (IH _ _ (keep_cleaned_clean d r e store Hs)).
    cbn [map]. rewrite <- app_assoc. reflexivity.
Qed.

Lemma cleaned_info d rs :
  forall e entry,
    info e !! d = Some entry ->
    info (cleaned d rs e) !! d =
    Some (match entry !! "sfreq", rs with
          | None, r :: _ => <["sfreq" := ISfreq r.2]> entry
          | _, _ => entry
          end).
Proof.
  induction rs as [|r rs IH]; intros e entry Hi.
  - cbn [cleaned fold_left]. rewrite Hi. destruct (entry !! "sfreq"); reflexivity.
  - rewrite cleaned_cons.
    rewrite (IH _ _ (keep_cleaned_info d r e entry Hi)).
    destruct (entry !! "sfreq") eqn:Hs.
    + rewrite Hs. reflexivity.
    + rewrite lookup_insert_eq. reflexivity.
Qed.

Lemma keep_cleaned_step d r e j :
  is_some (info e !! d) = true /\ is_some (clean e !! d) = true ->
  (let '(cleaned_signals, sfreq) := r in
   bind (record_sfreq d sfreq)
     (fun _ =>
        bind get_self
          (fun e =>
             bind (getitem (clean e) d)
               (fun store =>
                  update_self
                    (set_clean (<[d := store ++ [cleaned_signals]]> (clean e)))))))
    {| self := e; journal := j |}
  = (Return tt, {| self := keep_cleaned d r e; journal := j |}) /\
  (is_some (info (keep_cleaned d r e) !! d) = true /\
   is_some (clean (keep_cleaned d r e) !! d) = true).
Proof.
  intros [Hi Hs]. destruct r as [x sfreq]. unfold is_some in *.
  destruct (info e !! d) as [entry|] eqn:Hinfo; [| discriminate Hi].
  destruct (clean e !! d) as [store|] eqn:Hclean; [| discriminate Hs].
  split.
  - rewrite (bind_returned _ _ _ _ _
               (record_sfreq_step d sfreq e j
                  ltac:(unfold is_some; rewrite Hinfo; reflexivity))).
    rewrite bind_get_self, bind_getitem. cbn [self].
    unfold keep_cleaned, with_signal. cbn [fst snd].
    assert (Hc : clean (with_sfreq d sfreq e) = clean e).
    { unfold with_sfreq. rewrite Hinfo. destruct (entry !! "sfreq"); reflexivity. }
    rewrite Hc, Hclean. reflexivity.
  - rewrite (keep_cleaned_info d (x, sfreq) e entry Hinfo).
    rewrite (keep_cleaned_clean d (x, sfreq) e store Hclean).
    split; reflexivity.
Qed.

Lemma _clean_returns d ds f e j :
  cleaning_procedure e = Some f ->
  has_call f = true ->
  is_None (_cleaning_params e) || type_is_dict (_cleaning_params e) = true ->
  zero_jobs (_n_jobs e) = false ->
  assoc_lookup d (_data_sets e) = Some (Some ds) ->
  is_some (info e !! d) = true ->
  is_some (clean e !! d) = true ->
  _clean d {| self := e; journal := j |} =
  (Return tt,
   {| self :=
        cleaned d
          (map (fun x => call (curried f (_cleaning_params e)) ∅
                           (item_data x) (item_sfreq x))
             (examples ds))
          (with_cleaning_procedure f e);
      journal :=
        (j ++ [Logged "INFO" ("Making clean (" +:+ d +:+ ")")]) ++
        replicate (length (examples ds)) (Applied "cleaning_procedure") |}).
Proof.
  intros Hattr Hcall Hpar Hjobs Hds Hi Hs.
  unfold _clean, logging_info. rewrite bind_emit, bind_get_self.
  cbn [self journal].
  set (j1 := j ++ _).
  set (g := curried f (_cleaning_params e)).
  set (e1 := with_cleaning_procedure f e).
  assert (Hprep :
    (if negb (is_None (_cleaning_params e))
     then bind getattr_cleaning_procedure
            (fun f => bind (partial f (_cleaning_params e))
                        (fun g => update_self (set_cleaning_procedure (Some g))))
     else ret tt) {| self := e; journal := j1 |}
    = (Return tt, {| self := e1; journal := j1 |})).
  { subst e1 g. unfold with_cleaning_procedure.
    destruct (_cleaning_params e); try discriminate Hpar; [reflexivity|].
    cbn [is_None negb]. unfold getattr_cleaning_procedure.
    rewrite bind_bind, bind_get_self. cbn [self]. rewrite Hattr, bind_ret.
    unfold partial. rewrite Hcall, bind_ret. reflexivity. }
  rewrite (bind_returned _ _ _ _ _ Hprep). clear Hprep.
  assert (Hattr1 : cleaning_procedure e1 = Some g /\ has_call g = true).
  { subst e1 g. unfold with_cleaning_procedure, curried.
    destruct (_cleaning_params e); auto. }
  destruct Hattr1 as [Hattr1 Hcall1].
  assert (Hframe : _data_sets e1 = _data_sets e /\ info e1 = info e /\
                   clean e1 = clean e).
  { subst e1. unfold with_cleaning_procedure.
    destruct (_cleaning_params e); auto. }
  destruct Hframe as (Hds1 & Hi1 & Hc1).
  unfold iter_data_set. rewrite bind_bind, bind_data_set. cbn [self].
  rewrite Hds1, Hds, bind_ret.
  unfold Parallel. rewrite Hjobs.
  match goal with
  | |- context [run_tasks (map ?task ?xs)] =>
      assert (Htask : forall x j',
                task x {| self := e1; journal := j' |} =
                (Return (call g ∅ (item_data x) (item_sfreq x)),
                 {| self := e1;
                    journal := j' ++ [Applied "cleaning_procedure"] |}))
  end.
  { intros [[example sfreq] label] j'. unfold getattr_cleaning_procedure.
    rewrite bind_bind, bind_get_self. cbn [self]. rewrite Hattr1, bind_ret.
    unfold apply. rewrite Hcall1. reflexivity. }
  rewrite (bind_returned _ _ _ _ _
             (run_tasks_map _ _ _ e1 Htask (examples ds) j1)).
  apply (for_each_steps _ (keep_cleaned d)
           (fun e => is_some (info e !! d) = true /\
                     is_some (clean e !! d) = true)).
  - intros r e' j' He'. apply keep_cleaned_step, He'.
  - rewrite Hi1, Hc1. auto.
Qed.

(** X20: cleaning on an instance whose [cleaning_procedure] attribute has
    been assigned by the caller.  With a callable procedure, parameters
    that are [None] or a dictionary, a job count other than 0, and the
    split's data set, info entry and clean-signal store in place, [_clean]
    returns.  The procedure -- curried with the parameters when there are
    any, and then left curried on the attribute -- is applied to every
    example with the example's own sampling frequency, all applications
    coming before the first result is kept; the cleaned signals are
    appended to the store in order; the info entry gets the sampling
    frequency returned for the first example unless one is recorded; the
    data sets, the feature store and the feature names are untouched. *)
Theorem cleaning_with_the_attribute_assigned d ds f entry store (w : World) :
  cleaning_procedure (self w) = Some f ->
  has_call f = true ->
  is_None (_cleaning_params (self w))
    || type_is_dict (_cleaning_params (self w)) = true ->
  zero_jobs (_n_jobs (self w)) = false ->
  assoc_lookup d (_data_sets (self w)) = Some (Some ds) ->
  info (self w) !! d = Some entry ->
  clean (self w) !! d = Some store ->
  let g := curried f (_cleaning_params (self w)) in
  let results :=
    map (fun x => call g ∅ (item_data x) (item_sfreq x)) (examples ds) in
  fst (_clean d w) = Return tt /\
  clean (self (snd (_clean d w))) !! d = Some (store ++ map fst results) /\
  info (self (snd (_clean d w))) !! d =
    Some (match entry !! "sfreq", results with
          | None, r :: _ => <["sfreq" := ISfreq r.2]> entry
          | _, _ => entry
          end) /\
  cleaning_procedure (self (snd (_clean d w))) = Some g /\
  _data_sets (self (snd (_clean d w))) = _data_sets (self w) /\
  features (self (snd (_clean d w))) = features (self w) /\
  feature_labels (self (snd (_clean d w))) = feature_labels (self w) /\
  journal (snd (_clean d w)) =
    journal w ++ [Logged "INFO" ("Making clean (" +:+ d +:+ ")")] ++
    replicate (length (examples ds)) (Applied "cleaning_procedure").
Proof.
  destruct w as [e j]. cbn [self journal].
  intros Hattr Hcall Hpar Hjobs Hds Hi Hs.
  rewrite (_clean_returns d ds f e j Hattr Hcall Hpar Hjobs Hds);
    [| unfold is_some; rewrite Hi; reflexivity
     | unfold is_some; rewrite Hs; reflexivity].
  cbn [fst snd self journal].
  set (g := curried f (_cleaning_params e)).
  set (results := map _ (examples ds)).
  set (e1 := with_cleaning_procedure f e).
  assert (Hframe : _data_sets e1 = _data_sets e /\ info e1 = info e /\
                   clean e1 = clean e /\ features e1 = features e /\
                   feature_labels e1 = feature_labels e /\
                   cleaning_procedure e1 = Some g).
  { subst e1 g. unfold with_cleaning_procedure, curried.
    destruct (_cleaning_params e); repeat apply conj; auto. }
  destruct Hframe as (Hds1 & Hi1 & Hc1 & Hf1 & Hl1 & Hattr1).
  destruct (cleaned_settings d results e1)
    as (Hdsr & _ & _ & _ & _ & _ & _ & _ & _ & _ & _ & _ & _ & _ & _ & _
        & Hattr2 & _).
  destruct (cleaned_frame d results e1) as (Hfr & Hlr).
  rewrite (cleaned_clean d results e1 store) by (rewrite Hc1; exact Hs).
  rewrite (cleaned_info d results e1 entry) by (rewrite Hi1; exact Hi).
  rewrite Hattr2, Hattr1, Hdsr, Hds1, Hfr, Hf1, Hlr, Hl1, <- app_assoc.
  repeat apply conj; reflexivity.
Qed.

(** X21: feature generation on an instance whose
    [feature_generation_procedure] attribute has been assigned.  With a
    callable procedure, parameters that are [None] or a dictionary, a job
    count other than 0 and a sampling frequency recorded for the split,
    the stage logs its opening line, applies the (curried) procedure to
    every clean signal of the split in order -- each time with the one
    sampling frequency recorded for the split -- and then collects the
    results; nothing else happens before the collecting loop. *)
Theorem generation_with_the_attribute_assigned d f signals entry sfreq
    (w : World) :
  feature_generation_procedure (self w) = Some f ->
  has_call f = true ->
  is_None (_feature_generation_params (self w))
    || type_is_dict (_feature_generation_params (self w)) = true ->
  zero_jobs (_n_jobs (self w)) = false ->
  clean (self w) !! d = Some signals ->
  info (self w) !! d = Some entry ->
  entry !! "sfreq" = Some (ISfreq sfreq) ->
  _generate_features d w =
  collect_feature_vectors d
    (map (fun x => call (curried f (_feature_generation_params (self w))) ∅
                     x sfreq) signals)
    {| self := with_feature_generation_procedure f (self w);
       journal :=
         (journal w ++
          [Logged "INFO" ("Generating features (" +:+ d +:+ ")")]) ++
         replicate (length signals) (Applied "feature_generation_procedure") |}.
Proof.
  destruct w as [e j]. cbn [self journal].
  intros Hattr Hcall Hpar Hjobs Hs Hi Hsf.
  unfold _generate_features, logging_info. rewrite bind_emit, bind_get_self.
  cbn [self journal].
  set (j1 := j ++ _).
  set (g := curried f (_feature_generation_params e)).
  set (e1 := with_feature_generation_procedure f e).
  assert (Hprep :
    (if negb (is_None (_feature_generation_params e))
     then bind getattr_feature_generation_procedure
            (fun f => bind (partial f (_feature_generation_params e))
                        (fun g => update_self
                                    (set_feature_generation_procedure (Some g))))
     else ret tt) {| self := e; journal := j1 |}
    = (Return tt, {| self := e1; journal := j1 |})).
  { subst e1 g. unfold with_feature_generation_procedure.
    destruct (_feature_generation_params e); try discriminate Hpar;
      [reflexivity|].
    cbn [is_None negb]. unfold getattr_feature_generation_procedure.
    rewrite bind_bind, bind_get_self. cbn [self]. rewrite Hattr, bind_ret.
    unfold partial. rewrite Hcall, bind_ret. reflexivity. }
  rewrite (bind_returned _ _ _ _ _ Hprep). clear Hprep.
  assert (Hattr1 : feature_generation_procedure e1 = Some g /\
                   has_call g = true).
  { subst e1 g. unfold with_feature_generation_procedure, curried.
    destruct (_feature_generation_params e); auto. }
  destruct Hattr1 as [Hattr1 Hcall1].
  assert (Hframe : info e1 = info e).
  { subst e1. unfold with_feature_generation_procedure.
    destruct (_feature_generation_params e); auto. }
  rewrite bind_getitem, Hs.
  unfold Parallel. rewrite Hjobs.
  match goal with
  | |- context [run_tasks (map ?task ?xs)] =>
      assert (Htask : forall x j',
                task x {| self := e1; journal := j' |} =
                (Return (call g ∅ x sfreq),
                 {| self := e1;
                    journal := j' ++
                               [Applied "feature_generation_procedure"] |}))
  end.
  { intros x j'. unfold getattr_feature_generation_procedure.
    rewrite bind_bind, bind_get_self. cbn [self]. rewrite Hattr1, bind_ret.
    rewrite bind_get_self, bind_getitem. cbn [self].
    rewrite Hframe, Hi, bind_getitem, Hsf.
    unfold apply. rewrite Hcall1. reflexivity. }
  rewrite (bind_returned _ _ _ _ _
             (run_tasks_map _ _ _ e1 Htask signals j1)).
  reflexivity.
Qed.

(** ** [plot] *)

Lemma collect_importances_outcome infos :
  forall acc w,
    collect_importances infos acc w =
    if existsb (contains "clf") infos
    then (Raise (TypeError "string indices must be integers"), w)
    else (Return acc, w).
Proof.
  induction infos as [|info rest IH]; intros acc w; [reflexivity|].
  cbn [collect_importances existsb].
  destruct (contains "clf" info); cbn [orb].
  - reflexivity.
  - rewrite bind_ret. apply IH.
Qed.

Lemma collect_components_outcome infos :
  forall acc w,
    collect_components infos acc w =
    if existsb (contains "pca") infos
    then (Raise (TypeError "string indices must be integers"), w)
    else (Return acc, w).
Proof.
  induction infos as [|info rest IH]; intros acc w; [reflexivity|].
  cbn [collect_components existsb].
  destruct (contains "pca" info); cbn [orb].
  - reflexivity.
  - rewrite bind_ret. apply IH.
Qed.

(** X22: [plot] never analyzes feature importances or PCA components.
    Its two loops run over the keys of the dictionary [info["devel"]]:
    a key that contains "clf" or "pca" makes [plot] raise [TypeError]
    (a string is indexed with a string), any other key is skipped, so
    both collected lists stay empty.  Hence [plot] answers the same
    whatever the two analysis functions are; after the correlation
    analysis has returned it raises or returns as [plot_outcome] says,
    and it returns when "sfreq" is the only key, as the stages leave it.
    [plot] itself assigns nothing to the instance and logs nothing. *)
Theorem plot_only_analyzes_correlations
    (correlations : list feature_item -> option (list string) -> pyval ->
                    outcome unit)
    (importances importances' : list info_value -> option (list string) ->
                                pyval -> outcome unit)
    (components components' : list info_value -> option (list string) ->
                              outcome unit)
    (out_dir : pyval) (w : World) :
  plot correlations importances components out_dir w
    = plot correlations importances' components' out_dir w /\
  snd (plot correlations importances components out_dir w) = w /\
  (forall store entry,
     features (self w) !! "devel" = Some store ->
     info (self w) !! "devel" = Some entry ->
     fst (plot correlations importances components out_dir w) =
     match correlations store (feature_labels (self w)) out_dir with
     | Raise err => Raise err
     | Return _ => plot_outcome entry
     end) /\
  (forall store entry,
     features (self w) !! "devel" = Some store ->
     info (self w) !! "devel" = Some entry ->
     (forall k v, entry !! k = Some v -> k = "sfreq"%string) ->
     fst (plot correlations importances components out_dir w) =
     correlations store (feature_labels (self w)) out_dir).
Proof.
  assert (Hplot : forall imp comp,
    plot correlations imp comp out_dir w =
    match features (self w) !! "devel" with
    | None => (Raise (KeyError "devel"), w)
    | Some store =>
        match correlations store (feature_labels (self w)) out_dir with
        | Raise err => (Raise err, w)
        | Return _ =>
            match info (self w) !! "devel" with
            | None => (Raise (KeyError "devel"), w)
            | Some entry => (plot_outcome entry, w)
            end
        end
    end).
  { intros imp comp. unfold plot.
    rewrite bind_get_self, bind_getitem.
    destruct (features (self w) !! "devel") as [store|]; [| reflexivity].
    rewrite bind_lift.
    destruct (correlations store (feature_labels (self w)) out_dir)
      as [[]|err]; [| reflexivity].
    rewrite bind_get_self, bind_getitem.
    destruct (info (self w) !! "devel") as [entry|] eqn:Hentry; [| reflexivity].
    unfold bind at 1. rewrite collect_importances_outcome.
    unfold plot_outcome.
    destruct (existsb (contains "clf") (keys entry)); cbn [orb];
      [reflexivity|].
    cbv beta iota.
    rewrite bind_ret, bind_get_self, bind_getitem, Hentry.
    unfold bind at 1. rewrite collect_components_outcome.
    destruct (existsb (contains "pca") (keys entry)); reflexivity. }
  split; [rewrite (Hplot importances components),
            (Hplot importances' components'); reflexivity|].
  rewrite (Hplot importances components).
  split; [| split].
  - destruct (features (self w) !! "devel") as [store|]; [| reflexivity].
    destruct (correlations store (feature_labels (self w)) out_dir)
      as [[]|err]; [| reflexivity].
    destruct (info (self w) !! "devel"); reflexivity.
  - intros store entry -> ->.
    destruct (correlations store (feature_labels (self w)) out_dir)
      as [[]|err]; reflexivity.
  - intros store entry -> -> Hkeys.
    destruct (correlations store (feature_labels (self w)) out_dir)
      as [[]|err]; [| reflexivity].
    cbn [fst]. unfold plot_outcome.
    assert (Hnone : forall sub,
              contains sub "sfreq" = false ->
              existsb (contains sub) (keys entry) = false).
    { intros sub Hsub. apply not_true_is_false. intros Hex.
      apply existsb_exists in Hex as (k & Hin & Hk).
      unfold keys in Hin. apply in_map_iff in Hin as ([k' v] & <- & Hin).
      apply list_elem_of_In, elem_of_map_to_list in Hin.
      rewrite (Hkeys _ _ Hin) in Hk. cbn [fst] in Hk. congruence. }
    rewrite (Hnone "clf"%string eq_refl), (Hnone "pca"%string eq_refl).
    reflexivity.
Qed.

End Properties.

(** * The statements on concrete experiments *)

Import Scenario.
#[local] Existing Instance toy.

(** Scenario C of the specification: one failure, at index 2 of 5.  The
    label at index 2 is removed and four vectors are stored. *)
Example scenario_C_single_failure :
  fst (collect_feature_vectors "devel" failure_at_2
         (fresh (collecting [10; 11; 12; 13; 14]))) = Return tt /\
  assoc_lookup "devel"
    (_data_sets (self (snd (collect_feature_vectors "devel" failure_at_2
                              (fresh (collecting [10; 11; 12; 13; 14]))))))
  = Some (Some (set_targets [10; 11; 13; 14] (recordings [10; 11; 12; 13; 14]))) /\
  length <$> features (self (snd (collect_feature_vectors "devel" failure_at_2
                                    (fresh (collecting [10; 11; 12; 13; 14])))))
               !! "devel" = Some 4%nat.
Proof. vm_compute. repeat split. Qed.

(** A first [run] makes no predictions even when no stage fails: whether
    to predict is decided while the development feature store is still
    empty. *)
Example first_run_makes_no_predictions :
  fst (run (fresh features_only)) = Return tt /\
  length <$> features (self (snd (run (fresh features_only)))) !! "devel"
    = Some 10%nat /\
  map fst (map_to_list (predictions (self (snd (run (fresh features_only))))))
    = [] /\
  journal (snd (run (fresh features_only)))
    = [Logged "INFO" "Started on {} at {}";
       Logged "INFO" "Loading devel (features)";
       Logged "INFO" "Loading eval (features)";
       Logged "INFO" "Finished on {} at {}."].
Proof. vm_compute. repeat split. Qed.

(** C2: batches on which the loop of lines 250-263 does not keep labels
    and feature vectors aligned.  With failures at indices 3 and 4 of 5 the second
    deletion, [del targets[4]] on a list that has 4 entries left, raises
    [IndexError]: the stage does not complete and label 14 is still there.
    With failures at indices 0 and 1 of 3 the stage completes with one
    vector and one label, but the label that is left, 11, is the one of the
    failed example 1, and the label 12 of the only successful example has
    been deleted.  The whole stage, on an instance whose caller assigned
    the procedure attribute and whose last two signals of five fail, ends in
    the same [IndexError]. *)
Theorem repeated_failures_misplace_deletions :
  fst (_generate_features "devel"
         (fresh (patched [10; 11; 12; 13; 14]
                   [signal; signal; signal; flat_signal; flat_signal])))
  = Raise (IndexError "list assignment index out of range") /\
  (fst (collect_feature_vectors "devel" two_trailing_failures
          (fresh (collecting [10; 11; 12; 13; 14])))
   = Raise (IndexError "list assignment index out of range") /\
   assoc_lookup "devel"
     (_data_sets (self (snd (collect_feature_vectors "devel"
                               two_trailing_failures
                               (fresh (collecting [10; 11; 12; 13; 14]))))))
   = Some (Some (set_targets [10; 11; 12; 14]
                   (recordings [10; 11; 12; 13; 14]))) /\
   journal (snd (collect_feature_vectors "devel" two_trailing_failures
                   (fresh (collecting [10; 11; 12; 13; 14]))))
   = [Logged "WARNING" "removed example 3 from labels"]) /\
  (fst (collect_feature_vectors "devel" two_leading_failures
          (fresh (collecting [10; 11; 12])))
   = Return tt /\
   assoc_lookup "devel"
     (_data_sets (self (snd (collect_feature_vectors "devel"
                               two_leading_failures
                               (fresh (collecting [10; 11; 12]))))))
   = Some (Some (set_targets [11] (recordings [10; 11; 12]))) /\
   features (self (snd (collect_feature_vectors "devel" two_leading_failures
                          (fresh (collecting [10; 11; 12]))))) !! "devel"
   = Some [Values (values two_features)] /\
   journal (snd (collect_feature_vectors "devel" two_leading_failures
                   (fresh (collecting [10; 11; 12]))))
   = [Logged "WARNING" "removed example 0 from labels";
      Logged "WARNING" "removed example 1 from labels"]).
Proof. vm_compute. repeat split. Qed.

(** C9: final-evaluation mode on the code.  After a final evaluation whose
    predictions are keyed "train" and "eval", the analyzer called for the
    evaluation split asks for the predictions of role "valid" and raises
    [KeyError]; no table is stored for "eval".  When a validation of the
    development split has run before, it returns, having stored tables for
    "train" and "valid" and still none for "eval". *)
Theorem evaluation_role_is_never_analyzed :
  (fst (_run_valid_or_eval "eval" (fresh (with_features PNone None)))
   = Raise (KeyError "valid") /\
   map fst (map_to_list
     (predictions (self (snd (_run_valid_or_eval "eval"
                                (fresh (with_features PNone None)))))))
   = ["eval"%string; "train"%string] /\
   performances (self (snd (_run_valid_or_eval "eval"
                              (fresh (with_features PNone None))))) !! "eval"
   = None) /\
  (fst (_run_valid_or_eval "eval"
          (snd (_run_valid_or_eval "devel" (fresh (with_features PNone None)))))
   = Return tt /\
   map fst (map_to_list
     (predictions
        (self (snd (_run_valid_or_eval "eval"
                      (snd (_run_valid_or_eval "devel"
                              (fresh (with_features PNone None)))))))))
   = ["eval"%string; "valid"%string; "train"%string] /\
   map fst (map_to_list
     (performances
        (self (snd (_run_valid_or_eval "eval"
                      (snd (_run_valid_or_eval "devel"
                              (fresh (with_features PNone None)))))))))
   = ["valid"%string; "train"%string]).
Proof. vm_compute. repeat split. Qed.

(** Witness of C1: Scenario A itself. *)
Lemma scenario_A_stops_in_cleaning_witness :
  exists w',
    run (fresh scenario_A) = (Raise (AttributeError "cleaning_procedure"), w') /\
    features (self w') !! "devel" = Some [] /\
    predictions (self w') = ∅ /\
    performances (self w') = ∅.
Proof.
  assert (Hok : fst (_run_checks (fresh scenario_A)) = Return tt)
    by (vm_compute; reflexivity).
  exact (scenario_A_stops_in_cleaning (recordings ten_labels) forest
           (Some (OneMetric tt)) (PInt 1) cleaner PNone generator (PDict ∅)
           (PBool false) PNone (Some standard_scaler) None (PStr "INFO")
           eq_refl Hok).
Defined.

(** Counterexample to C3 as the specification states it: a second vector of another width is
    stored without complaint under the names of the first, and a modifier
    replaces a feature-name list that was already set. *)
Lemma feature_names_counterexample :
  (fst (collect_feature_vectors "devel" widths_differ
          (fresh (collecting [10; 11]))) = Return tt /\
   feature_labels
     (self (snd (collect_feature_vectors "devel" widths_differ
                   (fresh (collecting [10; 11])))))
   = Some ["mean"%string; "variance"%string] /\
   map (fun x => last (item_shape x))
     (default []
        (features
           (self (snd (collect_feature_vectors "devel" widths_differ
                         (fresh (collecting [10; 11]))))) !! "devel"))
   = [Some 2%nat; Some 1%nat]) /\
  (feature_labels (self (fresh (with_features PNone (Some keep_first))))
   = Some ["mean"%string; "variance"%string] /\
   fst (_run_valid_or_eval "devel"
          (fresh (with_features PNone (Some keep_first)))) = Return tt /\
   feature_labels
     (self (snd (_run_valid_or_eval "devel"
                   (fresh (with_features PNone (Some keep_first))))))
   = Some ["first"%string]).
Proof. vm_compute. repeat split. Qed.

(** Witness of C3: the batch with two leading failures seeds the list from
    its third vector; the modifier's list is in place after validation. *)
Lemma feature_names_are_seeded_once_witness :
  feature_labels
    (self (snd (collect_feature_vectors "devel" two_leading_failures
                  (fresh (collecting [10; 11; 12])))))
  = Some ["mean"%string; "variance"%string] /\
  exists ds store x rest l',
    assoc_lookup "devel"
      (_data_sets (self (fresh (with_features PNone (Some keep_first)))))
      = Some ds /\
    features (self (fresh (with_features PNone (Some keep_first)))) !! "devel"
      = Some store /\
    modify keep_first ds store
      (feature_labels (self (fresh (with_features PNone (Some keep_first)))))
      = (x :: rest, Some l') /\
    features
      (self (snd (_run_valid_or_eval "devel"
                    (fresh (with_features PNone (Some keep_first)))))) !! "devel"
      = Some (x :: rest) /\
    feature_labels
      (self (snd (_run_valid_or_eval "devel"
                    (fresh (with_features PNone (Some keep_first))))))
      = Some l' /\
    last (item_shape x) = Some (length l').
Proof.
  destruct feature_names_are_seeded_once as (_ & Hseed & _ & Hmod).
  split.
  - apply (Hseed "devel"%string two_leading_failures
             (fresh (collecting [10; 11; 12]))).
    + reflexivity.
    + vm_compute. reflexivity.
  - apply (Hmod "devel"%string keep_first
             (fresh (with_features PNone (Some keep_first)))).
    + reflexivity.
    + vm_compute. reflexivity.
Defined.

(** Witness of C4. *)
Lemma nothing_to_do_is_rejected_witness :
  _run_checks (fresh idle) =
    (Raise (AssertionError "please specify what to do"), fresh idle) /\
  run (fresh idle) =
    (Raise (AssertionError "please specify what to do"),
     {| self := idle; journal := [] ++ [Logged "INFO" "Started on {} at {}"] |}).
Proof. exact (nothing_to_do_is_rejected idle [] eq_refl eq_refl eq_refl). Defined.

(** Witness of C5: Scenario A with 0, 1 and 2 splits. *)
Lemma cross_validation_needs_two_splits_witness :
  fst (_run_checks (fresh (configuration None (PInt 1) (PInt 0) PNone
                             (Some standard_scaler))))
    = Raise (AssertionError "n_repetitions has to be an integer larger than 0") /\
  fst (_run_checks (fresh (configuration None (PInt 1) (PInt 1) PNone
                             (Some standard_scaler))))
    = Raise (AssertionError "need at least two splits for cv") /\
  fst (_run_checks (fresh (configuration None (PInt 1) (PInt 2) PNone
                             (Some standard_scaler))))
    = Return tt.
Proof.
  assert (Hok : fst (_run_checks (fresh scenario_A)) = Return tt)
    by (vm_compute; reflexivity).
  pose proof (cross_validation_needs_two_splits
                (Some (recordings ten_labels)) (Some forest)
                (Some (OneMetric tt)) (PInt 1) (Some cleaner) PNone
                (Some generator) (PDict ∅) (PBool false) PNone
                (Some standard_scaler) None (PStr "INFO") (PInt 5) Hok) as T.
  split; [| split].
  - apply (T 0). lia.
  - apply (T 1). reflexivity.
  - apply (T 2). lia.
Defined.

(** Witness of C6: Scenario A with the job counts -2, -1 and 4. *)
Lemma parallelism_count_is_checked_witness :
  fst (_run_checks (fresh (configuration None (PInt (-2)) (PInt 5) PNone
                             (Some standard_scaler))))
    = Raise (AssertionError
               "n_jobs has to be an integer larger or equal to -1") /\
  fst (_run_checks (fresh (configuration None (PInt (-1)) (PInt 5) PNone
                             (Some standard_scaler))))
    = Return tt /\
  fst (_run_checks (fresh (configuration None (PInt 4) (PInt 5) PNone
                             (Some standard_scaler))))
    = Return tt.
Proof.
  assert (Hok : fst (_run_checks (fresh scenario_A)) = Return tt)
    by (vm_compute; reflexivity).
  pose proof (parallelism_count_is_checked
                (Some (recordings ten_labels)) (Some forest)
                (Some (OneMetric tt)) None (Some cleaner) PNone
                (Some generator) (PDict ∅) (PInt 5) (PBool false) PNone
                (Some standard_scaler) None (PStr "INFO") (PInt 1) Hok)
    as (_ & Hminus2 & Hpass).
  split; [exact Hminus2 | split].
  - apply (Hpass (-1)). left. reflexivity.
  - apply (Hpass 4). right. lia.
Defined.

(** Witness of C7: Scenario A with a PCA threshold of 0.95 and no
    scaler. *)
Lemma pca_without_scaler_only_warns_witness :
  fst (_run_checks (fresh (configuration None (PInt 1) (PInt 5)
                             (PFloat (95 # 100)) None))) = Return tt /\
  journaled (Logged "WARNING" "using pca on unscaled features")
    (snd (run (fresh (configuration None (PInt 1) (PInt 5)
                        (PFloat (95 # 100)) None)))).
Proof.
  assert (Hok : fst (_run_checks (fresh (configuration None (PInt 1) (PInt 5)
                                           (PFloat (95 # 100))
                                           (Some standard_scaler))))
                = Return tt)
    by (vm_compute; reflexivity).
  pose proof (pca_without_scaler_only_warns
                (Some (recordings ten_labels)) (Some forest)
                (Some (OneMetric tt)) None (PInt 1) (Some cleaner) PNone
                (Some generator) (PDict ∅) (PInt 5) (PBool false)
                (PFloat (95 # 100)) None (PStr "INFO") (Some standard_scaler)
                eq_refl Hok) as (Hpass & _ & Hwarn & _).
  split; [exact Hpass | exact Hwarn].
Defined.

(** Witness of C8: the stand-in validation answers with a PCA-components
    table of three columns when a threshold is set, and with a
    feature-importances table of two columns otherwise. *)
Lemma validation_labels_auxiliary_tables_witness :
  (fst (_validate (fresh (with_features (PInt 2) None))) = Return tt /\
   info (self (snd (_validate (fresh (with_features (PInt 2) None))))) !! "valid"
   = Some (<["pca_components" :=
               ITable {| columns := ["mean"%string; "variance"%string] ++
                                    ["id"%string];
                         values := values (blank 3) |}]>
             (<["pca_components" := ITable (blank 3)]> ∅))) /\
  (fst (_validate (fresh (with_features PNone None))) = Return tt /\
   info (self (snd (_validate (fresh (with_features PNone None))))) !! "valid"
   = Some (<["feature_importances" :=
               ITable {| columns := ["mean"%string; "variance"%string];
                         values := values (blank 2) |}]>
             (<["feature_importances" := ITable (blank 2)]> ∅))).
Proof.
  split.
  - refine (proj1 (validation_labels_auxiliary_tables
                     (fresh (with_features (PInt 2) None)) (recordings [0; 1])
                     [Values (values two_features); Values (values two_features)]
                     (<["train" := [0; 1]]> (<["valid" := [0; 1]]> ∅))
                     (<["valid" := <["pca_components" := ITable (blank 3)]> ∅]> ∅)
                     (<["pca_components" := ITable (blank 3)]> ∅)
                     ["mean"%string; "variance"%string]
                     _ _ _ _ _ _) (blank 3) _ _);
      reflexivity.
  - refine (proj2 (validation_labels_auxiliary_tables
                     (fresh (with_features PNone None)) (recordings [0; 1])
                     [Values (values two_features); Values (values two_features)]
                     (<["train" := [0; 1]]> (<["valid" := [0; 1]]> ∅))
                     (<["valid" := <["feature_importances" := ITable (blank 2)]> ∅]> ∅)
                     (<["feature_importances" := ITable (blank 2)]> ∅)
                     ["mean"%string; "variance"%string]
                     _ _ _ _ _ _) (blank 2) _ _ _);
      reflexivity.
Defined.

(** Counterexample to C10 as it is stated: in a valid configuration without
    cleaning or feature-generation parameters, whose evaluation set has no
    example, both stages of the evaluation split return without reading
    the missing attribute. *)
Lemma stages_return_on_an_empty_batch :
  fst (_run_checks (fresh empty_evaluation)) = Return tt /\
  cleaning_procedure empty_evaluation = None /\
  feature_generation_procedure empty_evaluation = None /\
  fst (_clean "eval" (fresh empty_evaluation)) = Return tt /\
  fst (_generate_features "eval" (fresh empty_evaluation)) = Return tt.
Proof. vm_compute. repeat split. Qed.

(** Witness of C10: on the instance of Scenario A the cleaning stage
    fails on its first example, the feature-generation stage on currying
    its parameters. *)
Lemma stages_read_attributes_never_assigned_witness :
  _clean "devel" (fresh scenario_A) =
    (Raise (AttributeError "cleaning_procedure"),
     {| self := scenario_A;
        journal := [] ++ [Logged "INFO" ("Making clean (" +:+ "devel" +:+ ")")] |}) /\
  _generate_features "devel" (fresh scenario_A) =
    (Raise (AttributeError "feature_generation_procedure"),
     {| self := scenario_A;
        journal := [] ++ [Logged "INFO" ("Generating features (" +:+ "devel" +:+ ")")] |}).
Proof.
  destruct stages_read_attributes_never_assigned
    as (_ & _ & Hclean & Hgenerate & _).
  split.
  - apply (Hclean "devel"%string (fresh scenario_A)); [reflexivity|].
    right. split; [reflexivity|].
    exists (recordings ten_labels), (signal, 100, 0),
      (map (fun y => (signal, 100, y)) [1; 0; 1; 0; 1; 0; 1; 0; 1]).
    split; reflexivity.
  - apply (Hgenerate "devel"%string (fresh scenario_A)); [reflexivity|].
    left. reflexivity.
Defined.

(** ** Instances of the further properties *)

Lemma repetitions_with_evaluation_set_witness :
  fst (_run_checks
         (fresh (__init__ (Some (recordings ten_labels)) (Some forest)
                   (Some (OneMetric tt)) (Some (recordings [0; 1])) (PInt 1)
                   None PNone None PNone (PInt 1) (PBool false) PNone
                   (Some standard_scaler) None (PStr "INFO"))))
    = Return tt /\
  fst (_run_checks
         (fresh (__init__ (Some (recordings ten_labels)) (Some forest)
                   (Some (OneMetric tt)) (Some (recordings [0; 1])) (PInt 1)
                   None PNone None PNone (PBool true) (PBool false) PNone
                   (Some standard_scaler) None (PStr "INFO"))))
    = Raise (AssertionError "n_repetitions has to be an integer larger than 0").
Proof.
  assert (Hok : fst (_run_checks (fresh features_only)) = Return tt)
    by (vm_compute; reflexivity).
  pose proof (repetitions_with_evaluation_set
                (Some (recordings ten_labels)) (Some forest)
                (Some (OneMetric tt)) (recordings [0; 1]) (PInt 1) None PNone
                None PNone (PBool false) PNone (Some standard_scaler) None
                (PStr "INFO") (PInt 3) Hok) as T.
  split; [exact (T (PInt 1)) | exact (T (PBool true))].
Defined.

Lemma validation_needs_a_first_example_witness :
  fst (_run_checks
         (fresh (__init__ (Some (recordings [])) (Some forest)
                   (Some (OneMetric tt)) None (PInt 1) (Some cleaner) PNone
                   (Some generator) (PDict ∅) (PInt 5) (PBool false) PNone
                   (Some standard_scaler) None (PStr "INFO"))))
    = Raise (IndexError "list index out of range") /\
  fst (_run_checks
         (fresh (__init__ None (Some forest)
                   (Some (OneMetric tt)) None (PInt 1) (Some cleaner) PNone
                   (Some generator) (PDict ∅) (PInt 5) (PBool false) PNone
                   (Some standard_scaler) None (PStr "INFO"))))
    = Raise (TypeError "'NoneType' object is not subscriptable").
Proof.
  assert (Hok : fst (_run_checks (fresh scenario_A)) = Return tt)
    by (vm_compute; reflexivity).
  pose proof (validation_needs_a_first_example
              (Some forest) (Some (OneMetric tt)) None (PInt 1) (Some cleaner)
              PNone (Some generator) (PDict ∅) (PInt 5) (PBool false) PNone
              (Some standard_scaler) None (PStr "INFO")
              (Some (recordings ten_labels)) Hok) as [Hempty Hnone].
  split; [exact (Hempty (recordings []) eq_refl) | exact Hnone].
Defined.

Lemma pca_threshold_is_checked_when_truthy_witness :
  fst (_run_checks (fresh (configuration None (PInt 1) (PInt 5) (PBool true)
                             (Some standard_scaler))))
    = Raise (AssertionError "pca_thresh has to be either int or float") /\
  fst (_run_checks (fresh (configuration None (PInt 1) (PInt 5) (PStr "")
                             (Some standard_scaler))))
    = Return tt /\
  fst (_run_checks (fresh (configuration None (PInt 1) (PInt 5)
                             (PFloat (95 # 100)) (Some standard_scaler))))
    = Return tt.
Proof.
  assert (Hok : fst (_run_checks (fresh scenario_A)) = Return tt)
    by (vm_compute; reflexivity).
  pose proof (pca_threshold_is_checked_when_truthy
                (Some (recordings ten_labels)) (Some forest)
                (Some (OneMetric tt)) None (PInt 1) (Some cleaner) PNone
                (Some generator) (PDict ∅) (PInt 5) (PBool false)
                (Some standard_scaler) None (PStr "INFO") PNone Hok) as T.
  split; [exact (T (PBool true)) | split].
  - exact (T (PStr "")).
  - exact (T (PFloat (95 # 100))).
Defined.

Lemma validation_drops_a_missing_evaluation_split_witness :
  _data_sets (self (snd (_run_checks (fresh scenario_A))))
    = [("devel"%string, Some (recordings ten_labels))] /\
  _data_sets (self (snd (_run_checks (fresh features_only))))
    = [("devel"%string, Some (recordings ten_labels));
       ("eval"%string, Some (recordings [0; 1]))].
Proof.
  assert (Hok : fst (_run_checks (fresh scenario_A)) = Return tt)
    by (vm_compute; reflexivity).
  assert (Hok' : fst (_run_checks (fresh features_only)) = Return tt)
    by (vm_compute; reflexivity).
  split.
  - exact (proj1 (proj1 (validation_drops_a_missing_evaluation_split
                           (Some (recordings ten_labels)) (Some forest)
                           (Some (OneMetric tt)) (PInt 1) (Some cleaner) PNone
                           (Some generator) (PDict ∅) (PInt 5) (PBool false)
                           PNone (Some standard_scaler) None (PStr "INFO"))
                    Hok)).
  - exact (proj1 (proj2 (validation_drops_a_missing_evaluation_split
                           (Some (recordings ten_labels)) (Some forest)
                           (Some (OneMetric tt)) (PInt 1) None PNone None PNone
                           (PInt 3) (PBool false) PNone (Some standard_scaler)
                           None (PStr "INFO"))
                    (recordings [0; 1]) Hok')).
Defined.

Lemma validation_normalises_metrics_and_job_count_witness :
  _metrics (self (snd (_run_checks
     (fresh (configuration None (PInt 4) (PInt 5) PNone
               (Some standard_scaler))))))
    = Some (MetricList [tt]) /\
  _clf (self (snd (_run_checks
     (fresh (configuration None (PInt 4) (PInt 5) PNone
               (Some standard_scaler))))))
    = Some {| has_fit := true; has_predict := true;
              clf_n_jobs := Some (PInt 4) |}.
Proof.
  assert (Hok : fst (_run_checks
                       (fresh (configuration None (PInt 4) (PInt 5) PNone
                                 (Some standard_scaler)))) = Return tt)
    by (vm_compute; reflexivity).
  exact (validation_normalises_metrics_and_job_count
           (configuration None (PInt 4) (PInt 5) PNone (Some standard_scaler))
           [] Hok).
Defined.

Lemma revalidation_without_evaluation_set_fails_witness :
  fst (_run_checks (snd (_run_checks (fresh scenario_A))))
    = Raise (KeyError "eval").
Proof.
  assert (Hok : fst (_run_checks (fresh scenario_A)) = Return tt)
    by (vm_compute; reflexivity).
  exact (revalidation_without_evaluation_set_fails
           (Some (recordings ten_labels)) (Some forest) (Some (OneMetric tt))
           (PInt 1) (Some cleaner) PNone (Some generator) (PDict ∅) (PInt 5)
           (PBool false) PNone (Some standard_scaler) None (PStr "INFO") Hok).
Defined.

Lemma loading_appends_the_items_witness :
  fst (_load_cleaned_or_features "devel" "features" (fresh features_only))
    = Return tt /\
  features (self (snd (_load_cleaned_or_features "devel" "features"
                         (fresh features_only)))) !! "devel"
    = Some ([] ++ map (fun x => Frame (item_data x))
                    (examples (recordings ten_labels))) /\
  clean (self (snd (_load_cleaned_or_features "devel" "clean"
                      (fresh features_only)))) !! "devel"
    = Some ([] ++ map item_data (examples (recordings ten_labels))).
Proof.
  destruct (loading_appends_the_items "devel" (recordings ten_labels) ∅
              (fresh features_only) eq_refl eq_refl) as [Hfeatures Hclean].
  destruct (Hfeatures [] eq_refl) as (Hret & Hstore & _).
  destruct (Hclean [] eq_refl) as (_ & Hsignals & _).
  repeat apply conj; assumption.
Defined.

Lemma run_with_a_procedure_raises_witness :
  fst (run (fresh scenario_A)) = Raise (AttributeError "cleaning_procedure") /\
  fst (run (fresh generation_only))
    = Raise (AttributeError "feature_generation_procedure").
Proof.
  assert (Hok : fst (_run_checks (fresh scenario_A)) = Return tt)
    by (vm_compute; reflexivity).
  assert (Hok' : fst (_run_checks (fresh generation_only)) = Return tt)
    by (vm_compute; reflexivity).
  split.
  - exact (run_with_a_procedure_raises
             (Some (recordings ten_labels)) (Some forest) (Some (OneMetric tt))
             None (PInt 1) (Some cleaner) PNone (Some generator) (PDict ∅)
             (PInt 5) (PBool false) PNone (Some standard_scaler) None
             (PStr "INFO") Hok eq_refl).
  - exact (run_with_a_procedure_raises
             (Some (recordings ten_labels)) (Some forest) (Some (OneMetric tt))
             None (PInt 1) None PNone (Some generator) PNone
             (PInt 5) (PBool false) PNone (Some standard_scaler) None
             (PStr "INFO") Hok' eq_refl).
Defined.



Lemma validation_stage_failures_witness :
  fst (_validate (fresh short_of_vectors))
    = Raise (AssertionError "number of devel examples and labels differs!") /\
  self (snd (_validate (fresh short_of_vectors))) = short_of_vectors.
Proof.
  exact (proj1 (validation_stage_failures
                  [Values (values two_features)] (recordings [0; 1])
                  (fresh short_of_vectors) eq_refl eq_refl)
           ltac:(cbn; discriminate)).
Defined.

Lemma final_evaluation_merges_its_results_witness :
  fst (_final_evaluate (fresh (with_features PNone None))) = Return tt /\
  predictions (self (snd (_final_evaluate (fresh (with_features PNone None)))))
    !! "eval" = Some [1].
Proof.
  pose proof (final_evaluation_merges_its_results
                [Values (values two_features); Values (values two_features)]
                (recordings [0; 1]) (recordings [1])
                (fresh (with_features PNone None)) eq_refl eq_refl eq_refl)
    as (_ & _ & Hmerge).
  destruct (Hmerge [Values (values two_features)]
              (<["train" := [0; 1]]> (<["eval" := [1]]> ∅)) ∅
              eq_refl eq_refl eq_refl) as (Hret & Hpred & _).
  split; [exact Hret | exact (Hpred "eval"%string)].
Defined.

Lemma modifier_answer_is_stored_unchecked_witness :
  fst (_run_valid_or_eval "devel" (fresh (with_features PNone (Some drop_all))))
    = Raise (AssertionError "removed all feature vectors") /\
  features (self (snd (_run_valid_or_eval "devel"
                         (fresh (with_features PNone (Some drop_all))))))
    !! "devel" = Some [].
Proof.
  pose proof (modifier_answer_is_stored_unchecked "devel" drop_all
                (Some (recordings [0; 1]))
                [Values (values two_features); Values (values two_features)]
                (fresh (with_features PNone (Some drop_all)))
                eq_refl eq_refl eq_refl eq_refl) as (Hempty & _).
  destruct (Hempty (Some []) eq_refl) as (Hret & Hstore & _).
  split; assumption.
Defined.

Lemma performance_analysis_ignores_its_argument_witness :
  performances (self (snd (_analyze_performance "eval"
                             (fresh (with_features PNone None))))) !! "eval"
    = performances (self (fresh (with_features PNone None))) !! "eval".
Proof.
  pose proof (performance_analysis_ignores_its_argument "eval" "devel"
                (fresh (with_features PNone None))) as (_ & _ & _ & Hkeys & _).
  apply Hkeys; discriminate.
Defined.

Lemma collection_without_failure_witness :
  fst (collect_feature_vectors "devel" (map Some [two_features; one_feature])
         (fresh (collecting [10; 11]))) = Return tt /\
  features (self (snd (collect_feature_vectors "devel"
                         (map Some [two_features; one_feature])
                         (fresh (collecting [10; 11]))))) !! "devel"
    = Some ([] ++ map (fun v => Values (values v)) [two_features; one_feature]).
Proof.
  destruct (collection_without_failure "devel" [two_features; one_feature] []
              (recordings [10; 11]) (fresh (collecting [10; 11]))
              eq_refl eq_refl) as (Hret & Hstore & _).
  split; assumption.
Defined.

Lemma single_failure_removes_its_label_witness :
  fst (collect_feature_vectors "devel"
         (map Some [two_features; two_features] ++
          None :: map Some [two_features; two_features])
         (fresh (collecting [10; 11; 12; 13; 14]))) = Return tt /\
  assoc_lookup "devel"
    (_data_sets
       (self (snd (collect_feature_vectors "devel"
                     (map Some [two_features; two_features] ++
                      None :: map Some [two_features; two_features])
                     (fresh (collecting [10; 11; 12; 13; 14]))))))
    = Some (Some (set_targets ([10; 11] ++ [13; 14])
                    (recordings [10; 11; 12; 13; 14]))).
Proof.
  destruct (single_failure_removes_its_label "devel"
              [two_features; two_features] [two_features; two_features]
              [10; 11] 12 [13; 14] (recordings [10; 11; 12; 13; 14])
              (fresh (collecting [10; 11; 12; 13; 14]))
              eq_refl eq_refl eq_refl eq_refl eq_refl)
    as (Hret & _ & Hlabels & _).
  split; assumption.
Defined.

Lemma cleaning_with_the_attribute_assigned_witness :
  fst (_clean "devel" (fresh (patched_cleaning [0; 1]))) = Return tt /\
  clean (self (snd (_clean "devel" (fresh (patched_cleaning [0; 1])))))
    !! "devel" = Some [signal; signal] /\
  info (self (snd (_clean "devel" (fresh (patched_cleaning [0; 1])))))
    !! "devel" = Some (<["sfreq" := ISfreq 100]> ∅).
Proof.
  destruct (cleaning_with_the_attribute_assigned "devel" (recordings [0; 1])
              cleaner ∅ [] (fresh (patched_cleaning [0; 1]))
              eq_refl eq_refl eq_refl eq_refl eq_refl eq_refl eq_refl)
    as (Hret & Hstore & Hinfo & _).
  repeat apply conj; assumption.
Defined.

Lemma generation_with_the_attribute_assigned_witness :
  _generate_features "devel" (fresh (patched [10; 11] [signal; flat_signal])) =
  collect_feature_vectors "devel"
    (map (fun x => call (curried picky_generator PNone) ∅ x 100)
       [signal; flat_signal])
    {| self := with_feature_generation_procedure picky_generator
                 (patched [10; 11] [signal; flat_signal]);
       journal :=
         ([] ++ [Logged "INFO" ("Generating features (" +:+ "devel" +:+ ")")]) ++
         replicate (length [signal; flat_signal])
           (Applied "feature_generation_procedure") |}.
Proof.
  exact (generation_with_the_attribute_assigned "devel" picky_generator
           [signal; flat_signal] (<["sfreq" := ISfreq 100]> ∅) 100
           (fresh (patched [10; 11] [signal; flat_signal]))
           eq_refl eq_refl eq_refl eq_refl eq_refl eq_refl eq_refl).
Defined.

Lemma plot_only_analyzes_correlations_witness :
  fst (plot (fun _ _ _ => Return tt)
         (fun _ _ _ => Raise (ValueError "feature importances"))
         (fun _ _ => Raise (ValueError "pca components"))
         PNone (fresh (patched [10; 11] [signal]))) = Return tt.
Proof.
  pose proof (plot_only_analyzes_correlations
                (fun _ _ _ => Return tt)
                (fun _ _ _ => Raise (ValueError "feature importances"))
                (fun _ _ _ => Return tt)
                (fun _ _ => Raise (ValueError "pca components"))
                (fun _ _ => Return tt)
                PNone (fresh (patched [10; 11] [signal])))
    as (_ & _ & Houtcome & _).
  exact (Houtcome [] (<["sfreq" := ISfreq 100]> ∅) eq_refl eq_refl).
Defined.
